(** * Cauldron recipe-schema tools: a shallow embedding and its properties

    The development follows the Python sources under [tools/]:

    - [recipe_schema_model/schema_model.py]  (feature extraction, rule engine,
      n-gram Naive Bayes classifier, section tracker, hold-out split);
    - [recipe_schema_model/regression_metrics.py]  (regression harness);
    - [recipe_schema_lab/lab_recipe.py], [lab_config.py]  (ingredient parser,
      step assembler, recipe assembler);
    - [recipe_schema_lab/lab_handler.py], [lab_predictor.py]  (retrain
      pipeline with backup and rollback).

    Conventions.  A Python [str] is a list of Unicode code points.  What
    Python takes from its Unicode database and standard library
    ([str.lower], [str.isspace], the [re] classes, [html.unescape],
    [urlparse]) is a parameter of the development, the record [PyLib];
    [latin1] is the instance used to evaluate concrete documents.
    Quantities of the ingredient parser are exact rationals with the two
    infinities and NaN added ([pyfloat]); classifier scores, which go through
    [math.log] and [math.exp], are real numbers.  Exceptions are the [None]
    of an option type. *)

From Stdlib Require Import ZArith NArith QArith Qround Reals Lra Lia List String Ascii Bool.
From Stdlib Require Lqa.
From stdpp Require Import base option list gmap sets strings.
Import ListNotations.

Set Default Proof Using "Type".

(** ** Text *)

Definition char := N.
Definition str := list char.

(** An ASCII literal as a Python string. *)
Definition py (s : string) : str :=
  List.map N_of_ascii (list_ascii_of_string s).

Definition chr (s : string) : char :=
  match py s with c :: _ => c | [] => 0%N end.

Definition char_eqb (a b : char) : bool := N.eqb a b.

Fixpoint str_eqb (a b : str) : bool :=
  match a, b with
  | [], [] => true
  | x :: a', y :: b' => char_eqb x y && str_eqb a' b'
  | _, _ => false
  end.

(** [a < b] for Python strings: lexicographic on code points. *)
Fixpoint str_ltb (a b : str) : bool :=
  match a, b with
  | _, [] => false
  | [], _ :: _ => true
  | x :: a', y :: b' =>
      if N.ltb x y then true else if N.ltb y x then false else str_ltb a' b'
  end.

Definition str_leb (a b : str) : bool := negb (str_ltb b a).

Definition in_chars (cs : str) (c : char) : bool :=
  existsb (char_eqb c) cs.

Definition in_range (lo hi : string) (c : char) : bool :=
  (N.leb (chr lo) c && N.leb c (chr hi))%bool.

Definition mem_str (x : str) (xs : list str) : bool := existsb (str_eqb x) xs.

Fixpoint startswith (s p : str) : bool :=
  match p, s with
  | [], _ => true
  | y :: p', x :: s' => char_eqb x y && startswith s' p'
  | _ :: _, [] => false
  end.

Definition endswith (s p : str) : bool := startswith (rev s) (rev p).

(** [needle in s] *)
Fixpoint contains (s needle : str) : bool :=
  startswith s needle ||
  match s with
  | [] => false
  | _ :: s' => contains s' needle
  end.

Definition substr (s : str) (a b : nat) : str := firstn (b - a) (skipn a s).

(** [s.replace(old, new)] for a non-empty [old]. *)
Fixpoint replace_fuel (fuel : nat) (s old new : str) : str :=
  match fuel with
  | O => s
  | S f =>
      match s with
      | [] => []
      | c :: s' =>
          if startswith s old
          then new ++ replace_fuel f (skipn (length old) s) old new
          else c :: replace_fuel f s' old new
      end
  end.

Definition replace (s old new : str) : str :=
  replace_fuel (S (length s)) s old new.

(** [s.count(sub)] for a single character. *)
Definition count_char (s : str) (c : char) : nat :=
  length (List.filter (char_eqb c) s).

(** [sep.join(parts)] *)
Fixpoint join (sep : str) (parts : list str) : str :=
  match parts with
  | [] => []
  | [p] => p
  | p :: ps => p ++ sep ++ join sep ps
  end.

Fixpoint lstrip_by (p : char -> bool) (s : str) : str :=
  match s with
  | c :: s' => if p c then lstrip_by p s' else s
  | [] => []
  end.

Definition rstrip_by (p : char -> bool) (s : str) : str :=
  rev (lstrip_by p (rev s)).

Definition strip_by (p : char -> bool) (s : str) : str :=
  rstrip_by p (lstrip_by p s).

(** [s.split(sep, 1)] for a one-character separator: the text before the
    first separator and, when there is one, the text after it. *)
Fixpoint split1 (sep : char) (s : str) : str * option str :=
  match s with
  | [] => ([], None)
  | c :: s' =>
      if char_eqb c sep then ([], Some s')
      else let '(a, b) := split1 sep s' in (c :: a, b)
  end.

(** [s.split(sep)] for a one-character separator. *)
Fixpoint split_on (sep : char) (s : str) : list str :=
  match s with
  | [] => [[]]
  | c :: s' =>
      match split_on sep s' with
      | p :: ps => if char_eqb c sep then [] :: p :: ps else (c :: p) :: ps
      | [] => [[c]]
      end
  end.

(** Split on the characters of a class, dropping empty pieces:
    [s.split()] when the class is whitespace. *)
Fixpoint fields_acc (p : char -> bool) (s : str) (cur : str) : list str :=
  match s with
  | [] => match cur with [] => [] | _ => [rev cur] end
  | c :: s' =>
      if p c
      then match cur with
           | [] => fields_acc p s' []
           | _ => rev cur :: fields_acc p s' []
           end
      else fields_acc p s' (c :: cur)
  end.

Definition fields (p : char -> bool) (s : str) : list str := fields_acc p s [].

(** Stable insertion sort: Python's [sorted] with a key order. *)
Section Sorted.
Context {A : Type} (leb : A -> A -> bool).

Fixpoint insert_sorted (x : A) (l : list A) : list A :=
  match l with
  | [] => [x]
  | y :: l' => if leb x y then x :: l else y :: insert_sorted x l'
  end.

Definition sorted (l : list A) : list A :=
  fold_right insert_sorted [] l.
End Sorted.

(** ** What Python supplies *)

Record PyLib := {
  py_isspace : char -> bool;      (* str.isspace, the class \s *)
  py_isdecimal : char -> bool;    (* the class \d *)
  py_isdigit : char -> bool;      (* str.isdigit *)
  py_isalnum : char -> bool;      (* str.isalnum; \w adds the underscore *)
  py_isupper : str -> bool;       (* str.isupper *)
  py_islower : str -> bool;       (* str.islower *)
  py_lower : str -> str;          (* str.lower *)
  py_title : str -> str;          (* str.title *)
  py_casefold : str -> str;       (* str.casefold *)
  re_lower : char -> char;        (* case folding of re.IGNORECASE *)
  re_upper : char -> char;
  py_digit_value : char -> N;     (* value of a \d character for int() *)
  html_unescape : str -> str;     (* html.unescape *)
  url_netloc : str -> str         (* urlparse(url).netloc *)
}.

(** ** Regular expressions

    A backtracking matcher with the priorities of Python's [re]: alternatives
    left to right, greedy repetition, capturing groups, [^], [$], [\b],
    lookahead and one-character lookbehind.  Every repeated body in the
    sources consumes at least one character, which the repetition requires of
    each iteration. *)

Inductive re :=
| Eps
| Chr (p : char -> bool)
| Cat (a b : re)
| Alt (a b : re)
| Rep (lo : nat) (hi : option nat) (a : re)
| Grp (i : nat) (a : re)
| Bol
| Eol
| WordB (w : char -> bool)
| Ahead (a : re)
| Behind (p : char -> bool)
| NotBehind (p : char -> bool).

Record mstate := {
  ms_prev : option char;      (* the character before the position *)
  ms_rest : str;              (* the text from the position on *)
  ms_pos : nat;
  ms_caps : list (nat * str)  (* groups, the latest first *)
}.

Definition ms_advance (c : char) (rest : str) (s : mstate) : mstate :=
  {| ms_prev := Some c; ms_rest := rest; ms_pos := S (ms_pos s); ms_caps := ms_caps s |}.

Definition ms_capture (i : nat) (s0 s : mstate) : mstate :=
  {| ms_prev := ms_prev s; ms_rest := ms_rest s; ms_pos := ms_pos s;
     ms_caps := (i, firstn (ms_pos s - ms_pos s0) (ms_rest s0)) :: ms_caps s |}.

Definition ms_keep_caps (s0 s : mstate) : mstate :=
  {| ms_prev := ms_prev s0; ms_rest := ms_rest s0; ms_pos := ms_pos s0;
     ms_caps := ms_caps s |}.

Definition opt_test (p : char -> bool) (c : option char) : bool :=
  match c with Some x => p x | None => false end.

Fixpoint rep_loop (step : mstate -> (mstate -> option mstate) -> option mstate)
    (fuel lo : nat) (s : mstate) (k : mstate -> option mstate) : option mstate :=
  match fuel with
  | O => match lo with O => k s | S _ => None end
  | S f =>
      match step s (fun s' =>
                      if Nat.ltb (ms_pos s) (ms_pos s')
                      then rep_loop step f (Nat.pred lo) s' k
                      else None) with
      | Some r => Some r
      | None => match lo with O => k s | S _ => None end
      end
  end.

Fixpoint mt (r : re) (s : mstate) (k : mstate -> option mstate) : option mstate :=
  match r with
  | Eps => k s
  | Chr p =>
      match ms_rest s with
      | c :: rest => if p c then k (ms_advance c rest s) else None
      | [] => None
      end
  | Cat a b => mt a s (fun s' => mt b s' k)
  | Alt a b =>
      match mt a s k with
      | Some r => Some r
      | None => mt b s k
      end
  | Rep lo hi a =>
      rep_loop (mt a)
        (match hi with Some h => h | None => S (length (ms_rest s)) end) lo s k
  | Grp i a => mt a s (fun s' => k (ms_capture i s s'))
  | Bol => match ms_pos s with O => k s | S _ => None end
  | Eol =>
      match ms_rest s with
      | [] => k s
      | [c] => if char_eqb c 10%N then k s else None
      | _ => None
      end
  | WordB w =>
      if xorb (opt_test w (ms_prev s)) (opt_test w (head (ms_rest s)))
      then k s else None
  | Ahead a =>
      match mt a s (fun s' => Some s') with
      | Some s' => k (ms_keep_caps s s')
      | None => None
      end
  | Behind p => if opt_test p (ms_prev s) then k s else None
  | NotBehind p => if opt_test p (ms_prev s) then None else k s
  end.

(** A match object: [span()], [group(0)] and the numbered groups. *)
Record rmatch := {
  m_start : nat;
  m_end : nat;
  m_text : str;
  m_caps : list (nat * str)
}.

Fixpoint assoc_nat {A : Type} (i : nat) (l : list (nat * A)) : option A :=
  match l with
  | [] => None
  | (j, x) :: l' => if Nat.eqb i j then Some x else assoc_nat i l'
  end.

Definition matched {A : Type} (o : option A) : bool :=
  match o with Some _ => true | None => false end.

(** [m.group(i)]; [None] when the group took no part in the match. *)
Definition group (m : rmatch) (i : nat) : option str := assoc_nat i (m_caps m).

(** [m.group(i) or ""] *)
Definition group_or_empty (m : rmatch) (i : nat) : str :=
  match group m i with Some g => g | None => [] end.

(** One attempt at a position; [must_advance] refuses an empty match. *)
Definition match_at (r : re) (prev : option char) (rest : str) (pos : nat)
    (must_advance full : bool) : option rmatch :=
  let s0 := {| ms_prev := prev; ms_rest := rest; ms_pos := pos; ms_caps := [] |} in
  match mt r s0 (fun s' =>
                   if (must_advance && Nat.eqb (ms_pos s') pos)%bool then None
                   else if (full && negb (Nat.eqb (length (ms_rest s')) 0))%bool then None
                   else Some s') with
  | Some s' =>
      Some {| m_start := pos; m_end := ms_pos s';
              m_text := firstn (ms_pos s' - pos) rest; m_caps := ms_caps s' |}
  | None => None
  end.

Definition re_match (r : re) (s : str) : option rmatch :=
  match_at r None s 0 false false.

Definition re_fullmatch (r : re) (s : str) : option rmatch :=
  match_at r None s 0 false true.

(** All non-overlapping matches, left to right, as [re.finditer] yields them:
    an empty match is followed by a second attempt at the same position that
    has to advance. *)
Fixpoint scan (r : re) (prev : option char) (rest : str) (pos resume : nat)
    : list rmatch :=
  let here :=
    if Nat.ltb pos resume then ([], resume)
    else match match_at r prev rest pos false false with
         | None => ([], resume)
         | Some m1 =>
             if Nat.eqb (m_end m1) pos
             then match match_at r prev rest pos true false with
                  | Some m2 => ([m1; m2], m_end m2)
                  | None => ([m1], resume)
                  end
             else ([m1], m_end m1)
         end in
  match rest with
  | [] => fst here
  | c :: rest' => fst here ++ scan r (Some c) rest' (S pos) (snd here)
  end.

Definition re_finditer (r : re) (s : str) : list rmatch := scan r None s 0 0.

Definition re_search (r : re) (s : str) : option rmatch := head (re_finditer r s).

(** [re.findall] of a pattern without groups. *)
Definition re_findall (r : re) (s : str) : list str :=
  List.map m_text (re_finditer r s).

Fixpoint sub_pieces (repl : rmatch -> str) (s : str) (from : nat) (ms : list rmatch) : str :=
  match ms with
  | [] => skipn from s
  | m :: ms' => substr s from (m_start m) ++ repl m ++ sub_pieces repl s (m_end m) ms'
  end.

(** [re.sub(r, repl, s)], the replacement computed from the match. *)
Definition re_sub_with (r : re) (repl : rmatch -> str) (s : str) : str :=
  sub_pieces repl s 0 (re_finditer r s).

Definition re_sub (r : re) (repl : str) (s : str) : str :=
  re_sub_with r (fun _ => repl) s.

Fixpoint split_pieces (s : str) (from : nat) (ms : list rmatch) : list str :=
  match ms with
  | [] => [skipn from s]
  | m :: ms' => substr s from (m_start m) :: split_pieces s (m_end m) ms'
  end.

(** [re.split(r, s)] of a pattern without groups. *)
Definition re_split (r : re) (s : str) : list str :=
  split_pieces s 0 (re_finditer r s).

(** Pattern builders. *)
Definition seq (rs : list re) : re := fold_right Cat Eps rs.

Definition alts (rs : list re) : re :=
  match rs with
  | [] => Eps
  | r :: rs' => fold_left Alt rs' r
  end.

Definition star := Rep 0 None.
Definition plus := Rep 1 None.
Definition opt := Rep 0 (Some 1).

Definition any_of (s : string) : char -> bool := in_chars (py s).

Definition orp (p q : char -> bool) (c : char) : bool := p c || q c.
Definition notp (p : char -> bool) (c : char) : bool := negb (p c).

(** A literal, character by character. *)
Definition lit_chars (cs : str) : re := seq (List.map (fun c => Chr (char_eqb c)) cs).
Definition lit (s : string) : re := lit_chars (py s).

(** [.] without DOTALL. *)
Definition dot : re := Chr (fun c => negb (char_eqb c 10%N)).

Definition ascii_alpha : char -> bool := orp (in_range "A" "Z") (in_range "a" "z").

(** ** A Latin-1 instance of [PyLib]

    Exact on U+0000 to U+00FF, on all Unicode white space and on the
    fraction, bullet and dash characters the sources name; other code points
    are caseless symbols. *)

Module Latin1.
Definition isspace (c : char) : bool :=
  ((N.leb 9 c && N.leb c 13) || (N.leb 28 c && N.leb c 32)
   || (N.leb 8192 c && N.leb c 8202)
   || existsb (N.eqb c) [133; 160; 5760; 8232; 8233; 8239; 8287; 12288])%N%bool.

Definition isdecimal (c : char) : bool := (N.leb 48 c && N.leb c 57)%N%bool.

Definition isdigit (c : char) : bool :=
  (isdecimal c || existsb (N.eqb c) [178; 179; 185])%N%bool.

Definition isupper_c (c : char) : bool :=
  ((N.leb 65 c && N.leb c 90)
   || (N.leb 192 c && N.leb c 222 && negb (N.eqb c 215)))%N%bool.

Definition islower_c (c : char) : bool :=
  ((N.leb 97 c && N.leb c 122)
   || (N.leb 223 c && N.leb c 255 && negb (N.eqb c 247))
   || existsb (N.eqb c) [170; 181; 186])%N%bool.

Definition isalnum (c : char) : bool :=
  (isdigit c || isupper_c c || islower_c c
   || (N.leb 188 c && N.leb c 190) || (N.leb 8528 c && N.leb c 8585))%N%bool.

Definition lower_c (c : char) : char :=
  if isupper_c c then (c + 32)%N else c.

Definition upper_c (c : char) : char :=
  if (N.eqb c 255)%N then 376%N
  else if (N.eqb c 181)%N then 924%N
  else if (islower_c c && negb (existsb (N.eqb c) [170; 186; 223]))%N%bool
       then (c - 32)%N else c.

Definition lower (s : str) : str := List.map lower_c s.

Definition casefold (s : str) : str :=
  flat_map (fun c => if N.eqb c 223 then [115; 115]%N
                     else if N.eqb c 181 then [956]%N
                     else [lower_c c]) s.

Definition isupper (s : str) : bool :=
  existsb isupper_c s && negb (existsb islower_c s).

Definition islower (s : str) : bool :=
  existsb islower_c s && negb (existsb isupper_c s).

Fixpoint title_from (prev_cased : bool) (s : str) : str :=
  match s with
  | [] => []
  | c :: s' =>
      (if prev_cased then [lower_c c]
       else if N.eqb c 223 then [83; 115]%N else [upper_c c])
      ++ title_from (isupper_c c || islower_c c) s'
  end.

Definition title (s : str) : str := title_from false s.

Definition digit_value (c : char) : N := (c - 48)%N.

(** The five predefined entities; text without [&] is returned as it is. *)
Definition unescape (s : str) : str :=
  let s := replace s (py "&lt;") (py "<") in
  let s := replace s (py "&gt;") (py ">") in
  let s := replace s (py "&quot;") [34%N] in
  let s := replace s (py "&#39;") (py "'") in
  replace s (py "&amp;") (py "&").

Fixpoint after_slashes (s : str) : option str :=
  match s with
  | 47%N :: 47%N :: rest => Some rest
  | _ :: s' => after_slashes s'
  | [] => None
  end.

Fixpoint until_any (stops : str) (s : str) : str :=
  match s with
  | [] => []
  | c :: s' => if in_chars stops c then [] else c :: until_any stops s'
  end.

Definition netloc (url : str) : str :=
  match after_slashes url with
  | Some rest => until_any (py "/?#") rest
  | None => []
  end.
End Latin1.

Definition latin1 : PyLib := {|
  py_isspace := Latin1.isspace;
  py_isdecimal := Latin1.isdecimal;
  py_isdigit := Latin1.isdigit;
  py_isalnum := Latin1.isalnum;
  py_isupper := Latin1.isupper;
  py_islower := Latin1.islower;
  py_lower := Latin1.lower;
  py_title := Latin1.title;
  py_casefold := Latin1.casefold;
  re_lower := Latin1.lower_c;
  re_upper := Latin1.upper_c;
  py_digit_value := Latin1.digit_value;
  html_unescape := Latin1.unescape;
  url_netloc := Latin1.netloc
|}.

(** ** schema_model.py *)

Inductive Label := title | ingredient | step | note | header | junk.

Definition LABELS : list Label := [title; ingredient; step; note; header; junk].

Definition label_eqb (a b : Label) : bool :=
  match a, b with
  | title, title | ingredient, ingredient | step, step
  | note, note | header, header | junk, junk => true
  | _, _ => false
  end.

Definition label_name (l : Label) : str :=
  match l with
  | title => py "title" | ingredient => py "ingredient" | step => py "step"
  | note => py "note" | header => py "header" | junk => py "junk"
  end.

(** The label a string names, if it is one of [LABELS]. *)
Definition label_of_str (s : str) : option Label :=
  List.find (fun l => str_eqb s (label_name l)) LABELS.

Record LineRow := {
  doc_id : str;
  line_index : Z;
  text : str;
  label : str
}.

Inductive Section_ := ingredients | steps | notes.

Definition section_eqb (a b : Section_) : bool :=
  match a, b with
  | ingredients, ingredients | steps, steps | notes, notes => true
  | _, _ => false
  end.

Definition _ACTION_PREFIXES : list str := List.map py
  ["add"; "bake"; "beat"; "boil"; "brown"; "chop"; "combine"; "cook"; "fold";
   "heat"; "let"; "marinate"; "mash"; "mix"; "pat"; "pour"; "preheat";
   "refrigerate"; "rest"; "roast"; "saute"; "serve"; "simmer"; "spread";
   "stir"; "toast"; "toss"; "whisk"]%string.

Definition _NOTE_PREFIXES : list str := List.map py
  ["note"; "notes"; "tip"; "tips"; "chef's note"; "variation"; "variations";
   "storage"]%string.

Definition _HEADER_KEYWORDS : list str := List.map py
  ["ingredients"; "ingredient"; "instructions"; "instruction"; "directions";
   "direction"; "steps"; "step"; "method"]%string.

Definition _INGREDIENT_HEADER_KEYWORDS : list str := List.map py
  ["ingredient"; "ingredients"; "for the ingredients"; "what you'll need"]%string.

Definition _STEP_HEADER_KEYWORDS : list str := List.map py
  ["instruction"; "instructions"; "direction"; "directions"; "step"; "steps";
   "method"; "preparation"]%string.

Definition _INGREDIENT_HINTS : list str := List.map py
  ["to taste"; "for garnish"; "optional"; "divided"; "melted"]%string.

(** The vulgar fractions of the quantity patterns: ½ ¼ ¾ ⅓ ⅔ ⅛ ⅜ ⅝ ⅞. *)
Definition FRACTION_CHARS : str := [189; 188; 190; 8531; 8532; 8539; 8540; 8541; 8542]%N.

(** [• ● ○ ◦ ▪ ▫] *)
Definition FEATURE_BULLETS : str := [8226; 9679; 9675; 9702; 9642; 9643]%N.

Definition Counter := gmap str nat.

Definition counter_get (c : Counter) (k : str) : nat := default 0 (c !! k).

Definition counter_incr (k : str) (c : Counter) : Counter :=
  <[k := S (counter_get c k)]> c.

(** [Counter.update]: add the counts of [d] to those of [c]. *)
Definition counter_update (c d : Counter) : Counter :=
  union_with (fun a b => Some (a + b)) c d.

Definition counter_total (c : Counter) : nat :=
  map_fold (fun _ n acc => n + acc) 0 c.

(** [str(n)] for a one-digit natural number. *)
Definition digit_str (n : nat) : str := [N.of_nat (48 + n)].

Section SchemaModel.
Context (L : PyLib).

Definition is_space : char -> bool := py_isspace L.
Definition is_word : char -> bool := orp (py_isalnum L) (any_of "_").
Definition ws : re := Chr is_space.
Definition digit : re := Chr (py_isdecimal L).

(** [s.strip()] and [s.split()] *)
Definition strip (s : str) : str := strip_by is_space s.
Definition words (s : str) : list str := fields is_space s.

Definition normalize_for_features (text : str) : str :=
  let text := py_lower L (strip text) in
  let text := re_sub (seq [Bol; plus digit; Chr (any_of ".):-"); star ws]) [] text in
  let text := re_sub (seq [Bol; plus (Chr (orp (in_chars FEATURE_BULLETS) (any_of "-")));
                           star ws]) [] text in
  text.

Fixpoint pairs_of {A : Type} (l : list A) : list (A * A) :=
  match l with
  | x :: ((y :: _) as l') => (x, y) :: pairs_of l'
  | _ => []
  end.

(** The windows [s[i : i + n]] for [i] in [range(len(s) - n + 1)]. *)
Fixpoint ngrams (n : nat) (s : str) : list str :=
  if Nat.ltb (length s) n then []
  else firstn n s :: match s with [] => [] | _ :: s' => ngrams n s' end.

Definition extract_features (text : str) : Counter :=
  let normalized := normalize_for_features text in
  let tokens := re_findall (plus (Chr (orp (in_range "a" "z") (in_range "0" "9")))) normalized in
  let features : Counter := ∅ in
  let features :=
    fold_left (fun f token => counter_incr (py "tok:" ++ token) f) tokens features in
  let features :=
    fold_left (fun f '(a, b) => counter_incr (py "tok2:" ++ a ++ py "_" ++ b) f)
      (pairs_of tokens) features in
  let compact := re_sub (plus ws) (py " ") normalized in
  let features :=
    fold_left (fun f n =>
      if Nat.ltb (length compact) n then f
      else fold_left (fun f gram =>
             if contains gram (py "  ") then f
             else counter_incr (py "chr" ++ digit_str n ++ py ":" ++ gram) f)
           (ngrams n compact) f)
      [3; 4; 5] features in
  let features :=
    if endswith normalized (py ":") then counter_incr (py "shape:ends_colon") features
    else features in
  let features :=
    if existsb (py_isdigit L) normalized then counter_incr (py "shape:has_digit") features
    else features in
  let features :=
    if startswith normalized (py "note") || startswith normalized (py "tip")
    then counter_incr (py "shape:starts_note") features else features in
  let features :=
    if startswith normalized (py "<") && endswith normalized (py ">")
    then counter_incr (py "shape:tag_like") features else features in
  features.

Definition quantity_lead : re :=
  seq [Bol; plus (Chr (orp (py_isdecimal L) (orp (in_chars FRACTION_CHARS) (any_of "/.-"))));
       plus ws].

(** [^\d+\s*[x×]\s+] *)
Definition count_times_lead : re :=
  seq [Bol; plus digit; star ws; Chr (in_chars [chr "x"; 215%N]); plus ws].

Definition rule_based_label (text : str) : option (Label * Q) :=
  let raw := strip text in
  let normalized := normalize_for_features text in
  let compact := strip (re_sub (plus ws) (py " ") normalized) in
  if str_eqb compact [] then Some (junk, 0.99%Q)
  else
    let ws_ := words compact in
    if startswith compact (py "<") && endswith compact (py ">") then Some (junk, 0.99%Q)
    else if mem_str compact _HEADER_KEYWORDS then Some (header, 0.99%Q)
    else if startswith compact (py "for the ") && endswith compact (py ":")
    then Some (header, 0.97%Q)
    else
      let colon_rule :=
        if endswith compact (py ":") then
          let stem := strip (removelast compact) in
          if existsb (startswith stem) _NOTE_PREFIXES then Some (header, 0.98%Q)
          else if mem_str stem _HEADER_KEYWORDS then Some (header, 0.98%Q)
          else if Nat.leb (length ws_) 5 then Some (header, 0.90%Q)
          else None
        else None in
      match colon_rule with
      | Some r => Some r
      | None =>
        if existsb (fun prefix => startswith compact (prefix ++ py ":")) _NOTE_PREFIXES
        then Some (note, 0.97%Q)
        else if existsb (fun prefix => startswith compact (prefix ++ py " ")) _NOTE_PREFIXES
        then Some (note, 0.95%Q)
        else if matched (re_match quantity_lead compact) then Some (ingredient, 0.95%Q)
        else if matched (re_match count_times_lead compact) then Some (ingredient, 0.92%Q)
        else if existsb (fun prefix => startswith compact (prefix ++ py " ")) _ACTION_PREFIXES
        then Some (step, 0.92%Q)
        else if Nat.leb 8 (length ws_) then Some (step, 0.88%Q)
        else if existsb (contains compact) _INGREDIENT_HINTS then Some (ingredient, 0.86%Q)
        else
          let looks_like_title :=
            Nat.leb 2 (length ws_) && Nat.leb (length ws_) 6
            && negb (contains raw (py ":"))
            && negb (existsb (py_isdigit L) raw)
            && py_isupper L (firstn 1 raw)
            && str_eqb raw (py_title L raw) in
          if looks_like_title then Some (title, 0.78%Q) else None
      end.

Definition looks_like_note_header (text : str) : bool :=
  let normalized := strip (normalize_for_features text) in
  let normalized :=
    if endswith normalized (py ":") then strip (removelast normalized) else normalized in
  existsb (startswith normalized) _NOTE_PREFIXES.

Definition _header_section_from_text (text : str) : option Section_ :=
  let normalized := strip (normalize_for_features text) in
  let normalized :=
    if endswith normalized (py ":") then strip (removelast normalized) else normalized in
  if mem_str normalized _INGREDIENT_HEADER_KEYWORDS then Some ingredients
  else if mem_str normalized _STEP_HEADER_KEYWORDS then Some steps
  else if existsb (startswith normalized) _NOTE_PREFIXES then Some notes
  else None.
End SchemaModel.

(** *** The classifier *)

(** A Python dict with label keys, in insertion order. *)
Fixpoint dict_set {V : Type} (k : Label) (v : V) (d : list (Label * V)) : list (Label * V) :=
  match d with
  | [] => [(k, v)]
  | (k', v') :: d' => if label_eqb k' k then (k, v) :: d' else (k', v') :: dict_set k v d'
  end.

Fixpoint dict_get {V : Type} (k : Label) (d : list (Label * V)) : option V :=
  match d with
  | [] => None
  | (k', v) :: d' => if label_eqb k' k then Some v else dict_get k d'
  end.

Definition fupd {V : Type} (f : Label -> V) (k : Label) (v : V) : Label -> V :=
  fun x => if label_eqb x k then v else f x.

Record NGramNaiveBayesClassifier := {
  labels : list Label;
  alpha : R;
  _doc_count_by_label : Label -> nat;
  _feature_count_by_label : Label -> Counter;
  _total_feature_count_by_label : Label -> nat;
  _vocabulary : gset str;
  _is_fit : bool
}.

(** [NGramNaiveBayesClassifier()] *)
Definition new_classifier : NGramNaiveBayesClassifier := {|
  labels := LABELS;
  alpha := 1%R;
  _doc_count_by_label := fun _ => 0;
  _feature_count_by_label := fun _ => ∅;
  _total_feature_count_by_label := fun _ => 0;
  _vocabulary := ∅;
  _is_fit := false
|}.

(** [math.log], which raises on a non-positive argument, and float division,
    which raises on a zero divisor. *)
Definition math_log (x : R) : option R :=
  if Rlt_dec 0 x then Some (ln x) else None.

Definition py_div (a b : R) : option R :=
  if Req_dec_T b 0 then None else Some (a / b)%R.

(** [max(d, key=d.get)]: the first key of greatest value. *)
Fixpoint argmax_from (best : Label * R) (d : list (Label * R)) : Label * R :=
  match d with
  | [] => best
  | (k, v) :: d' =>
      if Rlt_dec (snd best) v then argmax_from (k, v) d' else argmax_from best d'
  end.

Definition argmax (d : list (Label * R)) : option (Label * R) :=
  match d with
  | [] => None
  | kv :: d' => Some (argmax_from kv d')
  end.

Definition sum_R (l : list R) : R := fold_left Rplus l 0%R.

Section Classifier.
Context (L : PyLib).

Definition fit_row (m : NGramNaiveBayesClassifier) (row : LineRow) : NGramNaiveBayesClassifier :=
  match label_of_str (label row) with
  | None => m
  | Some l =>
      if negb (existsb (label_eqb l) (labels m)) then m
      else
        let features := extract_features L (text row) in
        {| labels := labels m;
           alpha := alpha m;
           _doc_count_by_label :=
             fupd (_doc_count_by_label m) l (S (_doc_count_by_label m l));
           _feature_count_by_label :=
             fupd (_feature_count_by_label m) l
               (counter_update (_feature_count_by_label m l) features);
           _total_feature_count_by_label :=
             fupd (_total_feature_count_by_label m) l
               (_total_feature_count_by_label m l + counter_total features);
           _vocabulary := _vocabulary m ∪ dom features;
           _is_fit := _is_fit m |}
  end.

Definition fit (m : NGramNaiveBayesClassifier) (rows : list LineRow) : NGramNaiveBayesClassifier :=
  let m := fold_left fit_row rows m in
  {| labels := labels m; alpha := alpha m;
     _doc_count_by_label := _doc_count_by_label m;
     _feature_count_by_label := _feature_count_by_label m;
     _total_feature_count_by_label := _total_feature_count_by_label m;
     _vocabulary := _vocabulary m;
     _is_fit := true |}.

Definition _log_prior (m : NGramNaiveBayesClassifier) (l : Label) : option R :=
  let total_docs := fold_right Nat.add 0 (List.map (_doc_count_by_label m) LABELS) in
  if Nat.eqb total_docs 0 then Some (-1000000000)%R
  else
    q ← py_div (INR (_doc_count_by_label m l) + alpha m)%R
               (INR total_docs + alpha m * INR (length (labels m)))%R;
    math_log q.

Definition _log_likelihood (m : NGramNaiveBayesClassifier) (l : Label) (features : Counter)
    : option R :=
  let vocab_size := Nat.max 1 (size (_vocabulary m)) in
  let denom := (INR (_total_feature_count_by_label m l) + alpha m * INR vocab_size)%R in
  map_fold (fun feature count (score : option R) =>
              s ← score;
              let numer := (INR (counter_get (_feature_count_by_label m l) feature) + alpha m)%R in
              q ← py_div numer denom;
              lg ← math_log q;
              Some (s + INR count * lg)%R)
           (Some 0%R) features.

Definition predict_with_confidence (m : NGramNaiveBayesClassifier) (text : str)
    : option (Label * R * list (Label * R)) :=
  if negb (_is_fit m) then None
  else
    match rule_based_label L text with
    | Some (l, conf) =>
        let confidence := Q2R conf in
        let probs := fold_left (fun d candidate => dict_set candidate 0%R d) (labels m) [] in
        let probs := dict_set l confidence probs in
        let remaining := Rmax 0 (1 - confidence) in
        let others := List.filter (fun candidate => negb (label_eqb candidate l)) (labels m) in
        let probs :=
          match others with
          | [] => probs
          | _ :: _ =>
              let spread := (remaining / INR (length others))%R in
              fold_left (fun d candidate => dict_set candidate spread d) others probs
          end in
        Some (l, confidence, probs)
    | None =>
        let features := extract_features L text in
        log_scores ←
          fold_left (fun acc l =>
                       d ← acc;
                       lp ← _log_prior m l;
                       ll ← _log_likelihood m l features;
                       Some (dict_set l (lp + ll)%R d))
                    (labels m) (Some []);
        '(best_label, max_log) ← argmax log_scores;
        let exp_scores := List.map (fun '(l, score) => (l, exp (score - max_log))) log_scores in
        let total := sum_R (List.map snd exp_scores) in
        let normalizer := if Req_dec_T total 0 then 1%R else total in
        let probs := List.map (fun '(l, value) => (l, (value / normalizer)%R)) exp_scores in
        confidence ← dict_get best_label probs;
        Some (best_label, confidence, probs)
    end.
End Classifier.

(** *** The section tracker *)

Record ClassificationPrediction := {
  cp_doc_id : str;
  cp_line_index : Z;
  gold : str;
  predicted : Label;
  confidence : R
}.

Record tracker := {
  previous_doc_id : option str;
  previous_line_text : str;
  current_section : option Section_
}.

Definition tracker_start : tracker :=
  {| previous_doc_id := None; previous_line_text := []; current_section := None |}.

Definition same_doc (d : str) (prev : option str) : bool :=
  match prev with Some p => str_eqb d p | None => false end.

Definition section_is (s : Section_) (cur : option Section_) : bool :=
  match cur with Some c => section_eqb c s | None => false end.

Definition row_leb (a b : LineRow) : bool :=
  str_ltb (doc_id a) (doc_id b)
  || (str_eqb (doc_id a) (doc_id b) && Z.leb (line_index a) (line_index b)).

Section Tracker.
Context (L : PyLib).
(** The model is used through [predict_with_confidence] only. *)
Context (model : str -> option (Label * R * list (Label * R))).

Definition action_led (normalized : str) : bool :=
  existsb (fun prefix => startswith normalized (prefix ++ py " ")) _ACTION_PREFIXES.

(** One iteration of the loop of [run_predictions]. *)
Definition track_row (st : tracker) (row : LineRow) : option (tracker * ClassificationPrediction) :=
  let st :=
    if same_doc (doc_id row) (previous_doc_id st) then st
    else {| previous_doc_id := Some (doc_id row); previous_line_text := [];
            current_section := None |} in
  '(predicted, confidence, _) ← model (text row);
  let normalized := strip L (normalize_for_features L (text row)) in
  let '(predicted, confidence) :=
    if Z.eqb (line_index row) 0 && negb (label_eqb predicted title)
       && negb (matched (_header_section_from_text L (text row)))
    then (title, Rmax confidence 0.88)
    else (predicted, confidence) in
  let '(predicted, confidence) :=
    if looks_like_note_header L (previous_line_text st) && negb (label_eqb predicted header)
    then (note, Rmax confidence 0.90)
    else (predicted, confidence) in
  let '(predicted, confidence, section) :=
    if label_eqb predicted header then
      match _header_section_from_text L (text row) with
      | Some header_section => (predicted, confidence, Some header_section)
      | None =>
          if section_is steps (current_section st) && negb (endswith normalized (py ":"))
          then (step, Rmax confidence 0.82, current_section st)
          else if section_is ingredients (current_section st)
                  && negb (endswith normalized (py ":"))
          then (ingredient, Rmax confidence 0.82, current_section st)
          else (predicted, confidence, current_section st)
      end
    else (predicted, confidence, current_section st) in
  let '(predicted, confidence) :=
    if section_is ingredients section && Z.ltb 0 (line_index row)
       && existsb (label_eqb predicted) [step; title; junk]
       && negb (action_led normalized)
    then (ingredient, Rmax confidence 0.82)
    else (predicted, confidence) in
  let '(predicted, confidence) :=
    if section_is steps section && existsb (label_eqb predicted) [title; ingredient]
       && Z.ltb 0 (line_index row) && action_led normalized
    then (step, Rmax confidence 0.82)
    else (predicted, confidence) in
  Some ({| previous_doc_id := previous_doc_id st;
           previous_line_text := text row;
           current_section := section |},
        {| cp_doc_id := doc_id row; cp_line_index := line_index row;
           gold := label row; predicted := predicted; confidence := confidence |}).

Fixpoint run_loop (st : tracker) (rows : list LineRow)
    : option (tracker * list ClassificationPrediction) :=
  match rows with
  | [] => Some (st, [])
  | row :: rows' =>
      '(st', p) ← track_row st row;
      '(st'', ps) ← run_loop st' rows';
      Some (st'', p :: ps)
  end.

Definition run_predictions (rows : list LineRow) : option (list ClassificationPrediction) :=
  snd <$> run_loop tracker_start (sorted row_leb rows).
End Tracker.

(** *** The hold-out split *)

Definition Qltb (a b : Q) : bool := negb (Qle_bool b a).

(** [sorted(s)] of a set of strings. *)
Definition sorted_elements (s : gset str) : list str := sorted str_leb (elements s).

Section Holdout.
(** [int(hashlib.sha256(doc_id.encode("utf-8")).hexdigest()[:8], 16) / 0xFFFFFFFF] *)
Context (bucket : str -> Q).

Definition split_docs_for_holdout (doc_ids : list str) (holdout_ratio : Q)
    : gset str * gset str :=
  let '(train_docs, holdout_docs) :=
    fold_left (fun '(train_docs, holdout_docs) doc_id =>
                 if Qltb (bucket doc_id) holdout_ratio
                 then (train_docs, holdout_docs ∪ {[doc_id]})
                 else (train_docs ∪ {[doc_id]}, holdout_docs))
              (sorted_elements (list_to_set doc_ids)) (∅, ∅) in
  let '(train_docs, holdout_docs) :=
    match sorted_elements train_docs with
    | moved :: _ =>
        if decide (holdout_docs = ∅)
        then (train_docs ∖ {[moved]}, holdout_docs ∪ {[moved]})
        else (train_docs, holdout_docs)
    | [] => (train_docs, holdout_docs)
    end in
  let '(train_docs, holdout_docs) :=
    match sorted_elements holdout_docs with
    | moved :: _ =>
        if decide (train_docs = ∅)
        then (train_docs ∪ {[moved]}, holdout_docs ∖ {[moved]})
        else (train_docs, holdout_docs)
    | [] => (train_docs, holdout_docs)
    end in
  (train_docs, holdout_docs).
End Holdout.

(** ** regression_metrics.py *)

Record RegressionFixture := {
  fx_name : str;
  fx_text : str;
  expected_ingredients : list str;
  expected_steps : list str;
  expected_notes_contains : list str
}.

Record RegressionReport := {
  exact_match_rate : Q;
  note_leakage_rate : Q;
  ingredient_step_swap_rate : Q;
  fixture_count : nat
}.

(** How a script ends: [return code] from [main], [raise SystemExit(message)],
    or an uncaught exception. *)
Inductive outcome :=
| Exit (code : Z)
| SystemExit (message : str)
| Uncaught.


(** The line boundaries of [str.splitlines]. *)
Definition is_linebreak (c : char) : bool :=
  existsb (N.eqb c) [10; 11; 12; 13; 28; 29; 30; 133; 8232; 8233]%N.

Fixpoint splitlines_acc (s : str) (cur : str) : list str :=
  match s with
  | [] => match cur with [] => [] | _ => [rev cur] end
  | c :: s' =>
      if is_linebreak c then
        rev cur :: match c, s' with
                   | 13%N, 10%N :: s'' => splitlines_acc s'' []
                   | _, _ => splitlines_acc s' []
                   end
      else splitlines_acc s' (c :: cur)
  end.

Definition splitlines (s : str) : list str := splitlines_acc s [].

Definition mean_Q (l : list Q) : Q :=
  Qred (fold_left Qplus l 0%Q / inject_Z (Z.of_nat (length l))).

Definition ratio_Q (n d : nat) : Q := Qred (inject_Z (Z.of_nat n) / inject_Z (Z.of_nat d)).

Section RegressionMetrics.
Context (L : PyLib).
Context (model : str -> option (Label * R * list (Label * R))).

Definition _normalize (text : str) : str := py_lower L (strip L text).

Definition HARNESS_NOTE_HEADERS : list str := List.map py
  ["note"; "notes"; "tip"; "tips"; "variation"; "variations"; "chef's note"; "storage"]%string.

Definition HARNESS_STEP_WORDS : list str := List.map py
  ["mix"; "cook"; "bake"; "stir"; "heat"; "add"; "roast"; "simmer"]%string.

(** The loop over [lines[1:]]: the predicted ingredients, steps and notes. *)
Fixpoint score_lines (lines : list str) (previous_was_note_header : bool)
    (acc : list str * list str * list str) : option (list str * list str * list str) :=
  match lines with
  | [] => Some acc
  | line :: lines' =>
      '(lbl, confidence, _) ← model line;
      let trimmed := strip L line in
      let lbl :=
        if previous_was_note_header && negb (endswith trimmed (py ":")) then note else lbl in
      let lbl :=
        if Rlt_dec confidence 0.72 then
          let lower := py_lower L line in
          if existsb (py_isdigit L) lower then ingredient
          else if existsb (contains lower) HARNESS_STEP_WORDS then step
          else lbl
        else lbl in
      let '(predicted_ingredients, predicted_steps, predicted_notes) := acc in
      let acc :=
        match lbl with
        | ingredient => (predicted_ingredients ++ [line], predicted_steps, predicted_notes)
        | step => (predicted_ingredients, predicted_steps ++ [line], predicted_notes)
        | note => (predicted_ingredients, predicted_steps, predicted_notes ++ [line])
        | _ => acc
        end in
      let lowered := py_lower L trimmed in
      let stem :=
        if endswith lowered (py ":") then strip L (removelast lowered) else lowered in
      score_lines lines' (mem_str stem HARNESS_NOTE_HEADERS) acc
  end.

Definition list_str_eqb (a b : list str) : bool :=
  Nat.eqb (length a) (length b) && forallb (fun '(x, y) => str_eqb x y) (combine a b).

Definition _score_case (case_payload : RegressionFixture) : option (bool * Q * Q * Q) :=
  let lines :=
    List.filter (fun l => negb (str_eqb l []))
      (List.map (strip L) (splitlines (fx_text case_payload))) in
  '(predicted_ingredients, predicted_steps, predicted_notes) ←
    score_lines (tl lines) false ([], [], []);
  let expected_ingredients := List.map _normalize (expected_ingredients case_payload) in
  let expected_steps := List.map _normalize (expected_steps case_payload) in
  let expected_notes := List.map _normalize (expected_notes_contains case_payload) in
  let ingredient_exact :=
    list_str_eqb (sorted str_leb (List.map _normalize predicted_ingredients))
                 (sorted str_leb expected_ingredients) in
  let step_exact :=
    list_str_eqb (sorted str_leb (List.map _normalize predicted_steps))
                 (sorted str_leb expected_steps) in
  let notes_blob := py_lower L (join [10%N] predicted_notes) in
  let note_exact := forallb (contains notes_blob) expected_notes in
  let exact_match := ingredient_exact && step_exact && note_exact in
  let note_leak_count :=
    length (List.filter
              (fun note_fragment =>
                 existsb (fun item => contains (_normalize item) note_fragment)
                         (predicted_ingredients ++ predicted_steps))
              expected_notes) in
  let swap_count :=
    length (List.filter
              (fun expected_ingredient =>
                 existsb (fun item => contains (_normalize item) expected_ingredient)
                         predicted_steps)
              expected_ingredients)
    + length (List.filter
                (fun expected_step =>
                   existsb (fun item => contains (_normalize item) expected_step)
                           predicted_ingredients)
                expected_steps) in
  let expected_total := Nat.max 1 (length expected_ingredients + length expected_steps) in
  let leakage_rate :=
    match expected_notes with
    | [] => 0%Q
    | _ => ratio_Q note_leak_count (Nat.max 1 (length expected_notes))
    end in
  let swap_rate := ratio_Q swap_count expected_total in
  Some (exact_match, leakage_rate, swap_rate, if exact_match then 1%Q else 0%Q).

Fixpoint score_fixtures (fixtures : list RegressionFixture) : option (list (Q * Q * Q)) :=
  match fixtures with
  | [] => Some []
  | fixture :: rest =>
      '(_, leakage_rate, swap_rate, exact_score) ← _score_case fixture;
      scores ← score_fixtures rest;
      Some ((exact_score, leakage_rate, swap_rate) :: scores)
  end.

(** [main]: how the script ends, and the report it printed, if it got there. *)
Definition main (fixtures : list RegressionFixture) : outcome * option RegressionReport :=
  match fixtures with
  | [] => (SystemExit (py "No regression fixtures found"), None)
  | _ :: _ =>
      match score_fixtures fixtures with
      | None => (Uncaught, None)
      | Some scores =>
          let report := {|
            exact_match_rate := mean_Q (List.map (fun s => fst (fst s)) scores);
            note_leakage_rate := mean_Q (List.map (fun s => snd (fst s)) scores);
            ingredient_step_swap_rate := mean_Q (List.map snd scores);
            fixture_count := length fixtures |} in
          (Exit (if Qle_bool (note_leakage_rate report) 0.05
                    && Qle_bool (ingredient_step_swap_rate report) 0.08
                 then 0 else 1),
           Some report)
      end
  end.
End RegressionMetrics.

(** ** lab_predictor.py *)

Definition bytes := list Byte.byte.

(** [round(x, 4)] on a real number, ties to even. *)
Definition round_half_even_R (x : R) : Z :=
  let z := Int_part x in
  let f := frac_part x in
  if Rlt_dec f (1 / 2) then z
  else if Rlt_dec (1 / 2) f then (z + 1)%Z
  else if Z.even z then z else (z + 1)%Z.

Definition round4_R (x : R) : R := (IZR (round_half_even_R (x * 10000)) / 10000)%R.

Record LabeledLine := {
  ll_index : nat;
  ll_text : str;
  ll_label : Label;
  ll_confidence : R
}.

Definition PREDICTOR_NOTE_HEADERS : list str := List.map py
  ["note"; "notes"; "tip"; "tips"; "variation"; "variations"; "chef's note";
   "storage"; "substitution"; "substitutions"]%string.

Definition PREDICTOR_INGREDIENT_HEADERS : list str := List.map py
  ["ingredient"; "ingredients"; "for the ingredients"; "what you'll need"]%string.

Definition PREDICTOR_STEP_HEADERS : list str := List.map py
  ["instruction"; "instructions"; "direction"; "directions"; "method";
   "preparation"; "steps"]%string.

Section LabPredictor.
Context (L : PyLib).

(** [[\W_]]: not a word character, or the underscore. *)
Definition non_word_or_underscore : char -> bool :=
  orp (notp (is_word L)) (any_of "_").

Definition _header_key (line : str) : str :=
  let lowered := py_lower L (strip L line) in
  let lowered :=
    re_sub (Alt (seq [Bol; plus (Chr non_word_or_underscore)])
                (seq [plus (Chr non_word_or_underscore); Eol])) [] lowered in
  if endswith lowered (py ":") then strip L (removelast lowered) else lowered.

Definition predictor_header_section (line : str) : option Label :=
  let key := _header_key line in
  if mem_str key PREDICTOR_INGREDIENT_HEADERS then Some ingredient
  else if mem_str key PREDICTOR_STEP_HEADERS then Some step
  else if mem_str key PREDICTOR_NOTE_HEADERS then Some note
  else None.

Definition _looks_like_header (line : str) : bool :=
  let text := strip L line in
  if negb (endswith text (py ":")) then false
  else
    let n := length (words L (strip L (removelast text))) in
    Nat.ltb 0 n && Nat.leb n 7 && Nat.leb (length text) 90.

Definition _looks_like_title_line (line : str) (idx : nat) : bool :=
  if negb (Nat.eqb idx 0) then false
  else
    let text := strip L line in
    if str_eqb text [] || endswith text (py ":") then false
    else if Nat.ltb 110 (length text) then false
    else
      let n := length (words L text) in
      if negb (Nat.leb 1 n && Nat.leb n 14) then false
      else
        let lowered := py_lower L text in
        if existsb (contains lowered)
             (List.map py ["ingredient"; "instruction"; "direction"; "method"; "step"]%string)
        then false
        else if Nat.ltb 0 (count_char text (chr ".")) then false
        else true.

(** [Predictor.predict], the loop from line [idx] on. *)
Fixpoint predict_from (model : NGramNaiveBayesClassifier) (idx : nat) (lines : list str)
    (active_section : option Label) : option (list LabeledLine) :=
  match lines with
  | [] => Some []
  | line :: lines' =>
      '(lbl, confidence, _) ← predict_with_confidence L model line;
      let header_section := predictor_header_section line in
      let '(lbl, confidence) :=
        if _looks_like_title_line line idx then (title, Rmax confidence 0.96)
        else (lbl, confidence) in
      let '(lbl, confidence, active_section) :=
        match header_section with
        | Some s => (header, Rmax confidence 0.98, Some s)
        | None =>
            if _looks_like_header line then (header, Rmax confidence 0.93, active_section)
            else
              match active_section with
              | Some note =>
                  if negb (label_eqb lbl header) then (note, Rmax confidence 0.90, active_section)
                  else (lbl, confidence, active_section)
              | Some ingredient =>
                  if negb (label_eqb lbl header) && negb (label_eqb lbl title)
                  then (ingredient, Rmax confidence 0.90, active_section)
                  else (lbl, confidence, active_section)
              | Some step =>
                  if negb (label_eqb lbl header) then (step, Rmax confidence 0.90, active_section)
                  else (lbl, confidence, active_section)
              | _ => (lbl, confidence, active_section)
              end
        end in
      rest ← predict_from model (S idx) lines' active_section;
      Some ({| ll_index := idx; ll_text := line; ll_label := lbl;
               ll_confidence := round4_R confidence |} :: rest)
  end.

(** [Predictor.predict]; [self.model] is [None] before the first load. *)
Definition Predictor_predict (model : option NGramNaiveBayesClassifier) (lines : list str)
    : option (list LabeledLine) :=
  m ← model;
  predict_from m 0 lines None.
End LabPredictor.

(** ** lab_handler.py: the retrain pipeline *)

Inductive path :=
| ARTIFACT_MODEL
| ARTIFACT_SPLIT
| BUNDLED_MODEL_OUT
| backup_model_file (backup_stamp : str)   (* LOCAL_TMP_DIR / line_classifier_backup_<stamp>.pkl *)
| backup_split_file (backup_stamp : str).  (* LOCAL_TMP_DIR / split_backup_<stamp>.json *)

Definition path_eqb (a b : path) : bool :=
  match a, b with
  | ARTIFACT_MODEL, ARTIFACT_MODEL
  | ARTIFACT_SPLIT, ARTIFACT_SPLIT
  | BUNDLED_MODEL_OUT, BUNDLED_MODEL_OUT => true
  | backup_model_file s, backup_model_file t
  | backup_split_file s, backup_split_file t => str_eqb s t
  | _, _ => false
  end.

Definition filesystem := path -> option bytes.

Definition write_bytes (fs : filesystem) (p : path) (content : bytes) : filesystem :=
  fun q => if path_eqb q p then Some content else fs q.

(** [shutil.copy2(src, dst)]; raises when [src] is missing. *)
Definition copy2 (fs : filesystem) (src dst : path) : option filesystem :=
  content ← fs src;
  Some (write_bytes fs dst content).

Definition exists_ (fs : filesystem) (p : path) : bool := matched (fs p).

Record run_entry := {
  re_success : bool;
  re_validate_rc : Z;
  re_train_rc : option Z;
  re_export_rc : option Z;
  re_reloaded : bool;
  re_rolled_back : bool
}.

Definition METRICS_HISTORY_MAX : nat := 120.

(** [runs[-METRICS_HISTORY_MAX:]] *)
Definition last_n {A : Type} (n : nat) (l : list A) : list A :=
  skipn (length l - n) l.

Definition _append_metrics_history (runs : list run_entry) (entry : run_entry) : list run_entry :=
  last_n METRICS_HISTORY_MAX (runs ++ [entry]).

Record lab := {
  files : filesystem;
  PREDICTOR_model : option NGramNaiveBayesClassifier;  (* PREDICTOR.model *)
  metrics_history : list run_entry
}.

(** What the stage subprocesses of one run do: their return codes and the
    bytes they write, and whether the metrics pipeline reported [ok]. *)
Record stages := {
  validate_rc : Z;
  train_rc : Z;
  trained_model : bytes;     (* line_classifier.pkl written by the train script *)
  trained_split : bytes;     (* split.json written by the train script *)
  metrics_ok : bool;         (* _run_metrics_pipeline(...)["ok"] *)
  export_rc : Z;
  exported_model : bytes     (* written by the export script *)
}.

Section Retrain.
(** [schema_model.load_pickle] on the bytes of the artifact. *)
Context (load_pickle : bytes -> option NGramNaiveBayesClassifier).

(** [PREDICTOR.reload()]: the new state, or [None] when it raises. *)
Definition Predictor_reload (fs : filesystem) : option NGramNaiveBayesClassifier :=
  content ← fs ARTIFACT_MODEL;
  load_pickle content.

(** [restore_backups()]: the files afterwards and its return value. *)
Definition restore_backups (fs : filesystem) (backup_model_path backup_split_path : option path)
    : filesystem * bool :=
  let '(fs, restored_any) :=
    match backup_model_path with
    | Some b =>
        if exists_ fs b
        then match copy2 fs b ARTIFACT_MODEL with
             | Some fs' => (fs', true)
             | None => (fs, false)
             end
        else (fs, false)
    | None => (fs, false)
    end in
  let fs :=
    match backup_split_path with
    | Some b =>
        if exists_ fs b
        then match copy2 fs b ARTIFACT_SPLIT with
             | Some fs' => fs'
             | None => fs
             end
        else fs
    | None => fs
    end in
  (fs, restored_any).

(** The reload that follows a promotion or a rollback. *)
Definition try_reload (fs : filesystem) (current : option NGramNaiveBayesClassifier)
    : option NGramNaiveBayesClassifier * bool :=
  match Predictor_reload fs with
  | Some m => (Some m, true)
  | None => (current, false)
  end.

Definition _retrain_model (w : stages) (backup_stamp : str) (st : lab) : lab :=
  let fs := files st in
  let '(fs, backup_model_path) :=
    if exists_ fs ARTIFACT_MODEL
    then match copy2 fs ARTIFACT_MODEL (backup_model_file backup_stamp) with
         | Some fs' => (fs', Some (backup_model_file backup_stamp))
         | None => (fs, None)
         end
    else (fs, None) in
  let '(fs, backup_split_path) :=
    if exists_ fs ARTIFACT_SPLIT
    then match copy2 fs ARTIFACT_SPLIT (backup_split_file backup_stamp) with
         | Some fs' => (fs', Some (backup_split_file backup_stamp))
         | None => (fs, None)
         end
    else (fs, None) in
  if negb (Z.eqb (validate_rc w) 0) then
    {| files := fs; PREDICTOR_model := PREDICTOR_model st;
       metrics_history :=
         _append_metrics_history (metrics_history st)
           {| re_success := false; re_validate_rc := validate_rc w; re_train_rc := None;
              re_export_rc := None; re_reloaded := false; re_rolled_back := false |} |}
  else if negb (Z.eqb (train_rc w) 0) then
    {| files := fs; PREDICTOR_model := PREDICTOR_model st;
       metrics_history :=
         _append_metrics_history (metrics_history st)
           {| re_success := false; re_validate_rc := validate_rc w;
              re_train_rc := Some (train_rc w);
              re_export_rc := None; re_reloaded := false; re_rolled_back := false |} |}
  else
    let fs := write_bytes (write_bytes fs ARTIFACT_MODEL (trained_model w))
                          ARTIFACT_SPLIT (trained_split w) in
    let '(fs, model, export_returncode, reloaded, rolled_back) :=
      if metrics_ok w then
        let fs := if Z.eqb (export_rc w) 0
                  then write_bytes fs BUNDLED_MODEL_OUT (exported_model w) else fs in
        if Z.eqb (export_rc w) 0 then
          let '(model, reloaded) := try_reload fs (PREDICTOR_model st) in
          (fs, model, export_rc w, reloaded, false)
        else
          let '(fs, rolled_back) := restore_backups fs backup_model_path backup_split_path in
          if rolled_back then
            let '(model, reloaded) := try_reload fs (PREDICTOR_model st) in
            (fs, model, export_rc w, reloaded, rolled_back)
          else (fs, PREDICTOR_model st, export_rc w, false, rolled_back)
      else
        (* export_skipped_due_to_failed_thresholds: no process is run *)
        let '(fs, rolled_back) := restore_backups fs backup_model_path backup_split_path in
        if rolled_back then
          let '(model, reloaded) := try_reload fs (PREDICTOR_model st) in
          (fs, model, 0%Z, reloaded, rolled_back)
        else (fs, PREDICTOR_model st, 0%Z, false, rolled_back) in
    let success :=
      Z.eqb (validate_rc w) 0 && Z.eqb (train_rc w) 0 && Z.eqb export_returncode 0
      && metrics_ok w && reloaded && negb rolled_back in
    {| files := fs; PREDICTOR_model := model;
       metrics_history :=
         _append_metrics_history (metrics_history st)
           {| re_success := success; re_validate_rc := validate_rc w;
              re_train_rc := Some (train_rc w);
              re_export_rc := Some export_returncode;
              re_reloaded := reloaded; re_rolled_back := rolled_back |} |}.
End Retrain.

(** ** lab_config.py *)

Definition INGREDIENT_HEADER_PREFIXES : list str := List.map py
  ["ingredient"; "ingredients"; "for the ingredients"; "what you'll need"]%string.

Definition STEP_HEADER_PREFIXES : list str := List.map py
  ["instruction"; "instructions"; "direction"; "directions"; "method";
   "preparation"; "steps"]%string.

Definition NOTE_HEADER_PREFIXES : list str := List.map py
  ["note"; "notes"; "tip"; "tips"; "variation"; "variations"; "chef's note";
   "storage"; "substitution"; "substitutions"]%string.

Definition TIMER_LABEL_KEYWORDS : list (list str * str) :=
  [ (List.map py ["rest"; "resting"]%string, py "Rest");
    (List.map py ["chill"; "chilling"; "refrigerate"; "cool"; "cooling"]%string, py "Chill");
    (List.map py ["rise"; "proof"; "proofing"; "ferment"]%string, py "Rise");
    (List.map py ["marinate"; "marinating"]%string, py "Marinate");
    (List.map py ["simmer"; "simmering"]%string, py "Simmer");
    (List.map py ["boil"; "boiling"]%string, py "Boil");
    (List.map py ["bake"; "baking"]%string, py "Bake");
    (List.map py ["roast"; "roasting"]%string, py "Roast");
    ([py "fry"; py "frying"; py "saute"; py "saut" ++ [233%N]], py "Fry") ].

Definition UNIT_ALIASES : list (str * str) :=
  List.map (fun '(k, v) => (py k, py v))
  [ ("t", "tsp"); ("tsp", "tsp"); ("tsps", "tsp"); ("teaspoon", "tsp");
    ("teaspoons", "tsp"); ("teapoon", "tsp"); ("teapoons", "tsp");
    ("tbsp", "tbsp"); ("tbsps", "tbsp"); ("tablespoon", "tbsp");
    ("tablespoons", "tbsp"); ("c", "cup"); ("cup", "cup"); ("cups", "cup");
    ("oz", "oz"); ("ounce", "oz"); ("ounces", "oz"); ("lb", "lb"); ("1b", "lb");
    ("ib", "lb"); ("lbs", "lb"); ("pound", "lb"); ("pounds", "lb"); ("g", "g");
    ("gram", "g"); ("grams", "g"); ("kg", "kg"); ("kgs", "kg");
    ("kilogram", "kg"); ("kilograms", "kg"); ("ml", "ml"); ("mls", "ml");
    ("milliliter", "ml"); ("milliliters", "ml"); ("l", "L"); ("liter", "L");
    ("liters", "L"); ("pt", "pint"); ("pts", "pint"); ("pint", "pint");
    ("pints", "pint"); ("qt", "quart"); ("qts", "quart"); ("quart", "quart");
    ("quarts", "quart"); ("gal", "gallon"); ("gals", "gallon");
    ("gallon", "gallon"); ("gallons", "gallon"); ("floz", "fl oz");
    ("fl oz", "fl oz"); ("fluid ounce", "fl oz"); ("fluid ounces", "fl oz");
    ("piece", "piece"); ("pieces", "piece"); ("pinch", "pinch");
    ("pinches", "pinch"); ("dash", "dash"); ("dashes", "dash");
    ("whole", "whole"); ("clove", "clove"); ("cloves", "clove");
    ("bunch", "bunch"); ("bunches", "bunch"); ("can", "can"); ("cans", "can");
    ("package", "package"); ("packages", "package") ]%string.

(** Each fraction character with [str(value)] of its table entry. *)
Definition UNICODE_FRACTIONS : list (char * str) :=
  [ (189%N, py "0.5"); (188%N, py "0.25"); (190%N, py "0.75");
    (8531%N, py "0.333"); (8532%N, py "0.667"); (8539%N, py "0.125");
    (8540%N, py "0.375"); (8541%N, py "0.625"); (8542%N, py "0.875") ].

Fixpoint assoc_str {V : Type} (k : str) (d : list (str * V)) : option V :=
  match d with
  | [] => None
  | (k', v) :: d' => if str_eqb k' k then Some v else assoc_str k d'
  end.

(** ** Floats of the ingredient parser *)

Inductive pyfloat :=
| Fin (q : Q)
| PInf
| NInf
| NaN.

Definition fin (q : Q) : pyfloat := Fin (Qred q).

Definition fadd (a b : pyfloat) : pyfloat :=
  match a, b with
  | NaN, _ | _, NaN => NaN
  | PInf, NInf | NInf, PInf => NaN
  | PInf, _ | _, PInf => PInf
  | NInf, _ | _, NInf => NInf
  | Fin x, Fin y => fin (x + y)
  end.

Definition Qsign_neg (q : Q) : bool := Qltb q 0.

(** [a / b] for a divisor that is not zero. *)
Definition fdiv (a b : pyfloat) : pyfloat :=
  match a, b with
  | NaN, _ | _, NaN => NaN
  | Fin x, Fin y => fin (x / y)
  | Fin _, _ => Fin 0
  | PInf, Fin y => if Qsign_neg y then NInf else PInf
  | NInf, Fin y => if Qsign_neg y then PInf else NInf
  | _, _ => NaN
  end.

Definition fltb (a b : pyfloat) : bool :=
  match a, b with
  | NaN, _ | _, NaN => false
  | Fin x, Fin y => Qltb x y
  | NInf, NInf | PInf, _ | _, NInf => false
  | NInf, _ | _, PInf => true
  end.

Definition is_zero (a : pyfloat) : bool :=
  match a with Fin q => Qeq_bool q 0 | _ => false end.

(** [min(a, b)] and [max(a, b)] as Python computes them. *)
Definition fmin (a b : pyfloat) : pyfloat := if fltb b a then b else a.
Definition fmax (a b : pyfloat) : pyfloat := if fltb a b then b else a.

(** Nearest integer, ties to even. *)
Definition round_half_even (q : Q) : Z :=
  let z := Qfloor q in
  let f := (q - inject_Z z)%Q in
  if Qltb f (1 # 2) then z
  else if Qltb (1 # 2) f then (z + 1)%Z
  else if Z.even z then z else (z + 1)%Z.

(** [round(float(x), 4)] *)
Definition round4 (a : pyfloat) : pyfloat :=
  match a with
  | Fin q => fin (inject_Z (round_half_even (q * 10000)) / 10000)
  | other => other
  end.

(** ** lab_recipe.py: lines and their shapes *)

Inductive RecipeSection := sec_unknown | sec_ingredients | sec_steps | sec_notes.

Definition recipe_section_eqb (a b : RecipeSection) : bool :=
  match a, b with
  | sec_unknown, sec_unknown | sec_ingredients, sec_ingredients
  | sec_steps, sec_steps | sec_notes, sec_notes => true
  | _, _ => false
  end.

Definition _INSTRUCTION_KEYWORDS : list str := List.map py
  ["add"; "bake"; "beat"; "blend"; "boil"; "combine"; "cook"; "cool"; "drain";
   "fold"; "fry"; "grill"; "heat"; "knead"; "let"; "marinate"; "mix"; "place";
   "pour"; "preheat"; "reduce"; "rest"; "roast"; "saute"; "season"; "serve";
   "simmer"; "stir"; "transfer"; "whisk"]%string.

(** [• · ▪ ◦ ●] *)
Definition STEP_BULLETS : str := [8226; 183; 9642; 9702; 9679]%N.

Definition EN_DASH : char := 8211%N.
Definition EM_DASH : char := 8212%N.
Definition BULLET : char := 8226%N.

Record TimeMetadata := {
  md_yields : option str;
  md_total_minutes : option N;
  md_prep_minutes : option N;
  md_cook_minutes : option N
}.

Record TimerSpec := {
  seconds : N;
  timer_label : str
}.

Section RecipeText.
Context (L : PyLib).

Abbreviation d := (digit L).
Abbreviation s := (ws L).
Abbreviation wb := (WordB (is_word L)).
Abbreviation az := (Chr ascii_alpha).

(** Patterns compiled with [re.IGNORECASE]. *)
Definition ci_char (c : char) : char -> bool :=
  fun x => char_eqb (re_lower L x) (re_lower L c).
Definition ci_class (p : char -> bool) : char -> bool :=
  fun x => p x || p (re_lower L x) || p (re_upper L x).
Definition liti (w : string) : re := seq (List.map (fun c => Chr (ci_char c)) (py w)).
Definition words_alt (ws_ : list string) : re := alts (List.map lit ws_).
Definition words_alti (ws_ : list string) : re := alts (List.map liti ws_).

(** [int(m.group(i))] of a group of [\d] characters. *)
Definition py_int (digits : str) : N :=
  fold_left (fun acc c => (acc * 10 + py_digit_value L c)%N) digits 0%N.

Definition _clean_text (value : str) : str :=
  strip L (re_sub (plus s) (py " ") (html_unescape L value)).

(** [(?<!\d)(\d{1,2})\.\s+] *)
Definition numbered_marker : re :=
  seq [NotBehind (py_isdecimal L); Grp 1 (Rep 1 (Some 2) d); lit "."; plus s].

Fixpoint numbered_parts (cleaned : str) (matches : list rmatch) : list str :=
  match matches with
  | [] => []
  | m :: rest =>
      let stop := match rest with m' :: _ => m_start m' | [] => length cleaned end in
      let part := _clean_text (substr cleaned (m_start m) stop) in
      (if str_eqb part [] then [] else [part]) ++ numbered_parts cleaned rest
  end.

Definition _split_numbered_steps (text : str) : list str :=
  let cleaned := _clean_text text in
  if str_eqb cleaned [] then []
  else
    let matches := re_finditer numbered_marker cleaned in
    match matches with
    | m0 :: _ :: _ =>
        if negb (Nat.eqb (m_start m0) 0) then [cleaned]
        else match numbered_parts cleaned matches with
             | [] => [cleaned]
             | parts => parts
             end
    | _ => [cleaned]
    end.

Definition leading_bullets : re :=
  seq [Bol; star s; plus (Chr (in_chars STEP_BULLETS)); star s].

Definition _strip_step_number_prefix (text : str) : str :=
  let cleaned := _clean_text text in
  if str_eqb cleaned [] then []
  else
    let cleaned := strip L (re_sub leading_bullets [] cleaned) in
    let cleaned :=
      strip L (re_sub (seq [Bol; star s; Rep 1 (Some 2) d; star s; Chr (any_of ".)"); star s])
                      [] cleaned) in
    let cleaned := strip L (re_sub leading_bullets [] cleaned) in
    cleaned.

Definition _header_section_type (line : str) : option RecipeSection :=
  let key := _header_key L line in
  if mem_str key INGREDIENT_HEADER_PREFIXES then Some sec_ingredients
  else if mem_str key STEP_HEADER_PREFIXES then Some sec_steps
  else if mem_str key NOTE_HEADER_PREFIXES then Some sec_notes
  else None.

Definition _looks_like_subsection_header (line : str) : bool :=
  let text := strip L line in
  if negb (endswith text (py ":")) then false
  else
    let n := length (words L (strip L (removelast text))) in
    if negb (Nat.ltb 0 n && Nat.leb n 7) then false
    else if Nat.ltb 90 (length text) then false
    else if existsb (py_isdigit L) text then false
    else true.

(** The class [[\d\s½¼¾⅓⅔⅛⅜⅝⅞/\.-]] of quantity expressions. *)
Definition quantity_char : char -> bool :=
  orp (py_isdecimal L) (orp (is_space L) (orp (in_chars FRACTION_CHARS) (any_of "/.-"))).

Definition _QUANTITY_EXPR : re := plus (Chr quantity_char).

Definition _looks_like_ingredient_line (line : str) : bool :=
  matched (re_match (seq [Bol; _QUANTITY_EXPR]) line).

Definition nonempty (l : list str) : list str :=
  List.filter (fun x => negb (str_eqb x [])) l.

Definition _looks_like_headerless_instruction (line : str) : bool :=
  if _looks_like_ingredient_line line then false
  else if negb (list_str_eqb (_split_numbered_steps line) [line]) then true
  else
    let words_ := nonempty (re_split (plus s) (py_lower L line)) in
    match words_ with
    | [] => false
    | first :: _ =>
        let tokens :=
          nonempty (re_split (plus (Chr (notp (orp (in_range "a" "z") (in_range "0" "9")))))
                             (py_lower L line)) in
        if mem_str first _INSTRUCTION_KEYWORDS then true
        else if mem_str first (List.map py ["in"; "on"; "to"; "then"; "meanwhile"]%string)
                && existsb (fun token => mem_str token _INSTRUCTION_KEYWORDS) tokens
        then true
        else false
    end.

(** [(?:prep(?:ping)?|preparation|cook(?:ing)?|total)\s*tim(?:e)?\b] *)
Definition time_word (literal : string -> re) : re :=
  seq [alts [seq [literal "prep"; opt (literal "ping")]; literal "preparation";
             seq [literal "cook"; opt (literal "ing")]; literal "total"];
       star s; literal "tim"; opt (literal "e"); wb].

Definition _is_ocr_artifact_line (text : str) : bool :=
  let cleaned := _clean_text text in
  if str_eqb cleaned [] then true
  else
    let lowered := py_lower L cleaned in
    if contains lowered (py "templatelab") || contains lowered (py "created by")
       || str_eqb lowered (py "reated b") then true
    else if matched (re_match (seq [Bol; star s; time_word lit]) lowered) then true
    else if matched (re_fullmatch (plus (Chr (non_word_or_underscore L))) cleaned) then true
    else
      let alpha_count := length (re_findall az cleaned) in
      if Nat.leb alpha_count 1 then true
      else if matched (re_fullmatch (Rep 1 (Some 6) az) cleaned)
              && negb (mem_str (py_lower L cleaned)
                         (List.map py ["salt"; "zest"; "oil"; "rice"; "egg"; "eggs"]%string))
      then true
      else false.

(** [tips?\s*(?:and|&)\s*variations?] *)
Definition tips_and_variations : re :=
  seq [liti "tip"; opt (liti "s"); star s; Alt (liti "and") (liti "&"); star s;
       liti "variation"; opt (liti "s")].

Definition _extract_tips_remainder (text : str) : option str :=
  let cleaned := _clean_text text in
  if str_eqb cleaned [] then None
  else
    match re_search (seq [wb; tips_and_variations; wb;
                          star (Chr (ci_class (orp (any_of ":-") (is_space L))));
                          Grp 1 (star dot); Eol]) cleaned with
    | None =>
        if matched (re_fullmatch
                      (seq [liti "tip"; opt (liti "s");
                            opt (seq [star s; Alt (liti "and") (liti "&"); star s;
                                      liti "variation"; opt (liti "s")])]) cleaned)
        then Some []
        else None
    | Some m => Some (_clean_text (group_or_empty m 1))
    end.

Definition _normalize_note_text (text : str) : str :=
  let cleaned := _clean_text text in
  let cleaned :=
    re_sub (seq [Bol; plus (Chr (orp (in_chars (py ",;:-" ++ [BULLET])) (is_space L)))])
           [] cleaned in
  _clean_text cleaned.

Definition _looks_like_note_fragment (text : str) : bool :=
  let cleaned := _clean_text text in
  if str_eqb cleaned [] then false
  else if _looks_like_ingredient_line cleaned then false
  else if _looks_like_headerless_instruction cleaned then false
  else
    let lowered := py_lower L cleaned in
    if in_chars (py ",;:") (List.hd 0%N cleaned) then Nat.leb 2 (length (words L cleaned))
    else
      let first_token :=
        match re_match (Grp 1 (plus az)) cleaned with
        | Some m => py_lower L (group_or_empty m 1)
        | None => []
        end in
      if mem_str first_token
           (List.map py ["for"; "feel"; "use"; "optional"; "tip"; "tips"; "variation";
                         "variations"; "extra"]%string)
      then true
      else if matched (re_search
                         (seq [wb; words_alt ["flavor"; "nutrition"; "twist"; "optional";
                                              "variation"; "tip"; "wine"]; wb]) lowered)
      then true
      else false.

Definition _looks_like_step_fragment (text : str) : bool :=
  let cleaned := _clean_text text in
  if str_eqb cleaned [] then false
  else if _is_ocr_artifact_line cleaned then false
  else if matched (_extract_tips_remainder cleaned) then false
  else if _looks_like_ingredient_line cleaned then false
  else if _looks_like_note_fragment cleaned then false
  else if _looks_like_headerless_instruction cleaned then true
  else
    let lowered := py_lower L cleaned in
    if matched (re_search
                  (seq [wb; words_alt ["add"; "cook"; "drain"; "heat"; "mix"; "preheat";
                                       "prepare"; "remove"; "rest"; "return"; "serve";
                                       "simmer"; "sprinkle"; "stir"; "toss"]; wb]) lowered)
    then true
    else if matched (re_search
                       (seq [wb; alts [lit "bowl"; lit "broth";
                                       seq [lit "minute"; opt (lit "s")]; lit "oven";
                                       lit "pot"; lit "sauce"; lit "set aside";
                                       lit "skillet"]; wb]) lowered)
    then true
    else if endswith cleaned (py ".") && Nat.leb 4 (length (words L cleaned)) then true
    else false.
End RecipeText.

(** ** lab_recipe.py: metadata, timers and quantities *)

Record Quantity := {
  q_value : pyfloat;
  q_upperValue : option pyfloat;
  q_unit : str
}.

(** The result of the ingredient parsers: name, quantity, additional
    quantities and note. *)
Definition parsed_ingredient : Type := str * option Quantity * list Quantity * option str.

Definition pow10 (n : N) : Q := inject_Z (Z.pow 10 (Z.of_N n)).

Section RecipeValues.
Context (L : PyLib).

Abbreviation d := (digit L).
Abbreviation s := (ws L).
Abbreviation wb := (WordB (is_word L)).
Abbreviation az := (Chr ascii_alpha).
Abbreviation azi := (Chr (ci_class L ascii_alpha)).
Abbreviation frac := (Chr (in_chars FRACTION_CHARS)).

(** [cleaned.strip(" ,;:-")] *)
Definition strip_punct (x : str) : str := strip_by (any_of " ,;:-") x.

Definition _sanitize_ingredient_name (name : str) : str :=
  let cleaned := _clean_text L name in
  if str_eqb cleaned [] then []
  else
    let lowered := py_lower L cleaned in
    let li := liti L in
    let tail := seq [star dot; Eol] in
    let cleaned :=
      if contains lowered (py "package and")
      then re_sub (seq [wb; li "package and"; wb]) (py "and") cleaned else cleaned in
    let cleaned := re_sub (seq [wb; li "package"; wb]) [] cleaned in
    let cleaned :=
      re_sub (seq [wb; li "to"; plus s; li "taste"; plus s; li "salt";
                   opt (seq [plus s; li "and"]); wb; tail]) (py "to taste") cleaned in
    let cleaned :=
      re_sub (seq [wb; li "to"; plus s; li "taste"; wb; tail]) (py "to taste") cleaned in
    let cleaned := re_sub (seq [wb; li "for serving"; wb; tail]) (py "for serving") cleaned in
    let cleaned :=
      re_sub (seq [wb; li "and"; plus s; li "red"; wb;
                   opt (seq [plus s; Rep 1 (Some 4) azi]); star s; Eol]) [] cleaned in
    let cleaned := re_sub (seq [wb; li "sauce"; wb; tail]) [] cleaned in
    let cleaned :=
      re_sub (seq [wb; li "chopped"; plus s; li "immediat";
                   star (Chr (ci_class L (is_word L))); wb; tail]) [] cleaned in
    let cleaned :=
      re_sub (seq [wb; li "lemon"; plus s; li "z"; Chr (ci_class L (any_of "e3"));
                   opt (li "st"); plus s; Ahead (seq [li "fresh parsley"; wb])]) [] cleaned in
    let cleaned :=
      re_sub (seq [wb; li "to"; plus s; li "taste"; plus s; li "and"; star s; Eol])
             (py "to taste") cleaned in
    let cleaned :=
      if matched (re_search
                    (seq [wb; alts [seq [lit "package instruction"; opt (lit "s")];
                                    lit "set aside"; seq [lit "minute"; opt (lit "s")];
                                    lit "minute"]; wb]) lowered)
      then
        let cleaned :=
          re_sub (seq [wb; li "package instruction"; opt (li "s"); wb; tail]) [] cleaned in
        let cleaned := re_sub (seq [wb; li "set aside"; wb; tail]) [] cleaned in
        let cleaned := re_sub (seq [wb; li "minute"; opt (li "s"); wb; tail]) [] cleaned in
        re_sub (seq [wb; li "about"; plus s; plus d; wb; tail]) [] cleaned
      else cleaned in
    let cleaned := strip_punct (re_sub (plus s) (py " ") cleaned) in
    let cleaned := strip_punct (re_sub (seq [wb; az; Eol]) [] cleaned) in
    _clean_text L cleaned.

Definition _should_drop_ingredient_entry (name : str) (quantity : option Quantity) : bool :=
  let cleaned := _clean_text L name in
  if str_eqb cleaned [] then true
  else if _is_ocr_artifact_line L cleaned then true
  else if matched (_extract_tips_remainder L cleaned) then true
  else
    let lowered := py_lower L cleaned in
    match quantity with
    | None =>
        if _looks_like_headerless_instruction L cleaned then true
        else if matched (re_search
                           (seq [wb; alts [lit "skillet"; lit "prepare"; lit "serve";
                                           lit "sprinkle"; lit "immediately"; lit "return the";
                                           lit "set aside"; seq [lit "minute"; opt (lit "s")]];
                                 wb]) lowered)
        then true
        else if matched (re_fullmatch (seq [plus az; plus s; plus d]) cleaned) then true
        else false
    | Some _ => false
    end.

Definition _parse_time_string_minutes (text : str) : option N :=
  let cleaned := py_lower L (strip L text) in
  if str_eqb cleaned [] then None
  else
    match re_search (seq [wb; Grp 1 (plus d); lit ":"; Grp 2 (plus d); wb]) cleaned with
    | Some m => Some (py_int L (group_or_empty m 1) * 60 + py_int L (group_or_empty m 2))%N
    | None =>
        let hour_match :=
          re_search (seq [wb; Grp 1 (plus d); star s;
                          alts [seq [lit "hour"; opt (lit "s")]; seq [lit "hr"; opt (lit "s")];
                                lit "h"]; wb]) cleaned in
        let minute_match :=
          re_search (seq [wb; Grp 1 (plus d); star s;
                          alts [seq [lit "minute"; opt (lit "s")]; seq [lit "min"; opt (lit "s")];
                                lit "m"]; wb]) cleaned in
        let hours := match hour_match with Some m => py_int L (group_or_empty m 1) | None => 0%N end in
        let minutes :=
          match minute_match with Some m => py_int L (group_or_empty m 1) | None => 0%N end in
        if matched hour_match || matched minute_match then Some (hours * 60 + minutes)%N
        else
          match re_search (seq [wb; Grp 1 (plus d); wb]) cleaned with
          | Some m => Some (py_int L (group_or_empty m 1))
          | None => None
          end
    end.

Definition _extract_minutes_by_pattern (text : str) (pattern : re) : option N :=
  match re_search pattern text with
  | None => None
  | Some m =>
      let tail := _clean_text L (group_or_empty m 1) in
      if str_eqb tail [] then None else _parse_time_string_minutes tail
  end.

Definition _extract_yield_line (text : str) : option str :=
  let lowered := py_lower L (strip L text) in
  let prefixes := List.map py ["serves"; "serving"; "servings"; "yield"; "yields"; "makes";
                               "portion"; "portions"]%string in
  if negb (existsb (fun key => str_eqb lowered key || startswith lowered (key ++ py " ")
                               || startswith lowered (key ++ py ":")) prefixes)
  then None
  else
    match re_search
            (Grp 1 (seq [plus d;
                         opt (seq [star s; alts [lit "-"; Chr (char_eqb EN_DASH); liti L "to"];
                                   star s; plus d])])) text with
    | None => None
    | Some m =>
        let number := replace (replace (group_or_empty m 1) (py " to ") (py "-")) [EN_DASH] (py "-") in
        let number := strip L (re_sub (plus s) (py " ") number) in
        Some (number ++ py " servings")
    end.

(** [^\s*(?:...)\s*:?\s*(.+)$], compiled with [re.IGNORECASE]. *)
Definition time_line (heads : re) : re :=
  seq [Bol; star s; heads; star s; opt (lit ":"); star s; Grp 1 (plus dot); Eol].

Definition _extract_metadata_line (text : str) : option TimeMetadata :=
  if str_eqb text [] then None
  else
    let li := liti L in
    let yield_value := _extract_yield_line text in
    let total :=
      _extract_minutes_by_pattern text
        (time_line (alts [seq [li "total"; star s; li "time"]; li "total";
                          seq [li "ready"; star s; li "in"]])) in
    let total :=
      match total with
      | Some t => Some t
      | None =>
          _extract_minutes_by_pattern text
            (seq [Bol; star s; li "time"; star s; lit ":"; star s; Grp 1 (plus dot); Eol])
      end in
    let prep :=
      _extract_minutes_by_pattern text
        (time_line (alts [seq [li "prep"; star s; li "time"];
                          seq [li "prepping"; star s; li "time"];
                          seq [li "preparation"; star s; li "time"]])) in
    let cook :=
      _extract_minutes_by_pattern text
        (time_line (alts [seq [li "cook"; star s; li "time"];
                          seq [li "cooking"; star s; li "time"];
                          seq [li "bake"; star s; li "time"];
                          seq [li "roast"; star s; li "time"]])) in
    match yield_value, total, prep, cook with
    | None, None, None, None => None
    | _, _, _, _ =>
        Some {| md_yields := yield_value; md_total_minutes := total;
                md_prep_minutes := prep; md_cook_minutes := cook |}
    end.

Definition _default_source_title (source_url : str) : option str :=
  if str_eqb source_url [] then None
  else
    let netloc := url_netloc L source_url in
    if str_eqb netloc [] then None else Some netloc.

Definition keyword_label (context : str) : option str :=
  option_map snd
    (List.find (fun '(keywords, _) => existsb (contains context) keywords) TIMER_LABEL_KEYWORDS).

Definition _infer_timer_label (lowered_text : str) (start stop index total : nat) : str :=
  let context_before := substr lowered_text (start - 60) start in
  let context_after := substr lowered_text stop (Nat.min (length lowered_text) (stop + 24)) in
  match keyword_label context_before with
  | Some l => l
  | None =>
      match keyword_label context_after with
      | Some l => l
      | None =>
          if Nat.ltb 1 total && Nat.eqb index (total - 1)
             && (contains context_before (py "then") || contains context_before (py "after"))
          then py "Rest"
          else py "Cook"
      end
  end.

Inductive time_unit := u_seconds | u_minutes | u_hours.

Definition timer_pattern (names : re) : re :=
  seq [Grp 1 (plus d); star s; Grp 2 names; wb].

Fixpoint timers_from (lowered : str) (total idx : nat)
    (raw_matches : list (nat * nat * N * time_unit)) : list TimerSpec :=
  match raw_matches with
  | [] => []
  | (start, stop, value, unit) :: rest =>
      {| seconds := match unit with
                    | u_seconds => value
                    | u_minutes => (value * 60)%N
                    | u_hours => (value * 3600)%N
                    end;
         timer_label := _infer_timer_label lowered start stop idx total |}
      :: timers_from lowered total (S idx) rest
  end.

Definition _extract_timers (step_text : str) : list TimerSpec :=
  let lowered := py_lower L step_text in
  let patterns :=
    [ (timer_pattern (Alt (seq [lit "second"; opt (lit "s")]) (seq [lit "sec"; opt (lit "s")])),
       u_seconds);
      (timer_pattern (Alt (seq [lit "minute"; opt (lit "s")]) (seq [lit "min"; opt (lit "s")])),
       u_minutes);
      (timer_pattern (Alt (seq [lit "hour"; opt (lit "s")]) (seq [lit "hr"; opt (lit "s")])),
       u_hours) ] in
  let raw_matches :=
    flat_map (fun '(pattern, unit) =>
                List.map (fun m => (m_start m, m_end m, py_int L (group_or_empty m 1), unit))
                         (re_finditer pattern lowered))
             patterns in
  let raw_matches :=
    sorted (fun a b => Nat.leb (fst (fst (fst a))) (fst (fst (fst b)))) raw_matches in
  timers_from lowered (length raw_matches) 0 raw_matches.
End RecipeValues.

(** ** lab_recipe.py: the ingredient parser *)

Section IngredientParser.
Context (L : PyLib).

Abbreviation d := (digit L).
Abbreviation s := (ws L).
Abbreviation wb := (WordB (is_word L)).
Abbreviation az := (Chr ascii_alpha).
Abbreviation frac := (Chr (in_chars FRACTION_CHARS)).
Abbreviation QE := (_QUANTITY_EXPR L).

(** Digits with single underscores between them, as [float] accepts them. *)
Definition float_digits : re := seq [plus d; star (seq [lit "_"; plus d])].

Definition digits_value (x : str) : N :=
  py_int L (List.filter (fun c => negb (char_eqb c (chr "_"))) x).

Definition digits_count (x : str) : N :=
  N.of_nat (length (List.filter (fun c => negb (char_eqb c (chr "_"))) x)).

(** [float(text)]; [None] is [ValueError]. *)
Definition py_float (text : str) : option pyfloat :=
  let body := strip L text in
  let sign := opt (Grp 1 (Chr (any_of "+-"))) in
  let negative (m : rmatch) := str_eqb (group_or_empty m 1) (py "-") in
  let ci (w : string) := seq (List.map (fun c => Chr (in_chars [c; (c - 32)%N])) (py w)) in
  match re_fullmatch (seq [sign; ci "nan"]) body with
  | Some _ => Some NaN
  | None =>
      match re_fullmatch (seq [sign; ci "inf"; opt (ci "inity")]) body with
      | Some m => Some (if negative m then NInf else PInf)
      | None =>
          let mantissa :=
            Alt (seq [Grp 2 float_digits; opt (seq [lit "."; opt (Grp 3 float_digits)])])
                (seq [lit "."; Grp 3 float_digits]) in
          let exponent :=
            opt (seq [Chr (any_of "eE"); opt (Grp 4 (Chr (any_of "+-"))); Grp 5 float_digits]) in
          match re_fullmatch (seq [sign; mantissa; exponent]) body with
          | None => None
          | Some m =>
              let whole := digits_value (group_or_empty m 2) in
              let decimals := group_or_empty m 3 in
              let scale := pow10 (digits_count decimals) in
              let magnitude :=
                (inject_Z (Z.of_N whole) + inject_Z (Z.of_N (digits_value decimals)) / scale)%Q in
              let e := pow10 (digits_value (group_or_empty m 5)) in
              let magnitude :=
                if str_eqb (group_or_empty m 4) (py "-") then (magnitude / e)%Q
                else (magnitude * e)%Q in
              Some (fin (if negative m then (- magnitude)%Q else magnitude))
          end
      end
  end.

Definition _normalize_quantity_text (text : str) : str :=
  let cleaned := strip L text in
  let cleaned := replace (replace cleaned [EN_DASH] (py "-")) [EM_DASH] (py "-") in
  let cleaned :=
    re_sub (seq [NotBehind ascii_alpha; Chr (any_of "oO"); Ahead d]) (py "0") cleaned in
  let cleaned :=
    re_sub (seq [Behind (py_isdecimal L); Chr (any_of "oO"); Ahead (alts [d; lit "/"; wb])])
           (py "0") cleaned in
  let cleaned :=
    re_sub (seq [NotBehind ascii_alpha; Chr (any_of "Il");
                 Ahead (alts [d; lit "/"; lit "."; wb])]) (py "1") cleaned in
  let cleaned :=
    re_sub (seq [Behind (py_isdecimal L); Chr (any_of "Il");
                 Ahead (alts [d; lit "/"; lit "."; wb])]) (py "1") cleaned in
  let cleaned :=
    re_sub (seq [Behind (py_isdecimal L); lit ","; Ahead d]) (py ".") cleaned in
  let cleaned :=
    re_sub_with (seq [Grp 1 frac; plus d; wb]) (fun m => group_or_empty m 1) cleaned in
  let cleaned :=
    re_sub (seq [Bol; lit "/"; star s;
                 Ahead (Alt (seq [plus d; star s; lit "/"; star s; plus d]) frac)]) [] cleaned in
  let cleaned :=
    re_sub_with (seq [Grp 1 d; Grp 2 frac])
                (fun m => group_or_empty m 1 ++ py " " ++ group_or_empty m 2) cleaned in
  fold_left (fun acc '(symbol, value) => replace acc [symbol] value) UNICODE_FRACTIONS cleaned.

(** [_parse_quantity_value]; the recursion on the two sides of a hyphen and
    on the fraction of a mixed number is bounded by [fuel]. *)
Fixpoint parse_quantity_value_fuel (fuel : nat) (text : str) : option pyfloat :=
  match fuel with
  | O => None
  | S fuel' =>
      let cleaned := _normalize_quantity_text text in
      if str_eqb cleaned [] then None
      else
        let merged :=
          match re_fullmatch (seq [Grp 1 (Chr (in_range "1" "9")); Grp 2 (Chr (in_range "1" "9"));
                                   lit "/"; Grp 3 (Rep 1 (Some 2) d)]) cleaned with
          | Some m =>
              let whole := py_int L (group_or_empty m 1) in
              let numerator := py_int L (group_or_empty m 2) in
              let denominator := py_int L (group_or_empty m 3) in
              if existsb (N.eqb denominator) [2; 3; 4; 8; 16]%N && N.ltb numerator denominator
              then Some (fadd (Fin (inject_Z (Z.of_N whole)))
                              (fdiv (Fin (inject_Z (Z.of_N numerator)))
                                    (Fin (inject_Z (Z.of_N denominator)))))
              else None
          | None => None
          end in
        match merged with
        | Some v => Some v
        | None =>
            let averaged :=
              match split1 (chr "-") cleaned with
              | (a, Some b) =>
                  let first := parse_quantity_value_fuel fuel' (strip L a) in
                  let second := parse_quantity_value_fuel fuel' (strip L b) in
                  match first, second with
                  | Some x, Some y => Some (fdiv (fadd x y) (Fin 2))
                  | _, _ => None
                  end
              | (_, None) => None
              end in
            match averaged with
            | Some v => Some v
            | None =>
                let ratio :=
                  match split1 (chr "/") cleaned with
                  | (a, Some b) =>
                      match py_float (strip L a) with
                      | Some numerator =>
                          match py_float (strip L b) with
                          | Some denominator =>
                              if is_zero denominator then None
                              else Some (fdiv numerator denominator)
                          | None => None
                          end
                      | None => None
                      end
                  | (_, None) => None
                  end in
                match ratio with
                | Some v => Some v
                | None =>
                    let mixed :=
                      match words L cleaned with
                      | [a; b] =>
                          match py_float a with
                          | Some whole =>
                              match parse_quantity_value_fuel fuel' b with
                              | Some fr => Some (fadd whole fr)
                              | None => None
                              end
                          | None => None
                          end
                      | _ => None
                      end in
                    match mixed with
                    | Some v => Some v
                    | None => py_float cleaned
                    end
                end
            end
        end
  end.

Definition _parse_quantity_value (text : str) : option pyfloat :=
  parse_quantity_value_fuel (4 * length text + 2) text.

Definition not_alnum_ascii : char -> bool :=
  notp (orp ascii_alpha (in_range "0" "9")).

Definition _parse_unit_token (unit_text : str) : option str :=
  let token := strip L unit_text in
  let token := replace (replace (replace token (py "$") (py "s")) (py "5") (py "s"))
                       (py "0") (py "o") in
  let token :=
    re_sub (Alt (seq [Bol; plus (Chr not_alnum_ascii)]) (seq [plus (Chr not_alnum_ascii); Eol]))
           [] token in
  if str_eqb token (py "T") then Some (py "tbsp")
  else
    let normalized := py_lower L token in
    let normalized := replace (replace normalized (py "1b") (py "lb")) (py "ib") (py "lb") in
    let normalized := replace (replace normalized (py "tb5p") (py "tbsp")) (py "t5p") (py "tsp") in
    assoc_str normalized UNIT_ALIASES.

Definition _normalize_quantity_unit_spacing (text : str) : str :=
  let normalized := text in
  let normalized := re_sub (seq [Behind (py_isdecimal L); Ahead az]) (py " ") normalized in
  let normalized := re_sub (seq [Behind ascii_alpha; Ahead d]) (py " ") normalized in
  let normalized :=
    re_sub (seq [Behind ascii_alpha; star s; lit "/"; star s; Ahead d]) (py " / ") normalized in
  strip L (re_sub (plus s) (py " ") normalized).

Definition _normalize_ocr_ingredient_text (text : str) : str :=
  let normalized := text in
  let normalized :=
    re_sub (seq [Bol; star s;
                 plus (Chr (in_chars (STEP_BULLETS ++ py "-" ++ [EN_DASH; EM_DASH]))); star s])
           [] normalized in
  let normalized :=
    re_sub (seq [Bol; star s; plus (lit "/"); star s;
                 Ahead (Alt (seq [plus d; star s; lit "/"; star s; plus d]) frac)])
           [] normalized in
  let normalized :=
    re_sub (seq [NotBehind ascii_alpha; Chr (any_of "Il");
                 Ahead (seq [star s; lit "/"; star s; d])]) (py "1") normalized in
  let normalized :=
    re_sub (seq [NotBehind ascii_alpha; Chr (any_of "oO");
                 Ahead (seq [star s; opt (Chr (any_of ".,")); d])]) (py "0") normalized in
  let normalized :=
    re_sub (seq [wb; lit "tb"; star s; lit "5"; star s; lit "p"; wb]) (py "tbsp") normalized in
  let normalized :=
    re_sub (seq [wb; lit "t"; star s; lit "5"; star s; lit "p"; wb]) (py "tsp") normalized in
  let normalized :=
    re_sub (seq [wb; Chr (any_of "1iI"); lit "b"; wb]) (py "lb") normalized in
  normalized.

Definition not_token_char : char -> bool :=
  notp (orp ascii_alpha (orp (in_range "0" "9") (orp (in_chars FRACTION_CHARS) (any_of "/.-")))).

Definition _is_quantity_prefix_token (token : str) : bool :=
  let stripped := strip L token in
  if str_eqb stripped [] then false
  else if str_eqb stripped (py "/") then true
  else
    let cleaned :=
      re_sub (Alt (seq [Bol; plus (Chr not_token_char)]) (seq [plus (Chr not_token_char); Eol]))
             [] stripped in
    if str_eqb cleaned [] then false
    else if matched (_parse_quantity_value cleaned) then true
    else matched (_parse_unit_token cleaned).

Definition plain_quantity (value : pyfloat) (unit : str) : Quantity :=
  {| q_value := round4 value; q_upperValue := None; q_unit := unit |}.

(** The [while idx < len(tokens)] loop of [_parse_quantity_segment]; every
    iteration consumes a token or stops. *)
Fixpoint quantity_segment_loop (fuel : nat) (tokens : list str) : list Quantity :=
  match fuel, tokens with
  | O, _ | _, [] => []
  | S fuel', t0 :: rest =>
      let mixed :=
        match rest with
        | second_token :: rest' =>
            if matched (_parse_unit_token second_token) then None
            else match _parse_quantity_value (t0 ++ py " " ++ second_token) with
                 | Some mixed_value => Some (mixed_value, rest')
                 | None => None
                 end
        | [] => None
        end in
      let single :=
        match mixed with
        | Some r => Some r
        | None =>
            match _parse_quantity_value t0 with
            | Some single_value => Some (single_value, rest)
            | None => None
            end
        end in
      match single with
      | None => []
      | Some (value, remaining) =>
          match remaining with
          | t :: remaining' =>
              match _parse_unit_token t with
              | Some parsed_unit =>
                  plain_quantity value parsed_unit :: quantity_segment_loop fuel' remaining'
              | None => plain_quantity value (py "whole") :: quantity_segment_loop fuel' remaining
              end
          | [] => [plain_quantity value (py "whole")]
          end
      end
  end.

Definition _parse_quantity_segment (segment_text : str) : list Quantity :=
  let tokens := words L segment_text in
  quantity_segment_loop (length tokens) tokens.

Fixpoint take_while {A : Type} (p : A -> bool) (l : list A) : list A :=
  match l with
  | x :: l' => if p x then x :: take_while p l' else []
  | [] => []
  end.

(** The quantities of all segments, or [None] as soon as one has none. *)
Fixpoint segment_quantities (segments : list str) : option (list Quantity) :=
  match segments with
  | [] => Some []
  | segment :: rest =>
      match _parse_quantity_segment segment with
      | [] => None
      | qs => option_map (app qs) (segment_quantities rest)
      end
  end.

Definition _parse_slash_quantity_ingredient (cleaned : str) : option parsed_ingredient :=
  if negb (contains cleaned (py "/")) then None
  else
    let tokens := words L cleaned in
    if Nat.ltb (length tokens) 4 then None
    else
      let prefix_tokens := take_while _is_quantity_prefix_token tokens in
      let split_at := length prefix_tokens in
      if Nat.eqb split_at 0 || negb (mem_str (py "/") prefix_tokens) then None
      else if Nat.leb (length tokens) split_at then None
      else
        let ingredient_name := _clean_text L (join (py " ") (skipn split_at tokens)) in
        if str_eqb ingredient_name [] then None
        else
          let prefix_text := join (py " ") prefix_tokens in
          let segments := nonempty (List.map (strip L) (split_on (chr "/") prefix_text)) in
          if Nat.ltb (length segments) 2 then None
          else
            match segment_quantities segments with
            | Some (q0 :: qs) => Some (ingredient_name, Some q0, qs, None)
            | _ => None
            end.

(** [([A-Za-z]+[\.,]?)], as written and under [re.IGNORECASE]. *)
Definition unit_word (alpha : re) : re := seq [plus alpha; opt (Chr (any_of ".,"))].

(** A word of letters with an optional dot or comma, then optionally white
    space and the rest of the line. *)
Definition next_token : re :=
  seq [Bol; Grp 1 (unit_word az); opt (seq [plus s; Grp 2 (star dot)]); Eol].

(** The unit and the name when the word after the quantity is not a unit:
    the next word may be one ("3 garlic cloves"). *)
Definition unit_after_name (unit_text remaining : str) : str * option str :=
  match re_match next_token remaining with
  | Some next_match =>
      let next_unit_text := strip L (group_or_empty next_match 1) in
      match _parse_unit_token next_unit_text with
      | Some next_unit =>
          let rest_after_next := _clean_text L (group_or_empty next_match 2) in
          (_clean_text L (unit_text ++ py " " ++ rest_after_next), Some next_unit)
      | None => (_clean_text L (unit_text ++ py " " ++ remaining), None)
      end
  | None => (_clean_text L (unit_text ++ py " " ++ remaining), None)
  end.

Definition range_pattern : re :=
  let azi := Chr (ci_class L ascii_alpha) in
  seq [Bol; Grp 1 QE; star s;
       alts [liti L "to"; lit "-"; Chr (char_eqb EN_DASH); Chr (char_eqb EM_DASH)];
       star s; Grp 2 QE; plus s; Grp 3 (unit_word azi); plus s; Grp 4 (star dot); Eol].

Definition _parse_range_ingredient (cleaned : str) : option parsed_ingredient :=
  match re_match range_pattern cleaned with
  | None => None
  | Some m =>
      let lower_text := strip L (group_or_empty m 1) in
      let upper_text := strip L (group_or_empty m 2) in
      let unit_text := strip L (group_or_empty m 3) in
      let remaining := _clean_text L (group_or_empty m 4) in
      match _parse_quantity_value lower_text, _parse_quantity_value upper_text with
      | Some lower_value, Some upper_value =>
          if str_eqb remaining [] then None
          else
            let '(name, parsed_unit) :=
              match _parse_unit_token unit_text with
              | Some u => (remaining, Some u)
              | None => unit_after_name unit_text remaining
              end in
            let parsed_unit := match parsed_unit with Some u => u | None => py "whole" end in
            let lower := fmin lower_value upper_value in
            let upper := fmax lower_value upper_value in
            Some (name,
                  Some {| q_value := round4 lower; q_upperValue := Some (round4 upper);
                          q_unit := parsed_unit |},
                  [], None)
      | _, _ => None
      end
  end.

Definition mixed_unit_pattern : re :=
  let azi := Chr (ci_class L ascii_alpha) in
  seq [Bol; Grp 1 QE; plus s; Grp 2 (unit_word azi); star s;
       Grp 3 (alts [liti L "plus"; liti L "and"; lit "&"; lit "+"]); star s;
       Grp 4 QE; plus s; Grp 5 (unit_word azi); plus s; Grp 6 (star dot); Eol].

Definition _parse_mixed_unit_ingredient (cleaned : str) : option parsed_ingredient :=
  match re_match mixed_unit_pattern cleaned with
  | None => None
  | Some m =>
      let first_qty := strip L (group_or_empty m 1) in
      let first_unit := strip L (group_or_empty m 2) in
      let second_qty := strip L (group_or_empty m 4) in
      let second_unit := strip L (group_or_empty m 5) in
      let remaining := _clean_text L (group_or_empty m 6) in
      if str_eqb remaining [] then None
      else
        match _parse_quantity_value first_qty, _parse_quantity_value second_qty,
              _parse_unit_token first_unit, _parse_unit_token second_unit with
        | Some first_value, Some second_value, Some normalized_first, Some normalized_second =>
            Some (remaining, Some (plain_quantity first_value normalized_first),
                  [plain_quantity second_value normalized_second], None)
        | _, _, _, _ => None
        end
  end.

(** A quantity expression, an optional unit word, white space and the rest
    of the line. *)
Definition generic_pattern : re :=
  seq [Bol; Grp 1 QE; star s; opt (Grp 2 (unit_word az)); plus s; Grp 3 (star dot); Eol].

(** The guard against numbered instructions labelled as ingredients:
    digits, a dot or a closing parenthesis, white space, a letter. *)
Definition numbered_instruction : re :=
  seq [Bol; plus d; star s; Chr (any_of ".)"); plus s; az].

(** The text the parsers work on. *)
Definition ingredient_source (raw : str) : str :=
  _normalize_quantity_unit_spacing (_normalize_ocr_ingredient_text (_clean_text L raw)).

Definition _parse_ingredient_text (raw : str) : parsed_ingredient :=
  let cleaned := ingredient_source raw in
  if matched (re_match numbered_instruction cleaned)
  then (cleaned, None, [], None)
  else
    match _parse_range_ingredient cleaned with
    | Some ranged => ranged
    | None =>
        match _parse_mixed_unit_ingredient cleaned with
        | Some mixed => mixed
        | None =>
            match _parse_slash_quantity_ingredient cleaned with
            | Some slash_alt => slash_alt
            | None =>
                match re_match generic_pattern cleaned with
                | None => (cleaned, None, [], None)
                | Some m =>
                    let qty_text := strip L (group_or_empty m 1) in
                    let unit_text := strip L (group_or_empty m 2) in
                    let remaining := strip L (group_or_empty m 3) in
                    match _parse_quantity_value qty_text with
                    | None => (cleaned, None, [], None)
                    | Some value =>
                        let parsed_unit :=
                          if str_eqb unit_text [] then None else _parse_unit_token unit_text in
                        let '(name, unit) :=
                          match parsed_unit with
                          | Some u => (if str_eqb remaining [] then cleaned else remaining, u)
                          | None =>
                              if str_eqb unit_text []
                              then (if str_eqb remaining [] then cleaned else remaining,
                                    py "whole")
                              else
                                let '(name, next_unit) := unit_after_name unit_text remaining in
                                (name, match next_unit with Some u => u | None => py "whole" end)
                          end in
                        (name, Some (plain_quantity value unit), [], None)
                    end
                end
            end
        end
    end.
End IngredientParser.

(** ** lab_recipe.py: the recipe assembler *)

Record IngredientEntry := {
  ing_name : str;
  ing_quantity : option Quantity;
  ing_additionalQuantities : list Quantity;
  ing_note : option str;
  ing_section : option str
}.

Record StepEntry := {
  step_index : nat;
  step_text : str;
  step_timers : list TimerSpec;
  step_section : option str
}.

Record SectionItems := {
  so_name : option str;
  so_items : list str
}.

Record RecipeStats := {
  ingredient_count : nat;
  ingredient_parsed_quantity_count : nat;
  step_count : nat;
  note_count : nat;
  ingredient_section_count : nat;
  step_section_count : nat
}.

Record Recipe := {
  r_title : str;
  r_sourceURL : option str;
  r_sourceTitle : option str;
  r_yields : str;
  r_totalMinutes : option N;
  r_ingredients : list IngredientEntry;
  r_steps : list StepEntry;
  r_notes : option str;
  r_ingredientSections : list SectionItems;
  r_stepSections : list SectionItems;
  r_stats : RecipeStats
}.

(** A row of the assembler: the ["text"] and ["label"] entries of the dict. *)
Record Row := {
  row_text : str;
  row_label : str
}.

Definition opt_str_eqb (a b : option str) : bool :=
  match a, b with
  | Some x, Some y => str_eqb x y
  | None, None => true
  | _, _ => false
  end.

(** [x or None] for a string. *)
Definition or_none (x : str) : option str :=
  match x with [] => None | _ => Some x end.

(** [name if name else "Main"] *)
Definition section_key (name : option str) : str :=
  match name with
  | Some (c :: n) => c :: n
  | _ => py "Main"
  end.

(** Append [item] to the list under [key], adding the key at the end of the
    order when it is new. *)
Fixpoint section_append (key item : str) (sections : list (str * list str))
    : list (str * list str) :=
  match sections with
  | [] => [(key, [item])]
  | (k, items) :: rest =>
      if str_eqb k key then (k, items ++ [item]) :: rest
      else (k, items) :: section_append key item rest
  end.

Definition sections_out (sections : list (str * list str)) : list SectionItems :=
  List.map (fun '(key, items) =>
              {| so_name := if str_eqb key (py "Main") then None else Some key;
                 so_items := items |}) sections.

(** The state of the pass over the rows. *)
Record assembly := {
  a_title : str;
  a_current_section : RecipeSection;
  a_current_ingredient_section : option str;
  a_current_step_section : option str;
  a_ingredients : list IngredientEntry;
  a_steps : list StepEntry;
  a_notes : list str;
  a_parsed_ingredient_count : nat;
  a_extracted_yields : option str;
  a_prep_minutes : option N;
  a_cook_minutes : option N;
  a_total_minutes : option N
}.

Definition assembly_start : assembly := {|
  a_title := [];
  a_current_section := sec_unknown;
  a_current_ingredient_section := None;
  a_current_step_section := None;
  a_ingredients := [];
  a_steps := [];
  a_notes := [];
  a_parsed_ingredient_count := 0;
  a_extracted_yields := None;
  a_prep_minutes := None;
  a_cook_minutes := None;
  a_total_minutes := None
|}.

Definition set_section (st : assembly) (sec : RecipeSection) : assembly :=
  {| a_title := a_title st; a_current_section := sec;
     a_current_ingredient_section := a_current_ingredient_section st;
     a_current_step_section := a_current_step_section st;
     a_ingredients := a_ingredients st; a_steps := a_steps st; a_notes := a_notes st;
     a_parsed_ingredient_count := a_parsed_ingredient_count st;
     a_extracted_yields := a_extracted_yields st; a_prep_minutes := a_prep_minutes st;
     a_cook_minutes := a_cook_minutes st; a_total_minutes := a_total_minutes st |}.

Definition set_subsections (st : assembly) (ing stp : option str) : assembly :=
  {| a_title := a_title st; a_current_section := a_current_section st;
     a_current_ingredient_section := ing;
     a_current_step_section := stp;
     a_ingredients := a_ingredients st; a_steps := a_steps st; a_notes := a_notes st;
     a_parsed_ingredient_count := a_parsed_ingredient_count st;
     a_extracted_yields := a_extracted_yields st; a_prep_minutes := a_prep_minutes st;
     a_cook_minutes := a_cook_minutes st; a_total_minutes := a_total_minutes st |}.

Definition set_title (st : assembly) (t : str) : assembly :=
  {| a_title := t; a_current_section := a_current_section st;
     a_current_ingredient_section := a_current_ingredient_section st;
     a_current_step_section := a_current_step_section st;
     a_ingredients := a_ingredients st; a_steps := a_steps st; a_notes := a_notes st;
     a_parsed_ingredient_count := a_parsed_ingredient_count st;
     a_extracted_yields := a_extracted_yields st; a_prep_minutes := a_prep_minutes st;
     a_cook_minutes := a_cook_minutes st; a_total_minutes := a_total_minutes st |}.

(** [notes.append(line)] *)
Definition append_note (st : assembly) (line : str) : assembly :=
  {| a_title := a_title st; a_current_section := a_current_section st;
     a_current_ingredient_section := a_current_ingredient_section st;
     a_current_step_section := a_current_step_section st;
     a_ingredients := a_ingredients st; a_steps := a_steps st;
     a_notes := a_notes st ++ [line];
     a_parsed_ingredient_count := a_parsed_ingredient_count st;
     a_extracted_yields := a_extracted_yields st; a_prep_minutes := a_prep_minutes st;
     a_cook_minutes := a_cook_minutes st; a_total_minutes := a_total_minutes st |}.

(** [if note_line: notes.append(note_line)] *)
Definition append_note_if (st : assembly) (line : str) : assembly :=
  match line with [] => st | _ => append_note st line end.

Definition or_else {A : Type} (new old : option A) : option A :=
  match new with Some x => Some x | None => old end.

Definition record_metadata (st : assembly) (md : TimeMetadata) : assembly :=
  {| a_title := a_title st; a_current_section := a_current_section st;
     a_current_ingredient_section := a_current_ingredient_section st;
     a_current_step_section := a_current_step_section st;
     a_ingredients := a_ingredients st; a_steps := a_steps st; a_notes := a_notes st;
     a_parsed_ingredient_count := a_parsed_ingredient_count st;
     a_extracted_yields :=
       match md_yields md with
       | Some (c :: y) => Some (c :: y)
       | _ => a_extracted_yields st
       end;
     a_prep_minutes := or_else (md_prep_minutes md) (a_prep_minutes st);
     a_cook_minutes := or_else (md_cook_minutes md) (a_cook_minutes st);
     a_total_minutes := or_else (md_total_minutes md) (a_total_minutes st) |}.

Section RecipeAssembler.
Context (L : PyLib).

Abbreviation d := (digit L).
Abbreviation s := (ws L).
Abbreviation wb := (WordB (is_word L)).
Abbreviation az := (Chr ascii_alpha).

Definition set_ing_section (item : IngredientEntry) (sec : option str) : IngredientEntry :=
  {| ing_name := ing_name item; ing_quantity := ing_quantity item;
     ing_additionalQuantities := ing_additionalQuantities item;
     ing_note := ing_note item; ing_section := sec |}.

Definition set_ing_name (item : IngredientEntry) (name : str) : IngredientEntry :=
  {| ing_name := name; ing_quantity := ing_quantity item;
     ing_additionalQuantities := ing_additionalQuantities item;
     ing_note := ing_note item; ing_section := ing_section item |}.

(** The marker a name gives, if any: the split name of the loop of
    [_infer_sauce_section_split]. *)
Definition sauce_marker (item : IngredientEntry) : option str :=
  let name := _clean_text L (py_lower L (ing_name item)) in
  if str_eqb name [] then None
  else
    let marker :=
      re_sub (seq [lit "("; star (Chr (notp (any_of ")"))); lit ")"]) [] name in
    let marker := strip_by (any_of " :;,-") (re_sub (plus s) (py " ") marker) in
    if str_eqb marker [] then None
    else if matched (re_fullmatch
                       (Alt (seq [lit "for "; opt (lit "the "); lit "sauce"]) (lit "sauce"))
                       marker)
    then Some (py "Sauce")
    else if matched (re_fullmatch
                       (alts [lit "for serving"; lit "to serve"; lit "for garnish"]) marker)
    then Some (py "For Serving")
    else None.

Fixpoint find_split (idx : nat) (items : list IngredientEntry) : option (nat * str) :=
  match items with
  | [] => None
  | item :: rest =>
      match sauce_marker item with
      | Some split_name => Some (S idx, split_name)
      | None => find_split (S idx) rest
      end
  end.

Fixpoint assign_sections (idx split_index : nat) (split_name : str)
    (items : list IngredientEntry) : list IngredientEntry :=
  match items with
  | [] => []
  | item :: rest =>
      set_ing_section item (if Nat.ltb idx split_index then None else Some split_name)
      :: assign_sections (S idx) split_index split_name rest
  end.

(** [_infer_sauce_section_split] changes the entries in place; the model
    returns the list afterwards. *)
Definition _infer_sauce_section_split (ingredients : list IngredientEntry)
    (steps : list StepEntry) : list IngredientEntry :=
  if Nat.ltb (length ingredients) 6 then ingredients
  else if existsb (fun item => matched (match ing_section item with
                                        | Some sec => or_none sec
                                        | None => None
                                        end)) ingredients
  then ingredients
  else
    let step_text_ := join (py " ") (List.map (fun item => py_lower L (step_text item)) steps) in
    if negb (matched (re_search (seq [wb; lit "sauce"; wb]) step_text_)) then ingredients
    else
      match find_split 0 (firstn (length ingredients - 2) ingredients) with
      | None => ingredients
      | Some (split_index, split_name) =>
          if Nat.ltb split_index 2 || Nat.ltb (length ingredients - split_index) 2
          then ingredients
          else assign_sections 0 split_index split_name ingredients
      end.

Definition _looks_like_recipe_title (text : str) : bool :=
  let cleaned := _clean_text L text in
  if str_eqb cleaned [] then false
  else if matched (_extract_tips_remainder L cleaned) then false
  else if _looks_like_ingredient_line L cleaned then false
  else if matched (_extract_metadata_line L cleaned) then false
  else if matched (re_search (time_word L (liti L)) cleaned) then false
  else if matched (_header_section_type L cleaned) then false
  else if matched (re_match (seq [Bol; star s; Chr (in_chars (py "-*" ++ [BULLET])); plus s])
                            cleaned)
  then false
  else if endswith cleaned (py ".") then false
  else if matched (re_match (seq [Bol; words_alti L ["for"; "feel"; "use"]; wb]) cleaned)
  then false
  else if contains cleaned (py ",") && Nat.ltb 8 (length (words L cleaned)) then false
  else if matched (re_match
                     (seq [Bol; words_alti L ["preheat"; "mix"; "add"; "bake"; "cook"; "stir";
                                              "whisk"; "combine"; "toss"; "rest"; "serve";
                                              "simmer"; "boil"]; wb]) cleaned)
  then false
  else
    let words_ :=
      re_findall (seq [az; star (Chr (orp ascii_alpha (any_of "'&-")))]) cleaned in
    if Nat.ltb (length words_) 2 || Nat.ltb 16 (length words_) then false
    else true.

Definition ends_with_any (x : str) (suffixes : list str) : bool :=
  existsb (endswith x) suffixes.

Definition _looks_like_step_continuation (previous_text current_text : str) : bool :=
  let prev := _clean_text L previous_text in
  let curr := _clean_text L current_text in
  if str_eqb prev [] || str_eqb curr [] then false
  else if matched (re_match (seq [Bol; plus d; star s; Chr (any_of ".)"); plus s]) curr)
  then false
  else if _looks_like_subsection_header L curr then false
  else if ends_with_any prev [py "."; py "!"; py "?"] then false
  else if ends_with_any prev [py ","; py ";"; py "-"; [EN_DASH]; [EM_DASH]; py "/"] then true
  else if Nat.ltb (count_char prev (chr ")")) (count_char prev (chr "(")) then true
  else if matched (re_match (seq [Bol; words_alti L ["and"; "or"; "then"; "plus"; "also"]; wb])
                            curr)
  then true
  else if matched (re_match
                     (seq [Bol; Chr (orp (in_range "a" "z")
                                         (in_chars (py "(\[/-'" ++ [34%N])))]) curr)
  then true
  else false.

(** [merged] is kept with its last entry first. *)
Definition merge_step (merged : list StepEntry) (item : StepEntry) : list StepEntry :=
  let text_ := _clean_text L (step_text item) in
  if str_eqb text_ [] then merged
  else
    let new_entry :=
      {| step_index := length merged; step_text := text_;
         step_timers := _extract_timers L text_; step_section := step_section item |} in
    match merged with
    | previous :: earlier =>
        if opt_str_eqb (step_section previous) (step_section item)
           && _looks_like_step_continuation (step_text previous) text_
        then
          let previous_text := _clean_text L (step_text previous) in
          let joined := _clean_text L (previous_text ++ py " " ++ text_) in
          {| step_index := step_index previous; step_text := joined;
             step_timers := _extract_timers L joined;
             step_section := step_section previous |} :: earlier
        else new_entry :: merged
    | [] => new_entry :: merged
    end.

Fixpoint reindex (idx : nat) (items : list StepEntry) : list StepEntry :=
  match items with
  | [] => []
  | item :: rest =>
      {| step_index := idx; step_text := step_text item; step_timers := step_timers item;
         step_section := step_section item |} :: reindex (S idx) rest
  end.

Definition _merge_wrapped_steps (steps : list StepEntry) : list StepEntry :=
  reindex 0 (rev (fold_left merge_step steps [])).

Definition _looks_like_ingredient_continuation (previous current : IngredientEntry) : bool :=
  if negb (opt_str_eqb (ing_section previous) (ing_section current)) then false
  else if matched (ing_quantity current) then false
  else if negb (Nat.eqb (length (ing_additionalQuantities current)) 0) then false
  else
    let prev_name := _clean_text L (ing_name previous) in
    let curr_name := _clean_text L (ing_name current) in
    if str_eqb prev_name [] || str_eqb curr_name [] then false
    else if ends_with_any prev_name [py ","; py ";"; py "-"; py "("; py "/"] then true
    else if matched (re_match
                       (seq [Bol; words_alti L ["and"; "or"; "to"; "for"; "of"; "with"; "plus"];
                             wb]) curr_name)
    then true
    else if matched (re_match (seq [Bol; plus d; lit "-"; az]) curr_name) then true
    else if py_islower L (firstn 1 curr_name) then true
    else false.

Definition merge_ingredient (merged : list IngredientEntry) (item : IngredientEntry)
    : list IngredientEntry :=
  let name := _clean_text L (ing_name item) in
  if str_eqb name [] then merged
  else
    let normalized := set_ing_name item name in
    match merged with
    | previous :: earlier =>
        if _looks_like_ingredient_continuation previous normalized
        then
          let previous_name := _clean_text L (ing_name previous) in
          set_ing_name previous (_clean_text L (previous_name ++ py " " ++ name)) :: earlier
        else normalized :: merged
    | [] => normalized :: merged
    end.

Definition _merge_wrapped_ingredients (ingredients : list IngredientEntry)
    : list IngredientEntry :=
  rev (fold_left merge_ingredient ingredients []).

Definition add_ingredient (st : assembly) (text_ : str) (section_name : option str) : assembly :=
  let '(name, quantity, additional_quantities, note_) := _parse_ingredient_text L text_ in
  let name := _sanitize_ingredient_name L name in
  if _should_drop_ingredient_entry L name quantity then st
  else
    {| a_title := a_title st; a_current_section := a_current_section st;
       a_current_ingredient_section := a_current_ingredient_section st;
       a_current_step_section := a_current_step_section st;
       a_ingredients :=
         a_ingredients st ++
         [{| ing_name := name; ing_quantity := quantity;
             ing_additionalQuantities := additional_quantities;
             ing_note := note_; ing_section := section_name |}];
       a_steps := a_steps st; a_notes := a_notes st;
       a_parsed_ingredient_count :=
         a_parsed_ingredient_count st
         + (if matched quantity then 1 else 0) + length additional_quantities;
       a_extracted_yields := a_extracted_yields st; a_prep_minutes := a_prep_minutes st;
       a_cook_minutes := a_cook_minutes st; a_total_minutes := a_total_minutes st |}.

Definition add_step (st : assembly) (text_ : str) (section_name : option str) : assembly :=
  let step_text_ := _strip_step_number_prefix L text_ in
  if str_eqb step_text_ [] then st
  else if _is_ocr_artifact_line L step_text_ then st
  else
    {| a_title := a_title st; a_current_section := a_current_section st;
       a_current_ingredient_section := a_current_ingredient_section st;
       a_current_step_section := a_current_step_section st;
       a_ingredients := a_ingredients st;
       a_steps :=
         a_steps st ++
         [{| step_index := length (a_steps st); step_text := step_text_;
             step_timers := _extract_timers L step_text_; step_section := section_name |}];
       a_notes := a_notes st;
       a_parsed_ingredient_count := a_parsed_ingredient_count st;
       a_extracted_yields := a_extracted_yields st; a_prep_minutes := a_prep_minutes st;
       a_cook_minutes := a_cook_minutes st; a_total_minutes := a_total_minutes st |}.

(** The label of a row, [str(row.get("label", "")).strip().lower()], when it
    is one of [LABELS]. *)
Definition row_label_of (row : Row) : option Label :=
  label_of_str (py_lower L (strip L (row_label row))).

Definition is_note_like_label (l : Label) : bool :=
  existsb (label_eqb l) [ingredient; step; note].

(** The body of the loop over the rows, after the text and the label have
    been read and found usable. *)
Definition assemble_line (st : assembly) (text_ : str) (lbl : Label) : assembly :=
  match _extract_metadata_line L text_ with
  | Some metadata => record_metadata st metadata
  | None =>
  if _is_ocr_artifact_line L text_ then st
  else
  match _extract_tips_remainder L text_ with
  | Some tips_remainder =>
      append_note_if (set_section st sec_notes) (_normalize_note_text L tips_remainder)
  | None =>
  if recipe_section_eqb (a_current_section st) sec_notes && is_note_like_label lbl
     && _looks_like_note_fragment L text_
  then append_note_if (set_section st sec_notes) (_normalize_note_text L text_)
  else if label_eqb lbl title && str_eqb (a_title st) []
  then (if _looks_like_recipe_title text_ then set_title st text_ else append_note st text_)
  else
  match lbl with
  | header =>
      match _header_section_type L text_ with
      | Some sec_ingredients =>
          set_subsections (set_section st sec_ingredients) None (a_current_step_section st)
      | Some sec_steps =>
          set_subsections (set_section st sec_steps) (a_current_ingredient_section st) None
      | Some sec_notes => set_section st sec_notes
      | _ =>
          if _looks_like_subsection_header L text_ then
            let subsection := _clean_text L (rstrip_by (any_of ":") text_) in
            match a_current_section st with
            | sec_steps =>
                set_subsections st (a_current_ingredient_section st) (Some subsection)
            | sec_notes => append_note st text_
            | _ =>
                set_subsections (set_section st sec_ingredients) (Some subsection)
                                (a_current_step_section st)
            end
          else if recipe_section_eqb (a_current_section st) sec_ingredients then
            if _looks_like_headerless_instruction L text_
            then let st := set_section st sec_steps in
                 add_step st text_ (a_current_step_section st)
            else add_ingredient st text_ (a_current_ingredient_section st)
          else st
      end
  | ingredient =>
      if recipe_section_eqb (a_current_section st) sec_notes && _looks_like_note_fragment L text_
      then append_note_if st (_normalize_note_text L text_)
      else if recipe_section_eqb (a_current_section st) sec_notes
              && _looks_like_step_fragment L text_
      then let st := set_section st sec_steps in add_step st text_ (a_current_step_section st)
      else if recipe_section_eqb (a_current_section st) sec_ingredients
              && _looks_like_headerless_instruction L text_
      then let st := set_section st sec_steps in add_step st text_ (a_current_step_section st)
      else if recipe_section_eqb (a_current_section st) sec_steps
              && negb (_looks_like_ingredient_line L text_)
      then let st := set_section st sec_steps in add_step st text_ (a_current_step_section st)
      else let st := set_section st sec_ingredients in
           add_ingredient st text_ (a_current_ingredient_section st)
  | step =>
      if recipe_section_eqb (a_current_section st) sec_notes && _looks_like_note_fragment L text_
      then append_note_if st (_normalize_note_text L text_)
      else
        let st := set_section st sec_steps in
        fold_left (fun st step_text_ => add_step st step_text_ (a_current_step_section st))
                  (_split_numbered_steps L text_) st
  | note =>
      if _looks_like_step_fragment L text_
      then let st := set_section st sec_steps in add_step st text_ (a_current_step_section st)
      else append_note_if (set_section st sec_notes) (_normalize_note_text L text_)
  | _ =>
      if str_eqb (a_title st) [] && negb (label_eqb lbl junk)
      then (if _looks_like_recipe_title text_ then set_title st text_ else st)
      else st
  end
  end
  end.

(** One iteration: rows without text or with an unknown label are skipped. *)
Definition assemble_row (st : assembly) (row : Row) : assembly :=
  let text_ := _clean_text L (row_text row) in
  match row_label_of row with
  | None => st
  | Some lbl => if str_eqb text_ [] then st else assemble_line st text_ lbl
  end.

(** The first fallback loop: the text of the first row with a usable label
    and a title shape. *)
Fixpoint title_from_rows (rows : list Row) : option str :=
  match rows with
  | [] => None
  | row :: rest =>
      let text_ := _clean_text L (row_text row) in
      match row_label_of row with
      | None => title_from_rows rest
      | Some _ =>
          if str_eqb text_ [] then title_from_rows rest
          else if _looks_like_recipe_title text_ then Some text_
          else title_from_rows rest
      end
  end.

(** The first title-shaped note: the title it gives and the notes without it. *)
Fixpoint pop_title_note (notes_ : list str) : option (str * list str) :=
  match notes_ with
  | [] => None
  | n :: rest =>
      if _looks_like_recipe_title n then Some (_clean_text L n, rest)
      else match pop_title_note rest with
           | Some (t, rest') => Some (t, n :: rest')
           | None => None
           end
  end.

Definition needs_title (t : str) : bool :=
  str_eqb t [] || negb (_looks_like_recipe_title t).


Definition section_index {A : Type} (sec : A -> option str) (item_text : A -> str)
    (items : list A) : list (str * list str) :=
  fold_left (fun acc item => section_append (section_key (sec item)) (strip L (item_text item)) acc)
            items [].

Definition _assemble_app_recipe (rows : list Row) (source_url source_title : str) : Recipe :=
  let st := fold_left assemble_row rows assembly_start in
  let title_ := a_title st in
  let notes_ := a_notes st in
  let title_ :=
    if needs_title title_
    then match title_from_rows rows with Some t => t | None => title_ end
    else title_ in
  let '(title_, notes_) :=
    if needs_title title_
    then match pop_title_note notes_ with
         | Some (t, rest) => (t, rest)
         | None => (title_, notes_)
         end
    else (title_, notes_) in
  let title_ := match title_ with [] => py "Untitled Recipe" | _ => title_ end in
  let ingredients_ := _merge_wrapped_ingredients (a_ingredients st) in
  let steps_ := _merge_wrapped_steps (a_steps st) in
  let ingredients_ := _infer_sauce_section_split ingredients_ steps_ in
  let ingredient_sections_out := sections_out (section_index ing_section ing_name ingredients_) in
  let step_sections_out := sections_out (section_index step_section step_text steps_) in
  let notes_ :=
    match title_ with
    | [] => notes_
    | _ =>
        let normalized_title := py_casefold L (_clean_text L title_) in
        List.filter (fun n => negb (str_eqb (py_casefold L (_clean_text L n)) normalized_title))
                    notes_
    end in
  let notes_text := strip L (join [10%N] notes_) in
  let resolved_source_title :=
    match source_title with
    | [] => _default_source_title L source_url
    | _ => Some source_title
    end in
  let resolved_total_minutes :=
    match a_total_minutes st with
    | Some t => Some t
    | None =>
        match a_prep_minutes st, a_cook_minutes st with
        | Some p, Some c => Some (p + c)%N
        | None, Some c => Some c
        | Some p, None => Some p
        | None, None => None
        end
    end in
  {| r_title := match title_ with [] => py "Untitled Recipe" | _ => title_ end;
     r_sourceURL := or_none source_url;
     r_sourceTitle := resolved_source_title;
     r_yields := match a_extracted_yields st with
                 | Some (c :: y) => c :: y
                 | _ => py "4 servings"
                 end;
     r_totalMinutes := resolved_total_minutes;
     r_ingredients := ingredients_;
     r_steps := steps_;
     r_notes := or_none notes_text;
     r_ingredientSections := ingredient_sections_out;
     r_stepSections := step_sections_out;
     r_stats := {|
       ingredient_count := length ingredients_;
       ingredient_parsed_quantity_count := a_parsed_ingredient_count st;
       step_count := length steps_;
       note_count := length notes_;
       ingredient_section_count := length ingredient_sections_out;
       step_section_count := length step_sections_out |} |}.
End RecipeAssembler.

(** ** Statements about probability tables, and sample inputs *)


(** A classifier fitted on no rows: the rule engine alone decides. *)
Definition untrained : NGramNaiveBayesClassifier := fit latin1 new_classifier [].

Definition sample_row (i : Z) (t : string) : LineRow :=
  {| doc_id := py "doc"; line_index := i; text := py t; label := [] |}.

Definition notes_then_header : list LineRow :=
  [sample_row 0 "Lemon Bars"; sample_row 1 "Notes:"; sample_row 2 "Ingredients:"].

Definition tips_inside_ingredients : list LineRow :=
  [sample_row 0 "Lemon Bars"; sample_row 1 "Ingredients:";
   sample_row 2 "Tips for success"; sample_row 3 "Lemon Tart"].

(** A model that labels every line a step, with confidence one half. *)
Definition step_everything : str -> option (Label * R * list (Label * R)) :=
  fun _ => Some (step, (1 / 2)%R, []).

(** A model that labels every line an ingredient, with confidence one. *)
Definition always_ingredient : str -> option (Label * R * list (Label * R)) :=
  fun _ => Some (ingredient, 1%R, []).

Definition inside_ingredients : tracker :=
  {| previous_doc_id := Some (py "doc"); previous_line_text := py "Ingredients:";
     current_section := Some ingredients |}.

Definition after_notes_header : tracker :=
  {| previous_doc_id := Some (py "doc"); previous_line_text := py "Notes:";
     current_section := Some notes |}.

Definition swapped_fixture : RegressionFixture :=
  {| fx_name := py "toast";
     fx_text := py "Toast" ++ [10%N] ++ py "Toast the bread";
     expected_ingredients := [];
     expected_steps := [py "Toast the bread"];
     expected_notes_contains := [] |}.

Definition labelled (t l : string) : Row := {| row_text := py t; row_label := py l |}.

Definition lemon_bars : list Row :=
  [labelled "Lemon Bars" "title"; labelled "Ingredients:" "header";
   labelled "2 cups sugar" "ingredient"; labelled "Instructions:" "header";
   labelled "1. Mix well. 2. Bake for 20 minutes." "step"].

Definition garlic : str := py "3 to 4 cloves garlic, minced".

Definition sample_bytes : bytes := [Byte.x01].

Definition sample_files : filesystem :=
  fun p => match p with
           | ARTIFACT_MODEL => Some sample_bytes
           | ARTIFACT_SPLIT => Some [Byte.x02]
           | _ => None
           end.

Definition sample_lab : lab :=
  {| files := sample_files; PREDICTOR_model := Some untrained; metrics_history := [] |}.

Definition failing_gate : stages :=
  {| validate_rc := 0; train_rc := 0; trained_model := [Byte.x03];
     trained_split := [Byte.x04]; metrics_ok := false; export_rc := 0;
     exported_model := [Byte.x05] |}.

Definition sample_load_pickle (b : bytes) : option NGramNaiveBayesClassifier :=
  match b with
  | [Byte.x01] => Some untrained
  | _ => None
  end.

(** Every document id falls in the hold-out bucket. *)
Definition low_bucket : str -> Q := fun _ => 0%Q.



(** ** Sample runs of the retrain pipeline *)

Definition passing_run : stages :=
  {| validate_rc := 0; train_rc := 0; trained_model := [Byte.x01];
     trained_split := [Byte.x04]; metrics_ok := true; export_rc := 0;
     exported_model := [Byte.x05] |}.




(** ** schema_model.py: compute_metrics *)

Record ClassMetrics := {
  precision : Q;
  recall : Q;
  f1 : Q;
  support : nat
}.

Record MetricsReport := {
  macro_f1 : Q;
  macro_f1_present_labels : Q;
  present_labels : list Label;
  per_class : Label -> ClassMetrics;
  confusion : Label -> Label -> nat;
  ingredient_step_confusion_rate : Q;
  prediction_count : nat
}.

(** [a / b] on two counts. *)
Definition count_ratio (a b : nat) : Q := inject_Z (Z.of_nat a) / inject_Z (Z.of_nat b).

Definition sum_nat (l : list nat) : nat := fold_right Nat.add 0 l.
Definition sum_Q (l : list Q) : Q := fold_right Qplus 0%Q l.

(** [confusion[pred.gold][pred.predicted] += 1]; a gold label that is not
    one of [LABELS] is a [KeyError]. *)
Definition count_prediction (confusion : Label -> Label -> nat) (pred : ClassificationPrediction)
    : option (Label -> Label -> nat) :=
  g ← label_of_str (gold pred);
  Some (fupd confusion g (fupd (confusion g) (predicted pred) (S (confusion g (predicted pred))))).

Fixpoint count_predictions (confusion : Label -> Label -> nat)
    (preds : list ClassificationPrediction) : option (Label -> Label -> nat) :=
  match preds with
  | [] => Some confusion
  | pred :: rest =>
      confusion' ← count_prediction confusion pred;
      count_predictions confusion' rest
  end.

Definition others (l : Label) : list Label :=
  List.filter (fun other => negb (label_eqb other l)) LABELS.

Definition class_metrics (confusion : Label -> Label -> nat) (l : Label) : ClassMetrics :=
  let tp := confusion l l in
  let fp := sum_nat (List.map (fun other => confusion other l) (others l)) in
  let fn := sum_nat (List.map (fun other => confusion l other) (others l)) in
  let precision := if Nat.eqb (tp + fp) 0 then 0%Q else count_ratio tp (tp + fp) in
  let recall := if Nat.eqb (tp + fn) 0 then 0%Q else count_ratio tp (tp + fn) in
  let f1 :=
    if Qeq_bool (precision + recall) 0 then 0%Q
    else (2 * precision * recall / (precision + recall))%Q in
  {| precision := precision; recall := recall; f1 := f1;
     support := sum_nat (List.map (confusion l) LABELS) |}.

Definition mean (values : list Q) : Q := (sum_Q values / inject_Z (Z.of_nat (length values)))%Q.

Definition compute_metrics (predictions : list ClassificationPrediction)
    : option MetricsReport :=
  confusion ← count_predictions (fun _ _ => 0) predictions;
  let per_class := class_metrics confusion in
  let f1_values := List.map (fun l => f1 (per_class l)) LABELS in
  let macro_f1 := mean f1_values in
  let present_labels := List.filter (fun l => Nat.ltb 0 (support (per_class l))) LABELS in
  let present_f1_values := List.map (fun l => f1 (per_class l)) present_labels in
  let macro_f1_present_labels :=
    match present_f1_values with
    | [] => macro_f1
    | _ => mean present_f1_values
    end in
  let ingredient_step_confusions := confusion ingredient step + confusion step ingredient in
  let total_predictions := length predictions in
  Some {| macro_f1 := macro_f1;
          macro_f1_present_labels := macro_f1_present_labels;
          present_labels := present_labels;
          per_class := per_class;
          confusion := confusion;
          ingredient_step_confusion_rate :=
            if Nat.eqb total_predictions 0 then 0%Q
            else count_ratio ingredient_step_confusions total_predictions;
          prediction_count := total_predictions |}.

(** The number of predictions counted in a confusion table. *)
Definition confusion_total (confusion : Label -> Label -> nat) : nat :=
  sum_nat (List.map (fun g => sum_nat (List.map (confusion g) LABELS)) LABELS).

Definition sample_prediction (g : string) (p : Label) : ClassificationPrediction :=
  {| cp_doc_id := py "doc"; cp_line_index := 0; gold := py g; predicted := p;
     confidence := 1%R |}.


(** ** schema_model.py: split_rows_for_holdout *)

Definition row_key (row : LineRow) : str * Z := (doc_id row, line_index row).

(** [rows_by_label[row.label].append(row)] on a dict kept in insertion order. *)
Fixpoint group_append (key : str) (row : LineRow) (groups : list (str * list LineRow))
    : list (str * list LineRow) :=
  match groups with
  | [] => [(key, [row])]
  | (k, label_rows) :: rest =>
      if str_eqb k key then (k, label_rows ++ [row]) :: rest
      else (k, label_rows) :: group_append key row rest
  end.

Definition rows_by_label (rows : list LineRow) : list (str * list LineRow) :=
  fold_left (fun groups row => group_append (label row) row groups) rows [].

Section HoldoutRows.
(** [hashlib.sha256(f"{doc_id}:{line_index}".encode("utf-8")).hexdigest()] *)
Context (row_digest : str -> Z -> str).
(** [int(round(n * holdout_ratio))] for a number of rows [n]. *)
Context (rounded : nat -> Z).

Definition digest_leb (a b : LineRow) : bool :=
  str_leb (row_digest (doc_id a) (line_index a)) (row_digest (doc_id b) (line_index b)).

(** [ordered[:holdout_count]] for the rows of one label. *)
Definition label_holdout (label_rows : list LineRow) : list LineRow :=
  let ordered := sorted digest_leb label_rows in
  let holdout_count := Z.max 1 (rounded (length ordered)) in
  let holdout_count := Z.min holdout_count (Z.of_nat (length ordered)) in
  firstn (Z.to_nat holdout_count) ordered.

Definition holdout_keys_of (groups : list (str * list LineRow)) : gset (str * Z) :=
  fold_left (fun keys '(_, label_rows) =>
               keys ∪ list_to_set (List.map row_key (label_holdout label_rows)))
            groups ∅.

Definition split_rows_for_holdout (rows : list LineRow) : list LineRow * list LineRow :=
  let holdout_keys := holdout_keys_of (rows_by_label rows) in
  let in_holdout (row : LineRow) := bool_decide (row_key row ∈ holdout_keys) in
  let ordered := sorted row_leb rows in
  let train_rows := List.filter (fun row => negb (in_holdout row)) ordered in
  let holdout_rows := List.filter in_holdout ordered in
  match train_rows, rev holdout_rows with
  | [], popped :: earlier => ([popped], rev earlier)
  | _, _ => (train_rows, holdout_rows)
  end.
End HoldoutRows.

(** A digest and a rounding for the examples: rows in the order of their
    texts, a quarter of each label held out. *)
Definition sample_digest (doc : str) (index : Z) : str :=
  doc ++ py ":" ++ [N.of_nat (Z.to_nat index)].

Definition quarter (n : nat) : Z := round_half_even (inject_Z (Z.of_nat n) * (1 # 4)).

Definition two_rows : list LineRow :=
  [ {| doc_id := py "a"; line_index := 0; text := py "Soup"; label := py "title" |};
    {| doc_id := py "a"; line_index := 1; text := py "1 cup stock"; label := py "ingredient" |} ].


(** ** Rows for the classifier examples *)

(** The number of rows that carry the label [l]. *)
Definition rows_labelled (l : Label) (rows : list LineRow) : nat :=
  length (List.filter (fun row => match label_of_str (label row) with
                                  | Some l' => label_eqb l' l
                                  | None => false
                                  end) rows).

(** What [run_predictions] copies from a row into its prediction. *)
Definition row_identity (row : LineRow) : str * Z * str := (doc_id row, line_index row, label row).
Definition prediction_identity (p : ClassificationPrediction) : str * Z * str :=
  (cp_doc_id p, cp_line_index p, gold p).


(** ** evaluate_line_classifier.py *)

(** [split.json]: the hold-out examples and the hold-out documents. *)
Record SplitPayload := {
  holdout_examples : list (str * Z);
  holdout_docs : list str
}.

(** The three thresholds of the evaluation, as [main] computes them from the
    metrics. *)
Definition macro_ok (metrics : MetricsReport) : bool :=
  Qle_bool 0.88 (macro_f1_present_labels metrics).

Definition note_recall_ok (metrics : MetricsReport) : bool :=
  if Nat.ltb 0 (support (per_class metrics note))
  then Qle_bool 0.85 (recall (per_class metrics note))
  else true.

Definition confusion_ok (metrics : MetricsReport) : bool :=
  Qle_bool (ingredient_step_confusion_rate metrics) 0.08.

Section Evaluate.
Context (L : PyLib).
Context (model : str -> option (Label * R * list (Label * R))).

(** [main] of the evaluation script, from the loaded rows on: how the script
    ends and the metrics it reported, if it got there. *)
Definition evaluate_main (rows : list LineRow) (split : option SplitPayload)
    (skip_threshold_check : bool) : outcome * option MetricsReport :=
  let '(rows, evaluation_keys) :=
    match split with
    | Some split_payload =>
        match holdout_examples split_payload with
        | [] =>
            (List.filter (fun row => mem_str (doc_id row) (holdout_docs split_payload)) rows,
             None)
        | examples => (rows, Some (list_to_set examples : gset (str * Z)))
        end
    | None => (rows, None)
    end in
  match rows with
  | [] => (SystemExit (py "No evaluation rows found"), None)
  | _ :: _ =>
      match run_predictions L model rows with
      | None => (Uncaught, None)
      | Some predictions =>
          let predictions :=
            match evaluation_keys with
            | Some keys =>
                List.filter (fun prediction =>
                               bool_decide ((cp_doc_id prediction, cp_line_index prediction) ∈ keys))
                            predictions
            | None => predictions
            end in
          match compute_metrics predictions with
          | None => (Uncaught, None)
          | Some metrics =>
              (Exit (if skip_threshold_check then 0
                     else if macro_ok metrics && note_recall_ok metrics && confusion_ok metrics
                          then 0 else 1),
               Some metrics)
          end
      end
  end.
End Evaluate.

(** ** lab_handler.py: the thresholds of the metrics pipeline *)

Record Thresholds := {
  th_macro_f1 : bool;
  th_note_recall : bool;
  th_ingredient_step_confusion : bool;
  th_regression_note_leakage : bool;
  th_regression_swap : bool;
  th_note_recall_applicable : option bool;
  th_overall : bool
}.

(** [_metrics_thresholds] on the reports the evaluation and the regression
    scripts wrote; [None] is a report that is missing or unreadable. *)
Definition _metrics_thresholds (eval_metrics : option MetricsReport)
    (regression_metrics : option RegressionReport) : Thresholds :=
  let '(macro, note_ok, confusion_, applicable) :=
    match eval_metrics with
    | Some metrics =>
        let macro_f1 := macro_f1_present_labels metrics in
        let note_recall := recall (per_class metrics note) in
        let note_support := support (per_class metrics note) in
        let confusion_ := ingredient_step_confusion_rate metrics in
        (Qle_bool 0.88 macro_f1,
         if Nat.ltb 0 note_support then Qle_bool 0.85 note_recall else true,
         Qle_bool confusion_ 0.08,
         Some (Nat.ltb 0 note_support))
    | None => (false, false, false, None)
    end in
  let '(leakage, swap) :=
    match regression_metrics with
    | Some report =>
        (Qle_bool (note_leakage_rate report) 0.05,
         Qle_bool (ingredient_step_swap_rate report) 0.08)
    | None => (false, false)
    end in
  {| th_macro_f1 := macro; th_note_recall := note_ok;
     th_ingredient_step_confusion := confusion_;
     th_regression_note_leakage := leakage; th_regression_swap := swap;
     th_note_recall_applicable := applicable;
     th_overall := macro && note_ok && confusion_ && leakage && swap |}.

(** [ok] of [_run_metrics_pipeline]: the three return codes and the
    thresholds of the summary. *)
Definition metrics_pipeline_ok (eval_rc fixed_holdout_rc reg_rc : Z)
    (eval_metrics : option MetricsReport) (regression_metrics : option RegressionReport)
    : bool :=
  Z.eqb eval_rc 0 && Z.eqb reg_rc 0 && Z.eqb fixed_holdout_rc 0
  && th_overall (_metrics_thresholds eval_metrics regression_metrics).

(** ** lab_handler.py: saved cases *)

Definition HOLDOUT_DOC_PREFIX : str := py "holdout_".
Definition SAVE_KINDS : list str :=
  List.map py ["train"; "holdout"; "ocr_failure"; "parse_failure"]%string.
Definition FAILURE_SOURCE_TYPES : list str := List.map py ["ocr_failure"; "parse_failure"]%string.
Definition HOLDOUT_SAVE_KINDS : list str :=
  List.map py ["holdout"; "ocr_failure"; "parse_failure"]%string.

Section SavedCases.
Context (L : PyLib).

(** [raw_value] is the string of the payload; the empty string stands for a
    missing or empty value. *)
Definition _normalized_save_kind (raw_value : str) : str :=
  let value := py_lower L (strip L (match raw_value with [] => py "train" | _ => raw_value end)) in
  if mem_str value SAVE_KINDS then value else py "train".

Definition _effective_case_id (case_id source_type save_kind : str) : str :=
  let normalized_id := strip L case_id in
  let normalized_source := py_lower L (strip L source_type) in
  let normalized_kind := _normalized_save_kind save_kind in
  let requires_holdout :=
    mem_str normalized_source FAILURE_SOURCE_TYPES
    || mem_str normalized_kind HOLDOUT_SAVE_KINDS in
  if requires_holdout && negb (startswith normalized_id HOLDOUT_DOC_PREFIX)
  then HOLDOUT_DOC_PREFIX ++ normalized_id
  else normalized_id.

(** [schema_model._matches_prefix] *)
Definition _matches_prefix (doc_id_ : str) (prefixes : list str) : bool :=
  existsb (fun raw =>
             let prefix := strip L raw in
             negb (str_eqb prefix []) && startswith doc_id_ prefix)
          prefixes.

(** [LabHandler._normalize_case]; [None] is a value that is not a list. *)
Definition _normalize_case (lines labels : option (list str)) : list str * list str :=
  let normalized_lines := match lines with Some items => items | None => [] end in
  let normalized_labels :=
    match labels with
    | Some items =>
        List.map (fun label_ =>
                    let value := py_lower L (strip L label_) in
                    if mem_str value (List.map label_name LABELS) then value else py "junk")
                 items
    | None => []
    end in
  let normalized_labels :=
    if Nat.ltb (length normalized_labels) (length normalized_lines)
    then normalized_labels
         ++ repeat (py "junk") (length normalized_lines - length normalized_labels)
    else if Nat.ltb (length normalized_lines) (length normalized_labels)
    then firstn (length normalized_lines) normalized_labels
    else normalized_labels in
  (normalized_lines, normalized_labels).
End SavedCases.


(** ** lab_recipe.py: helpers of the page reader *)

(** [_escape_control_chars_in_json_strings]: the loop over the characters,
    with its two flags. *)
Fixpoint escape_control_chars (raw : str) (in_string escaped : bool) : str :=
  match raw with
  | [] => []
  | ch :: rest =>
      if in_string then
        if escaped then ch :: escape_control_chars rest true false
        else if char_eqb ch (chr "\") then ch :: escape_control_chars rest true true
        else if char_eqb ch 34%N then ch :: escape_control_chars rest false false
        else if char_eqb ch 10%N then py "\n" ++ escape_control_chars rest true false
        else if char_eqb ch 13%N then py "\r" ++ escape_control_chars rest true false
        else if char_eqb ch 9%N then py "\t" ++ escape_control_chars rest true false
        else ch :: escape_control_chars rest true false
      else
        ch :: escape_control_chars rest (char_eqb ch 34%N) (if char_eqb ch 34%N then false
                                                              else escaped)
  end.

Definition _escape_control_chars_in_json_strings (raw : str) : str :=
  escape_control_chars raw false false.

Section PageReader.
Context (L : PyLib).

(** [_unique_preserve]: the loop, with the keys seen so far. *)
Fixpoint unique_preserve_from (seen : gset str) (items : list str) : list str :=
  match items with
  | [] => []
  | item :: rest =>
      let key := py_casefold L item in
      if decide (key ∈ seen) then unique_preserve_from seen rest
      else item :: unique_preserve_from (seen ∪ {[key]}) rest
  end.

Definition _unique_preserve (items : list str) : list str := unique_preserve_from ∅ items.

(** [_normalize_lines], for a [max_lines] that is not negative (the default
    is 400). *)
Definition _normalize_lines (text_ : str) (max_lines : nat) : list str * bool :=
  let lines := List.map (strip L) (splitlines text_) in
  let lines := List.filter (fun line => negb (str_eqb line [])) lines in
  if Nat.ltb max_lines (length lines) then (firstn max_lines lines, true)
  else (lines, false).
End PageReader.


(** ** lab_recipe.py: rows and units for the statements below *)

(** A row that the assembler reads: its label is one of the six labels and
    its cleaned text is not empty. *)
Definition usable_row (L : PyLib) (row : Row) : bool :=
  matched (row_label_of L row) && negb (str_eqb (_clean_text L (row_text row)) []).

(** The units that [_parse_unit_token] can return. *)
Definition canonical_units : list str := py "tbsp" :: List.map snd UNIT_ALIASES.

Definition items_total (sections : list SectionItems) : nat :=
  fold_right Nat.add 0 (List.map (fun sec => length (so_items sec)) sections).


(** ** schema_model.py: validate_dataset *)

Definition REQUIRED_RECIPE_FIELDS : list str :=
  List.map py ["title"; "ingredients"; "steps"; "notes"]%string.

(** A document fixture; of [target_recipe] only the keys matter here. *)
Record DatasetDocument := {
  source_type : str;
  normalized_lines : list str;
  target_recipe : list str
}.

(** The messages of [validate_dataset], by kind and with the values they
    print. *)
Inductive validation_error :=
| InvalidLabel (label_ doc : str) (index : Z)
| NoDocuments
| MissingField (doc field : str)
| NoLineFile (doc : str)
| LineCountMismatch (doc : str) (lines_ rows_ : nat)
| IndicesNotContiguous (doc : str) (last_index : Z)
| TextMismatch (doc : str) (index : Z)
| UnknownDocument (doc : str).

Record ValidationResult := {
  is_valid : bool;
  errors : list validation_error;
  label_counts : Counter;
  source_counts : Counter
}.

(** [l[i]] for an index below [len(l)]: a negative index counts from the
    end, and one below [-len(l)] is an [IndexError]. *)
Definition py_index {A : Type} (l : list A) (i : Z) : option A :=
  if Z.leb 0 i then nth_error l (Z.to_nat i)
  else if Z.leb (- Z.of_nat (length l)) i then nth_error l (Z.to_nat (Z.of_nat (length l) + i))
  else None.

(** [rows_by_doc[doc_id]]: the rows of a document, in the order of [rows]. *)
Definition rows_of_doc (doc : str) (rows : list LineRow) : list LineRow :=
  List.filter (fun row => str_eqb (doc_id row) doc) rows.

(** [set(range(n))] *)
Definition index_range (n : nat) : list Z := List.map Z.of_nat (List.seq 0 n).

(** The comparison of each row's text with the line of the document. *)
Fixpoint text_errors (doc : str) (lines : list str) (doc_rows : list LineRow)
    : option (list validation_error) :=
  match doc_rows with
  | [] => Some []
  | row :: rest =>
      here ←
        (if Z.ltb (line_index row) (Z.of_nat (length lines)) then
           expected_text ← py_index lines (line_index row);
           Some (if str_eqb expected_text (text row) then []
                 else [TextMismatch doc (line_index row)])
         else Some []);
      later ← text_errors doc lines rest;
      Some (here ++ later)
  end.

(** The body of the loop over the documents, for one document. *)
Definition document_errors (doc : str) (document : DatasetDocument) (rows : list LineRow)
    : option (list validation_error) :=
  let field_errors :=
    flat_map (fun field => if mem_str field (target_recipe document) then []
                           else [MissingField doc field])
             REQUIRED_RECIPE_FIELDS in
  let doc_rows := rows_of_doc doc rows in
  match doc_rows with
  | [] => Some (field_errors ++ [NoLineFile doc])
  | _ :: _ =>
      let count_errors :=
        if Nat.eqb (length (normalized_lines document)) (length doc_rows) then []
        else [LineCountMismatch doc (length (normalized_lines document)) (length doc_rows)] in
      let seen_indices : gset Z := list_to_set (List.map line_index doc_rows) in
      let expected_indices : gset Z := list_to_set (index_range (length doc_rows)) in
      let index_errors :=
        if decide (seen_indices = expected_indices) then []
        else [IndicesNotContiguous doc (Z.of_nat (length doc_rows) - 1)] in
      mismatches ← text_errors doc (normalized_lines document) doc_rows;
      Some (field_errors ++ count_errors ++ index_errors ++ mismatches)
  end.

Fixpoint documents_errors (documents : list (str * DatasetDocument)) (rows : list LineRow)
    : option (list validation_error) :=
  match documents with
  | [] => Some []
  | (doc, document) :: rest =>
      here ← document_errors doc document rows;
      later ← documents_errors rest rows;
      Some (here ++ later)
  end.

Definition key_leb {V : Type} (a b : str * V) : bool := str_leb (fst a) (fst b).

(** [validate_dataset] on the loaded documents and rows; [None] is the
    [IndexError] of a line index below [-len(normalized_lines)]. *)
Definition validate_dataset (documents : gmap str DatasetDocument) (rows : list LineRow)
    : option ValidationResult :=
  let label_errors :=
    flat_map (fun row => match label_of_str (label row) with
                         | Some _ => []
                         | None => [InvalidLabel (label row) (doc_id row) (line_index row)]
                         end) rows in
  let label_counts := fold_left (fun counts row => counter_incr (label row) counts) rows ∅ in
  let document_missing :=
    if decide (documents = ∅) then [NoDocuments] else [] in
  let ordered := sorted key_leb (map_to_list documents) in
  let source_counts :=
    fold_left (fun counts '(_, document) => counter_incr (source_type document) counts)
              ordered ∅ in
  per_document ← documents_errors ordered rows;
  let row_docs := sorted_elements (list_to_set (List.map doc_id rows)) in
  let unknown :=
    flat_map (fun doc => match documents !! doc with
                         | Some _ => []
                         | None => [UnknownDocument doc]
                         end) row_docs in
  let label_counts :=
    fold_left (fun counts l => match counts !! label_name l with
                               | Some _ => counts
                               | None => <[label_name l := 0]> counts
                               end) LABELS label_counts in
  let errors := label_errors ++ document_missing ++ per_document ++ unknown in
  Some {| is_valid := match errors with [] => true | _ => false end;
          errors := errors;
          label_counts := label_counts;
          source_counts := source_counts |}.

Definition soup_document : DatasetDocument :=
  {| source_type := py "manual"; normalized_lines := [py "Soup"; py "1 cup stock"];
     target_recipe := List.map py ["title"; "ingredients"; "steps"; "notes"]%string |}.

(** What a valid dataset says about one document: the required fields are
    there, the document has as many labelled rows as lines, their indices
    are the range from 0 in some order, and each row carries the text of its
    line. *)
Definition document_well_formed (doc : str) (document : DatasetDocument)
    (rows : list LineRow) : Prop :=
  Forall (fun field => In field (target_recipe document)) REQUIRED_RECIPE_FIELDS /\
  0 < length (rows_of_doc doc rows) /\
  length (rows_of_doc doc rows) = length (normalized_lines document) /\
  List.map line_index (rows_of_doc doc rows)
    ≡ₚ index_range (length (normalized_lines document)) /\
  Forall (fun row => nth_error (normalized_lines document) (Z.to_nat (line_index row))
                     = Some (text row))
         (rows_of_doc doc rows).

(** * Properties *)

#[local] Set Warnings "-clear-no-such-hyp".

(** ** Strings and lists *)

Lemma str_eqb_refl (a : str) : str_eqb a a = true.
Proof.
  induction a as [|c a IH]; simpl; [done|].
  unfold char_eqb. by rewrite N.eqb_refl.
Qed.

Lemma str_eqb_eq (a b : str) : str_eqb a b = true <-> a = b.
Proof.
  split; [|intros ->; apply str_eqb_refl].
  revert b. induction a as [|x a IH]; intros [|y b]; simpl; try done.
  intros [Hc Hr]%andb_true_iff. apply N.eqb_eq in Hc. apply IH in Hr. congruence.
Qed.


Lemma label_eqb_eq (a b : Label) : label_eqb a b = true <-> a = b.
Proof. destruct a, b; simpl; split; congruence. Qed.

Lemma insert_sorted_elem {A : Type} (leb : A -> A -> bool) (x y : A) (l : list A) :
  y ∈ insert_sorted leb x l <-> y = x \/ y ∈ l.
Proof.
  induction l as [|z l IH]; simpl; [set_solver|].
  destruct (leb x z); set_solver.
Qed.

Lemma sorted_elem {A : Type} (leb : A -> A -> bool) (y : A) (l : list A) :
  y ∈ sorted leb l <-> y ∈ l.
Proof.
  induction l as [|x l IH]; simpl; [done|].
  unfold sorted in *. simpl. rewrite insert_sorted_elem. set_solver.
Qed.

Lemma sorted_elements_elem (X : gset str) (y : str) :
  y ∈ sorted_elements X <-> y ∈ X.
Proof. unfold sorted_elements. rewrite sorted_elem. apply elem_of_elements. Qed.

Lemma last_of_last_n {A : Type} (n : nat) (l : list A) (e : A) :
  last (last_n (S n) (l ++ [e])) = Some e.
Proof.
  unfold last_n. rewrite length_app. simpl.
  replace (length l + 1 - S n) with (length l - n) by lia.
  rewrite skipn_app.
  replace (length l - n - length l) with 0 by lia. simpl.
  apply last_snoc.
Qed.

Lemma Qle_bool_false (a b : Q) : Qle_bool a b = false <-> (b < a)%Q.
Proof.
  split.
  - intros H. apply Qnot_le_lt. intros Hle. apply Qle_bool_iff in Hle. congruence.
  - intros H. destruct (Qle_bool a b) eqn:E; [|done].
    apply Qle_bool_iff in E. apply Qlt_not_le in H. contradiction.
Qed.

(** ** The embedding on the examples of the specification *)

Example flour_parsed :
  _parse_ingredient_text latin1 (py "1 1/2 cups flour") =
    (py "flour", Some {| q_value := Fin (3 # 2); q_upperValue := None; q_unit := py "cup" |},
     [], None).
Proof. vm_compute. reflexivity. Qed.

Example salt_parsed :
  _parse_ingredient_text latin1 (189%N :: py " tsp salt") =
    (py "salt", Some {| q_value := Fin (1 # 2); q_upperValue := None; q_unit := py "tsp" |},
     [], None).
Proof. vm_compute. reflexivity. Qed.

Example numbered_steps_split :
  _split_numbered_steps latin1 (py "1. Mix well. 2. Bake for 20 minutes.") =
    [py "1. Mix well."; py "2. Bake for 20 minutes."].
Proof. vm_compute. reflexivity. Qed.

Example bake_timer :
  _extract_timers latin1 (py "Bake for 20 minutes.") =
    [{| seconds := 1200; timer_label := py "Bake" |}].
Proof. vm_compute. reflexivity. Qed.

Example sugar_parsed :
  _parse_ingredient_text latin1 (py "2 cups sugar") =
    (py "sugar", Some {| q_value := Fin 2; q_upperValue := None; q_unit := py "cup" |},
     [], None).
Proof. vm_compute. reflexivity. Qed.

(** The parsed name "sugar" is a single word of at most six letters outside
    the keep list of [_is_ocr_artifact_line], and is dropped for that although
    it has a quantity; "salt", which is on the list, is kept. *)
Example sugar_dropped :
  _is_ocr_artifact_line latin1 (py "sugar") = true /\
  _should_drop_ingredient_entry latin1 (py "sugar")
    (Some {| q_value := Fin 2; q_upperValue := None; q_unit := py "cup" |}) = true /\
  _should_drop_ingredient_entry latin1 (py "salt")
    (Some {| q_value := Fin 2; q_upperValue := None; q_unit := py "cup" |}) = false.
Proof. vm_compute. repeat split. Qed.

(** ** C1: the Lemon Bars document *)

(** C1.  Assembling the lines "Lemon Bars", "Ingredients:", "2 cups sugar",
    "Instructions:", "1. Mix well. 2. Bake for 20 minutes." with the labels
    title, header, ingredient, header, step gives the title "Lemon Bars" and
    exactly two steps, the second with the single timer of 1200 seconds
    labelled "Bake"; but the list of ingredients is empty, where the
    specification has the one ingredient "sugar" with quantity 2 cup: the
    entry is parsed and then dropped. *)
Theorem lemon_bars_assembled :
  let r := _assemble_app_recipe latin1 lemon_bars [] [] in
  r_title r = py "Lemon Bars" /\
  r_ingredients r = [] /\
  ingredient_count (r_stats r) = 0 /\
  r_steps r =
    [ {| step_index := 0; step_text := py "Mix well."; step_timers := [];
         step_section := None |};
      {| step_index := 1; step_text := py "Bake for 20 minutes.";
         step_timers := [{| seconds := 1200; timer_label := py "Bake" |}];
         step_section := None |} ].
Proof. vm_compute. repeat split. Qed.

(** ** C2: a failed gate rolls the model back *)

Section RetrainFacts.
Context (load_pickle : bytes -> option NGramNaiveBayesClassifier).

(** C2.  In a retrain run that starts with a model artifact on disk, in which
    validation and training succeed and the metrics gate fails: the export
    stage is not run (the bundled model is untouched and the recorded export
    code is the 0 of the skipped stage), the model artifact is again the
    pre-run bytes, which are also the bytes of its backup, the split file is
    the pre-run one when there was one, the predictor is reloaded from the
    restored artifact, so that later predict calls use the pre-run model, and
    the run is recorded as rolled back and not successful. *)
Theorem gate_failure_rolls_back (w : stages) (backup_stamp : str) (st : lab) (b0 : bytes) :
  files st ARTIFACT_MODEL = Some b0 ->
  validate_rc w = 0%Z -> train_rc w = 0%Z -> metrics_ok w = false ->
  let st' := _retrain_model load_pickle w backup_stamp st in
  files st' BUNDLED_MODEL_OUT = files st BUNDLED_MODEL_OUT /\
  files st' ARTIFACT_MODEL = Some b0 /\
  files st' (backup_model_file backup_stamp) = Some b0 /\
  files st' ARTIFACT_SPLIT =
    match files st ARTIFACT_SPLIT with
    | Some split0 => Some split0
    | None => Some (trained_split w)
    end /\
  PREDICTOR_model st' =
    match load_pickle b0 with
    | Some m0 => Some m0
    | None => PREDICTOR_model st
    end /\
  (forall (L : PyLib) (m0 : NGramNaiveBayesClassifier) (lines : list str),
     load_pickle b0 = Some m0 ->
     Predictor_predict L (PREDICTOR_model st') lines = Predictor_predict L (Some m0) lines) /\
  last (metrics_history st') =
    Some {| re_success := false; re_validate_rc := 0; re_train_rc := Some 0%Z;
            re_export_rc := Some 0%Z; re_reloaded := matched (load_pickle b0);
            re_rolled_back := true |}.
Proof.
  intros Hm Hv Ht Hg st'. subst st'. unfold _retrain_model.
  unfold restore_backups, try_reload, Predictor_reload, exists_, copy2, write_bytes.
  rewrite Hm, Hv, Ht, Hg. cbn.
  destruct (files st ARTIFACT_SPLIT) as [split0|] eqn:Hs;
    destruct (load_pickle b0) as [m0|] eqn:Hl;
    do 4 (cbn; rewrite ?Hs, ?Hm, ?Hl, ?str_eqb_refl);
    (repeat split; try done; try (intros; congruence); apply last_of_last_n).
Qed.
End RetrainFacts.

Lemma gate_failure_rolls_back_witness :
  let st' := _retrain_model sample_load_pickle failing_gate (py "20260101T000000Z") sample_lab in
  files st' ARTIFACT_MODEL = Some sample_bytes /\
  files st' BUNDLED_MODEL_OUT = None /\
  PREDICTOR_model st' = Some untrained.
Proof.
  pose proof (gate_failure_rolls_back sample_load_pickle failing_gate (py "20260101T000000Z")
                sample_lab sample_bytes eq_refl eq_refl eq_refl eq_refl) as H.
  cbv zeta in H. destruct H as (Hb & Hm & _ & _ & Hp & _).
  exact (conj Hm (conj Hb Hp)).
Defined.

(** ** C3: the exit status of the regression harness *)

Section RegressionFacts.
Context (L : PyLib) (model : str -> option (Label * R * list (Label * R))).

End RegressionFacts.

Lemma swapped_fixture_lines :
  score_lines latin1 always_ingredient [py "Toast the bread"] false ([], [], [])
  = Some ([py "Toast the bread"], [], []).
Proof.
  cbn [score_lines]. unfold always_ingredient. cbn [mbind option_bind].
  destruct (Rlt_dec 1 0.72) as [H|_]; [exfalso; lra|].
  vm_compute. reflexivity.
Qed.

(** A fixture whose only step is predicted an ingredient: the swap rate is 1. *)
Lemma swapped_fixture_main :
  main latin1 always_ingredient [swapped_fixture]
  = (Exit 1, Some {| exact_match_rate := 0; note_leakage_rate := 0;
                     ingredient_step_swap_rate := 1; fixture_count := 1 |}).
Proof.
  unfold main, score_fixtures, _score_case.
  match goal with
  | |- context [score_lines latin1 always_ingredient ?ls false ?acc] =>
      change ls with [py "Toast the bread"]
  end.
  rewrite swapped_fixture_lines. vm_compute. reflexivity.
Qed.


(** ** C9: the hold-out split *)

Lemma another_element (X : gset str) (m : str) :
  2 <= size X -> exists x, x ∈ X /\ x <> m.
Proof.
  intros Hs.
  destruct (decide (X ∖ {[m]} = ∅)) as [E|NE].
  - assert (X ⊆ {[m]}) as Hsub.
    { intros x Hx. destruct (decide (x = m)) as [->|Hn]; [set_solver|].
      assert (x ∈ X ∖ {[m]}) as Hin by set_solver. rewrite E in Hin. set_solver. }
    apply subseteq_size in Hsub. rewrite size_singleton in Hsub. lia.
  - apply set_choose_L in NE as [x Hx]. exists x. set_solver.
Qed.

Section HoldoutFacts.
Context (bucket : str -> Q) (ratio : Q).

(** The first loop puts every id on the side its bucket decides. *)
Lemma classify_fold (l : list str) (T H : gset str) :
  (forall x, x ∈ T -> Qltb (bucket x) ratio = false) ->
  (forall x, x ∈ H -> Qltb (bucket x) ratio = true) ->
  let '(T', H') := fold_left (fun '(train_docs, holdout_docs) doc_id =>
                     if Qltb (bucket doc_id) ratio
                     then (train_docs, holdout_docs ∪ {[doc_id]})
                     else (train_docs ∪ {[doc_id]}, holdout_docs)) l (T, H) in
  (forall x, x ∈ T' -> Qltb (bucket x) ratio = false) /\
  (forall x, x ∈ H' -> Qltb (bucket x) ratio = true) /\
  T' ∪ H' = T ∪ H ∪ list_to_set l.
Proof.
  set (classify := (fun '(train_docs, holdout_docs) doc_id =>
                     if Qltb (bucket doc_id) ratio
                     then (train_docs, holdout_docs ∪ {[doc_id]})
                     else (train_docs ∪ {[doc_id]}, holdout_docs))).
  revert T H. induction l as [|d l IH]; intros T H HT HH; simpl.
  - repeat split; auto. set_solver.
  - destruct (Qltb (bucket d) ratio) eqn:E.
    + specialize (IH T (H ∪ {[d]})).
      destruct (fold_left classify l (T, H ∪ {[d]})) as [T' H'].
      destruct IH as (A & B & C); [done| |].
      { intros x Hx. apply elem_of_union in Hx as [Hx|Hx]; [auto|].
        apply elem_of_singleton in Hx. by subst. }
      repeat split; auto. rewrite C. set_solver.
    + specialize (IH (T ∪ {[d]}) H).
      destruct (fold_left classify l (T ∪ {[d]}, H)) as [T' H'].
      destruct IH as (A & B & C); [|done|].
      { intros x Hx. apply elem_of_union in Hx as [Hx|Hx]; [auto|].
        apply elem_of_singleton in Hx. by subst. }
      repeat split; auto. rewrite C. set_solver.
Qed.

(** C9.  For a collection with at least two distinct document ids and any
    hold-out ratio, [split_docs_for_holdout] returns two disjoint sets whose
    union is the set of the given ids, and neither set is empty. *)
Theorem split_docs_for_holdout_partition (doc_ids : list str) :
  2 <= size (list_to_set doc_ids : gset str) ->
  let '(train_docs, holdout_docs) := split_docs_for_holdout bucket doc_ids ratio in
  train_docs ## holdout_docs /\
  train_docs ∪ holdout_docs = list_to_set doc_ids /\
  train_docs <> ∅ /\ holdout_docs <> ∅.
Proof.
  intros Hsize. unfold split_docs_for_holdout.
  set (S0 := list_to_set doc_ids : gset str) in *.
  pose proof (classify_fold (sorted_elements S0) ∅ ∅) as Hc.
  destruct (fold_left _ (sorted_elements S0) (∅, ∅)) as [T H].
  destruct Hc as (HT & HH & HU); [set_solver|set_solver|].
  assert (HU' : T ∪ H = S0).
  { rewrite HU. apply set_eq. intros x.
    rewrite !elem_of_union, elem_of_list_to_set, sorted_elements_elem. set_solver. }
  assert (Hdisj : T ## H).
  { intros x Hx1 Hx2. apply HT in Hx1. apply HH in Hx2. congruence. }
  clear HU HT HH.
  destruct (sorted_elements T) as [|mt lt] eqn:ET.
  - assert (T = ∅) as ->.
    { apply set_eq. intros x. rewrite <- sorted_elements_elem, ET. set_solver. }
    destruct (sorted_elements H) as [|mh lh] eqn:EH.
    + assert (H = ∅) as ->.
      { apply set_eq. intros x. rewrite <- sorted_elements_elem, EH. set_solver. }
      rewrite <- HU' in Hsize. rewrite union_empty_l_L, size_empty in Hsize. lia.
    + destruct (decide (∅ = ∅)) as [_|]; [|done].
      assert (mh ∈ H) by (rewrite <- sorted_elements_elem, EH; set_solver).
      assert (H = S0) as -> by set_solver.
      destruct (another_element S0 mh Hsize) as (x & Hx & Hne).
      repeat split; [set_solver| |set_solver|set_solver].
      apply set_eq. intros y. destruct (decide (y = mh)); set_solver.
  - assert (mt ∈ T) by (rewrite <- sorted_elements_elem, ET; set_solver).
    destruct (decide (H = ∅)) as [->|HN].
    + assert (T = S0) as -> by set_solver.
      destruct (another_element S0 mt Hsize) as (x & Hx & Hne).
      match goal with
      | |- context [sorted_elements ?X] =>
          assert (Hin : mt ∈ sorted_elements X) by (apply sorted_elements_elem; set_solver);
          destruct (sorted_elements X) as [|mh lh] eqn:EH
      end.
      * set_solver.
      * destruct (decide (S0 ∖ {[mt]} = ∅)) as [E|_]; [set_solver|].
        repeat split; [set_solver| |set_solver|set_solver].
        apply set_eq. intros y. destruct (decide (y = mt)); set_solver.
    + destruct (sorted_elements H) as [|mh lh] eqn:EH.
      * repeat split; [done|done|set_solver|done].
      * destruct (decide (T = ∅)) as [E|_]; [set_solver|].
        repeat split; [done|done|set_solver|done].
Qed.
End HoldoutFacts.

Lemma split_docs_for_holdout_partition_witness :
  let '(train_docs, holdout_docs) :=
    split_docs_for_holdout low_bucket [py "doc_a"; py "doc_b"; py "doc_a"] (1 # 4) in
  train_docs ## holdout_docs /\
  train_docs ∪ holdout_docs = list_to_set [py "doc_a"; py "doc_b"; py "doc_a"] /\
  train_docs <> ∅ /\ holdout_docs <> ∅.
Proof.
  apply (split_docs_for_holdout_partition low_bucket (1 # 4)
           [py "doc_a"; py "doc_b"; py "doc_a"]).
  vm_compute. lia.
Defined.

(** ** C10: the returned table is a probability distribution *)


Lemma sum_R_acc (l : list R) (a : R) :
  fold_left Rplus l a = (a + fold_left Rplus l 0)%R.
Proof.
  revert a. induction l as [|x l IH]; intros a; simpl; [lra|].
  rewrite (IH (a + x)%R), (IH (0 + x)%R). lra.
Qed.

Lemma sum_R_cons (x : R) (l : list R) : sum_R (x :: l) = (x + sum_R l)%R.
Proof. unfold sum_R. simpl. rewrite sum_R_acc. lra. Qed.






Section ClassifierFacts.
Context (L : PyLib).

(** With a positive smoothing constant the argument of every logarithm is
    positive, so no [ValueError] and no [ZeroDivisionError] is raised. *)
Lemma log_prior_defined (m : NGramNaiveBayesClassifier) (l : Label) :
  (0 < alpha m)%R -> is_Some (_log_prior m l).
Proof.
  intros Ha. unfold _log_prior.
  destruct (Nat.eqb _ 0) eqn:E; [by eexists|].
  apply Nat.eqb_neq in E.
  set (total := fold_right Nat.add 0 (List.map (_doc_count_by_label m) LABELS)) in *.
  clearbody total.
  assert (0 < INR total)%R by (apply lt_0_INR; lia).
  pose proof (pos_INR (length (labels m))).
  pose proof (pos_INR (_doc_count_by_label m l)).
  assert (0 < INR total + alpha m * INR (length (labels m)))%R by nra.
  unfold py_div. destruct (Req_dec_T _ 0) as [E0|_]; [first [lra | rewrite E0 in *; lra]|]. cbn.
  unfold math_log. destruct (Rlt_dec 0 _) as [_|N]; [by eexists|].
  exfalso. apply N. apply Rdiv_lt_0_compat; lra.
Qed.

Lemma log_likelihood_defined (m : NGramNaiveBayesClassifier) (l : Label) (features : Counter) :
  (0 < alpha m)%R -> is_Some (_log_likelihood m l features).
Proof.
  intros Ha. unfold _log_likelihood, Counter in *. unfold str, char in *.
  rewrite map_fold_foldr.
  induction (map_to_list features) as [|[feature count] rest IH]; [by eexists|].
  cbn [foldr uncurry]. destruct IH as [sc ->]. cbn.
  match goal with
  | |- context [py_div (INR ?a + _)%R (INR ?t + _ * INR ?v)%R] =>
      pose proof (pos_INR a) as Ha0; pose proof (pos_INR t) as Ht0;
      assert (0 < INR v)%R as Hv0 by (apply lt_0_INR; lia);
      generalize dependent (INR a); generalize dependent (INR t);
      generalize dependent (INR v)
  end.
  intros v Hv0 t Ht0 a Ha0.
  assert (0 < t + alpha m * v)%R as Hd by nra.
  assert (0 < a + alpha m)%R as Hn by lra.
  generalize dependent (t + alpha m * v)%R. generalize dependent (a + alpha m)%R.
  intros n Hn dn Hd.
  unfold py_div. destruct (Req_dec_T dn 0) as [E0|_]; [lra|]. cbn.
  unfold math_log. destruct (Rlt_dec 0 _) as [_|N]; [by eexists|].
  exfalso. apply N. apply Rdiv_lt_0_compat; lra.
Qed.

(** [fit] keeps the labels and the smoothing constant of the classifier it is
    called on, and marks it fitted: every classifier that training builds
    from the default constructor is fitted, over the six labels, with
    smoothing constant 1. *)
Lemma fit_row_keeps (m : NGramNaiveBayesClassifier) (row : LineRow) :
  labels (fit_row L m row) = labels m /\ alpha (fit_row L m row) = alpha m.
Proof. unfold fit_row. repeat case_match; done. Qed.

Lemma fit_well_formed (m : NGramNaiveBayesClassifier) (rows : list LineRow) :
  _is_fit (fit L m rows) = true /\
  labels (fit L m rows) = labels m /\
  alpha (fit L m rows) = alpha m.
Proof.
  unfold fit. cbn [_is_fit labels alpha]. split; [done|].
  revert m. induction rows as [|row rows IH]; intros m; simpl; [done|].
  destruct (IH (fit_row L m row)) as [-> ->]. apply fit_row_keeps.
Qed.

End ClassifierFacts.


(** ** C4 and C5: the overrides of the section tracker *)

Section TrackerFacts.
Context (L : PyLib) (model : str -> option (Label * R * list (Label * R))).

(** C5, with the guard of the code.  In the sequential pass, a line that
    follows, in the same document, a line that is a note-style header, and
    for which the classifier predicted a label other than header, is emitted
    with the label note and a confidence of at least 0.90. *)
Theorem note_header_forces_note (st : tracker) (row : LineRow)
    (lbl : Label) (c : R) (probs : list (Label * R)) :
  same_doc (doc_id row) (previous_doc_id st) = true ->
  looks_like_note_header L (previous_line_text st) = true ->
  model (text row) = Some (lbl, c, probs) ->
  lbl <> header ->
  exists (st' : tracker) (p : ClassificationPrediction),
    track_row L model st row = Some (st', p) /\
    predicted p = note /\ (0.90 <= confidence p)%R.
Proof.
  intros Hdoc Hnote Hmodel Hlbl. unfold track_row.
  rewrite Hdoc, Hmodel, Hnote. cbn [mbind option_bind].
  generalize (action_led (strip L (normalize_for_features L (text row)))) as act.
  generalize (endswith (strip L (normalize_for_features L (text row))) (py ":")) as colon.
  generalize (_header_section_from_text L (text row)) as hs.
  generalize (Z.eqb (line_index row) 0) as first. generalize (Z.ltb 0 (line_index row)) as later.
  generalize (current_section st) as sec.
  intros sec later first hs colon act.
  destruct lbl; try done;
    destruct sec as [[| |]|], later, first, hs as [[| |]|], colon, act; cbn;
    (do 2 eexists; split; [reflexivity|]; cbn; split; [done|apply Rmax_r]).
Qed.

(** C4, with the precedence of the code.  In the sequential pass, a line
    with index greater than 0 whose tracked section is ingredients, whose
    predicted label is step, title or junk, whose normalized text does not
    start with a known action verb, and whose preceding line is not a
    note-style header, is emitted with the label ingredient and a confidence
    of at least 0.82. *)
Theorem ingredients_section_forces_ingredient (st : tracker) (row : LineRow)
    (lbl : Label) (c : R) (probs : list (Label * R)) :
  same_doc (doc_id row) (previous_doc_id st) = true ->
  current_section st = Some ingredients ->
  (0 < line_index row)%Z ->
  model (text row) = Some (lbl, c, probs) ->
  In lbl [step; title; junk] ->
  action_led (strip L (normalize_for_features L (text row))) = false ->
  looks_like_note_header L (previous_line_text st) = false ->
  exists (st' : tracker) (p : ClassificationPrediction),
    track_row L model st row = Some (st', p) /\
    predicted p = ingredient /\ (0.82 <= confidence p)%R.
Proof.
  intros Hdoc Hsec Hidx Hmodel Hlbl Hact Hprev. unfold track_row.
  rewrite Hdoc, Hmodel, Hprev, Hsec, Hact. cbn [mbind option_bind].
  assert (Z.eqb (line_index row) 0 = false) as -> by lia.
  assert (Z.ltb 0 (line_index row) = true) as -> by lia.
  generalize (endswith (strip L (normalize_for_features L (text row))) (py ":")) as colon.
  generalize (_header_section_from_text L (text row)) as hs.
  intros hs colon.
  destruct Hlbl as [<-|[<-|[<-|[]]]]; cbn;
    (do 2 eexists; split; [reflexivity|]; cbn; split; [done|apply Rmax_r]).
Qed.
End TrackerFacts.

Lemma note_header_forces_note_witness :
  exists (st' : tracker) (p : ClassificationPrediction),
    track_row latin1 always_ingredient after_notes_header (sample_row 2 "Store in the fridge")
      = Some (st', p) /\
    predicted p = note /\ (0.90 <= confidence p)%R.
Proof.
  apply (note_header_forces_note latin1 always_ingredient after_notes_header
           (sample_row 2 "Store in the fridge") ingredient 1%R []).
  - vm_compute. reflexivity.
  - vm_compute. reflexivity.
  - reflexivity.
  - discriminate.
Defined.

(** The second example of C4: a step-labelled "2 ripe avocados" inside an
    ingredients section is emitted as an ingredient. *)
Lemma ingredients_section_forces_ingredient_witness :
  exists (st' : tracker) (p : ClassificationPrediction),
    track_row latin1 step_everything inside_ingredients (sample_row 2 "2 ripe avocados")
      = Some (st', p) /\
    predicted p = ingredient /\ (0.82 <= confidence p)%R.
Proof.
  apply (ingredients_section_forces_ingredient latin1 step_everything inside_ingredients
           (sample_row 2 "2 ripe avocados") step (1 / 2)%R []).
  - vm_compute. reflexivity.
  - reflexivity.
  - reflexivity.
  - reflexivity.
  - simpl. tauto.
  - vm_compute. reflexivity.
  - vm_compute. reflexivity.
Defined.

Lemma predict_rule (L : PyLib) (m : NGramNaiveBayesClassifier) (t : str) (l : Label) (q : Q) :
  _is_fit m = true -> rule_based_label L t = Some (l, q) ->
  exists probs, predict_with_confidence L m t = Some (l, Q2R q, probs).
Proof.
  intros Hf Hr. unfold predict_with_confidence. rewrite Hf, Hr. cbn. eexists; reflexivity.
Qed.

Ltac eval_atom t :=
  let v := eval vm_compute in t in
  replace t with v by (vm_compute; reflexivity).

Ltac eval_strings :=
  repeat match goal with
  | |- context [looks_like_note_header latin1 ?t] => eval_atom (looks_like_note_header latin1 t)
  | |- context [_header_section_from_text latin1 ?t] =>
      eval_atom (_header_section_from_text latin1 t)
  | |- context [action_led ?t] => eval_atom (action_led t)
  | |- context [endswith ?a ?b] => eval_atom (endswith a b)
  | |- context [same_doc ?a ?b] => eval_atom (same_doc a b)
  end.

Ltac use_rule t l q :=
  let H := fresh "Hrule" in
  let E := fresh "Epred" in
  let pr := fresh "probs" in
  assert (H : rule_based_label latin1 (py t) = Some (l, q)) by (vm_compute; reflexivity);
  destruct (predict_rule latin1 untrained (py t) l q eq_refl H) as [pr E];
  rewrite ?E; clear H.

Ltac start_pass rows :=
  unfold run_predictions;
  replace (sorted row_leb rows) with rows by (vm_compute; reflexivity);
  unfold rows, sample_row;
  cbn [run_loop]; unfold track_row;
  cbn [doc_id line_index text label previous_doc_id previous_line_text current_section
       tracker_start];
  eval_strings; cbn [previous_doc_id previous_line_text current_section].

(** C5 as stated fails: the line "Ingredients:" follows the note-style header
    "Notes:" and the classifier predicts header for it; it stays a header. *)
Lemma header_after_note_header_stays_header :
  looks_like_note_header latin1 (py "Notes:") = true /\
  (List.map predicted <$>
     run_predictions latin1 (predict_with_confidence latin1 untrained) notes_then_header)
  = Some [title; header; header].
Proof.
  split; [vm_compute; reflexivity|].
  start_pass notes_then_header.
  use_rule "Lemon Bars"%string title 0.78%Q.
  use_rule "Notes:"%string header 0.98%Q.
  use_rule "Ingredients:"%string header 0.98%Q.
  cbn. eval_strings. cbn. reflexivity.
Qed.

(** C4 as stated fails: "Lemon Tart" is line 3 of a document whose tracked
    section is ingredients, the classifier predicts title for it and it does
    not start with an action verb, yet it is emitted as a note, because the
    line before it is the note-style header "Tips for success". *)
Lemma note_header_wins_inside_ingredients :
  (current_section ∘ fst <$>
     run_loop latin1 (predict_with_confidence latin1 untrained) tracker_start
       (take 3 tips_inside_ingredients)) = Some (Some ingredients) /\
  (exists (c : R) (probs : list (Label * R)),
     predict_with_confidence latin1 untrained (py "Lemon Tart") = Some (title, c, probs)) /\
  action_led (strip latin1 (normalize_for_features latin1 (py "Lemon Tart"))) = false /\
  (List.map predicted <$>
     run_predictions latin1 (predict_with_confidence latin1 untrained) tips_inside_ingredients)
  = Some [title; header; note; note].
Proof.
  use_rule "Lemon Bars"%string title 0.78%Q.
  use_rule "Ingredients:"%string header 0.98%Q.
  use_rule "Tips for success"%string note 0.95%Q.
  use_rule "Lemon Tart"%string title 0.78%Q.
  split; [|split; [|split]].
  - unfold tips_inside_ingredients, sample_row. cbn [take run_loop]. unfold track_row.
    cbn [doc_id line_index text label previous_doc_id previous_line_text current_section
         tracker_start].
    eval_strings. cbn [previous_doc_id previous_line_text current_section].
    rewrite Epred, Epred0, Epred1.
    cbn. eval_strings. cbn.
    reflexivity.
  - eauto.
  - vm_compute. reflexivity.
  - start_pass tips_inside_ingredients.
    rewrite Epred, Epred0, Epred1, Epred2.
    cbn. eval_strings. cbn. reflexivity.
Qed.

(** ** C6: range quantities *)

Section RangeFacts.
Context (L : PyLib).

End RangeFacts.



(** ** C7: the title is never empty and the yields have a default *)

Section AssemblerFacts.
Context (L : PyLib).





















(** ** C8: two runs of the assembler *)

End AssemblerFacts.


(** * Further properties of the code *)


(** ** The retrain pipeline beyond the failed gate *)


Lemma last_append_history (runs : list run_entry) (entry : run_entry) :
  last (_append_metrics_history runs entry) = Some entry.
Proof. apply last_of_last_n. Qed.

#[local] Arguments _append_metrics_history : simpl never.

Section RetrainMore.
Context (load_pickle : bytes -> option NGramNaiveBayesClassifier).


(** A run whose stages all succeed and whose trained model loads promotes
    the trained model: it is the artifact and the model of the predictor,
    the export is in place, the pre-run artifact is kept in the backup, and
    the run is recorded as a success. *)
Theorem retrain_promotes (w : stages) (backup_stamp : str) (st : lab)
    (m : NGramNaiveBayesClassifier) :
  validate_rc w = 0%Z -> train_rc w = 0%Z -> metrics_ok w = true -> export_rc w = 0%Z ->
  load_pickle (trained_model w) = Some m ->
  let st' := _retrain_model load_pickle w backup_stamp st in
  files st' ARTIFACT_MODEL = Some (trained_model w) /\
  files st' ARTIFACT_SPLIT = Some (trained_split w) /\
  files st' BUNDLED_MODEL_OUT = Some (exported_model w) /\
  (forall b0 : bytes, files st ARTIFACT_MODEL = Some b0 ->
     files st' (backup_model_file backup_stamp) = Some b0) /\
  PREDICTOR_model st' = Some m /\
  last (metrics_history st') =
    Some {| re_success := true; re_validate_rc := 0; re_train_rc := Some 0%Z;
            re_export_rc := Some 0%Z; re_reloaded := true; re_rolled_back := false |}.
Proof.
  intros Hv Ht Hg He Hl st'. subst st'. unfold _retrain_model.
  unfold try_reload, Predictor_reload, exists_, copy2, write_bytes.
  rewrite Hv, Ht, Hg, He. cbn.
  destruct (files st ARTIFACT_MODEL) as [b0|] eqn:Hm;
    destruct (files st ARTIFACT_SPLIT) as [s0|] eqn:Hs;
    do 4 (cbn; rewrite ?Hs, ?Hm, ?Hl, ?str_eqb_refl);
    (repeat split; try done; try (intros; congruence); apply last_of_last_n).
Qed.

(** The converse: a run is recorded as a success only when validation,
    training, the gate and the export succeeded and the promoted model was
    loaded; no rollback happened then. *)
Theorem retrain_success_only_when (w : stages) (backup_stamp : str) (st : lab)
    (entry : run_entry) :
  last (metrics_history (_retrain_model load_pickle w backup_stamp st)) = Some entry ->
  re_success entry = true ->
  validate_rc w = 0%Z /\ train_rc w = 0%Z /\ metrics_ok w = true /\ export_rc w = 0%Z /\
  re_rolled_back entry = false /\
  PREDICTOR_model (_retrain_model load_pickle w backup_stamp st)
    = load_pickle (trained_model w) /\
  is_Some (load_pickle (trained_model w)).
Proof.
  unfold _retrain_model.
  unfold restore_backups, try_reload, Predictor_reload, exists_, copy2, write_bytes.
  destruct (files st ARTIFACT_MODEL) as [b0|] eqn:Hm;
    destruct (files st ARTIFACT_SPLIT) as [s0|] eqn:Hs;
    destruct (Z.eqb_spec (validate_rc w) 0) as [Hv|Hv];
    destruct (Z.eqb_spec (train_rc w) 0) as [Ht|Ht];
    destruct (metrics_ok w) eqn:Hg;
    destruct (Z.eqb_spec (export_rc w) 0) as [He|He];
    destruct (load_pickle (trained_model w)) as [m|] eqn:Hl;
    do 4 (cbn; rewrite ?Hs, ?Hm, ?Hl, ?str_eqb_refl);
    repeat case_match; simplify_eq;
    cbn [metrics_history PREDICTOR_model]; rewrite last_append_history; intros [= <-];
    cbn; rewrite ?andb_false_r; try discriminate;
    intros _; repeat split; try done; by eexists.
Qed.


End RetrainMore.

Lemma retrain_promotes_witness :
  let st' := _retrain_model sample_load_pickle passing_run (py "20260101T000000Z") sample_lab in
  files st' ARTIFACT_MODEL = Some [Byte.x01] /\
  files st' BUNDLED_MODEL_OUT = Some [Byte.x05] /\
  PREDICTOR_model st' = Some untrained.
Proof.
  pose proof (retrain_promotes sample_load_pickle passing_run (py "20260101T000000Z")
                sample_lab untrained eq_refl eq_refl eq_refl eq_refl eq_refl) as H.
  cbv zeta in H. destruct H as (Hm & _ & Hb & _ & Hp & _).
  exact (conj Hm (conj Hb Hp)).
Defined.

Lemma retrain_success_only_when_witness :
  validate_rc passing_run = 0%Z /\ metrics_ok passing_run = true.
Proof.
  pose proof (retrain_success_only_when sample_load_pickle passing_run
                (py "20260101T000000Z") sample_lab
                {| re_success := true; re_validate_rc := 0; re_train_rc := Some 0%Z;
                   re_export_rc := Some 0%Z; re_reloaded := true; re_rolled_back := false |}
                eq_refl eq_refl) as H.
  destruct H as (Hv & _ & Hg & _). exact (conj Hv Hg).
Defined.




(** ** compute_metrics *)

Lemma label_of_str_name (l : Label) : label_of_str (label_name l) = Some l.
Proof. destruct l; vm_compute; reflexivity. Qed.

Lemma confusion_total_fupd (c : Label -> Label -> nat) (g p : Label) :
  confusion_total (fupd c g (fupd (c g) p (S (c g p)))) = S (confusion_total c).
Proof. destruct g, p; unfold confusion_total, fupd; cbn; lia. Qed.

Lemma count_predictions_total (preds : list ClassificationPrediction)
    (c c' : Label -> Label -> nat) :
  count_predictions c preds = Some c' ->
  confusion_total c' = confusion_total c + length preds.
Proof.
  revert c. induction preds as [|pred rest IH]; intros c; simpl.
  - intros [= <-]. lia.
  - unfold count_prediction. destruct (label_of_str (gold pred)) as [g|]; [|discriminate].
    cbn [mbind option_bind]. intros H. apply IH in H.
    rewrite confusion_total_fupd in H. lia.
Qed.

Lemma count_predictions_defined (preds : list ClassificationPrediction)
    (c : Label -> Label -> nat) :
  is_Some (count_predictions c preds) <->
  Forall (fun pred => is_Some (label_of_str (gold pred))) preds.
Proof.
  revert c. induction preds as [|pred rest IH]; intros c; simpl.
  - split; [constructor|by eexists].
  - rewrite Forall_cons. unfold count_prediction.
    destruct (label_of_str (gold pred)) as [g|]; cbn.
    + rewrite IH. split; [intros H; split; [by eexists|done]|tauto].
    + split; [intros [? [=]]|intros [[? [=]] _]].
Qed.

Lemma compute_metrics_defined (predictions : list ClassificationPrediction) :
  is_Some (compute_metrics predictions) <->
  Forall (fun pred => is_Some (label_of_str (gold pred))) predictions.
Proof.
  rewrite <- (count_predictions_defined predictions (fun _ _ => 0)).
  unfold compute_metrics.
  destruct (count_predictions (fun _ _ => 0) predictions); cbn;
    [split; intros _; by eexists|split; intros [? [=]]].
Qed.

(** [compute_metrics] raises (a [KeyError]) exactly when some prediction has
    a gold label outside the six labels; otherwise every prediction is
    counted once: the entries of the confusion table and the supports of the
    six classes both add up to the number of predictions. *)
Theorem compute_metrics_counts (predictions : list ClassificationPrediction) :
  (is_Some (compute_metrics predictions) <->
   Forall (fun pred => is_Some (label_of_str (gold pred))) predictions) /\
  (forall report : MetricsReport,
     compute_metrics predictions = Some report ->
     prediction_count report = length predictions /\
     confusion_total (confusion report) = length predictions /\
     sum_nat (List.map (fun l => support (per_class report l)) LABELS) = length predictions).
Proof.
  split; [apply compute_metrics_defined|].
  intros report. unfold compute_metrics.
  destruct (count_predictions (fun _ _ => 0) predictions) as [c|] eqn:Hc; [|discriminate].
  cbn. intros [= <-]. cbn.
  apply count_predictions_total in Hc.
  change (confusion_total (fun _ _ => 0)) with 0 in Hc.
  split; [reflexivity|]. split; [exact Hc|]. exact Hc.
Qed.

Lemma count_ratio_bounds (a b : nat) : a <= b -> 0 < b -> (0 <= count_ratio a b <= 1)%Q.
Proof.
  intros Hab Hb. unfold count_ratio.
  assert (0 < inject_Z (Z.of_nat b))%Q as Hpos.
  { replace 0%Q with (inject_Z 0) by reflexivity. rewrite <- Zlt_Qlt. lia. }
  split.
  - apply Qle_shift_div_l; [done|]. rewrite Qmult_0_l.
    replace 0%Q with (inject_Z 0) by reflexivity. rewrite <- Zle_Qle. lia.
  - apply Qle_shift_div_r; [done|]. rewrite Qmult_1_l. rewrite <- Zle_Qle. lia.
Qed.

Lemma f1_bounds (p r : Q) :
  (0 <= p <= 1)%Q -> (0 <= r <= 1)%Q ->
  (0 <= (if Qeq_bool (p + r) 0 then 0 else 2 * p * r / (p + r)) <= 1)%Q.
Proof.
  intros [Hp0 Hp1] [Hr0 Hr1].
  destruct (Qeq_bool (p + r) 0) eqn:E; [split; discriminate|].
  apply Qeq_bool_neq in E.
  assert (0 < p + r)%Q as Hpos.
  { apply Qle_lteq in Hp0 as [Hp0|Hp0]; apply Qle_lteq in Hr0 as [Hr0|Hr0].
    - rewrite <- (Qplus_0_l 0). apply Qplus_lt_le_compat; [done|by apply Qlt_le_weak].
    - rewrite <- Hr0, Qplus_0_r. done.
    - rewrite <- Hp0, Qplus_0_l. done.
    - exfalso. apply E. rewrite <- Hp0, <- Hr0. reflexivity. }
  split.
  - apply Qle_shift_div_l; [done|]. rewrite Qmult_0_l.
    apply Qmult_le_0_compat; [|done]. apply Qmult_le_0_compat; [discriminate|done].
  - apply Qle_shift_div_r; [done|]. rewrite Qmult_1_l. Lqa.nra.
Qed.

Lemma mean_bounds (values : list Q) :
  values <> [] -> Forall (fun v => (0 <= v <= 1)%Q) values -> (0 <= mean values <= 1)%Q.
Proof.
  intros Hne Hall. unfold mean.
  assert (0 <= sum_Q values <= inject_Z (Z.of_nat (length values)))%Q as [H0 H1].
  { clear Hne. induction Hall as [|v vs [Hv0 Hv1] _ [IH0 IH1]]; cbn [sum_Q fold_right length].
    - split; discriminate.
    - fold (sum_Q vs). rewrite Nat2Z.inj_succ, <- Z.add_1_r, inject_Z_plus.
      change (inject_Z 1) with 1%Q. split; Lqa.lra. }
  assert (0 < inject_Z (Z.of_nat (length values)))%Q as Hpos.
  { replace 0%Q with (inject_Z 0) by reflexivity. rewrite <- Zlt_Qlt.
    destruct values; [done|]. cbn [length]. lia. }
  split.
  - apply Qle_shift_div_l; [done|]. by rewrite Qmult_0_l.
  - apply Qle_shift_div_r; [done|]. by rewrite Qmult_1_l.
Qed.

Lemma class_metrics_bounds (c : Label -> Label -> nat) (l : Label) :
  (0 <= precision (class_metrics c l) <= 1)%Q /\
  (0 <= recall (class_metrics c l) <= 1)%Q /\
  (0 <= f1 (class_metrics c l) <= 1)%Q.
Proof.
  assert (Hp : (0 <= precision (class_metrics c l) <= 1)%Q).
  { unfold class_metrics. cbn [precision].
    destruct (Nat.eqb_spec (c l l + sum_nat (List.map (fun other => c other l) (others l))) 0);
      [split; discriminate|apply count_ratio_bounds; lia]. }
  assert (Hr : (0 <= recall (class_metrics c l) <= 1)%Q).
  { unfold class_metrics. cbn [recall].
    destruct (Nat.eqb_spec (c l l + sum_nat (List.map (fun other => c l other) (others l))) 0);
      [split; discriminate|apply count_ratio_bounds; lia]. }
  split; [done|split; [done|]].
  exact (f1_bounds _ _ Hp Hr).
Qed.

#[local] Arguments class_metrics : simpl never.

(** Whatever the predictions, every score that [compute_metrics] reports
    lies between 0 and 1: precision, recall and F1 of each class, both
    macro averages and the ingredient/step confusion rate. *)
Theorem compute_metrics_bounds (predictions : list ClassificationPrediction)
    (report : MetricsReport) :
  compute_metrics predictions = Some report ->
  (forall l : Label,
     (0 <= precision (per_class report l) <= 1)%Q /\
     (0 <= recall (per_class report l) <= 1)%Q /\
     (0 <= f1 (per_class report l) <= 1)%Q) /\
  (0 <= macro_f1 report <= 1)%Q /\
  (0 <= macro_f1_present_labels report <= 1)%Q /\
  (0 <= ingredient_step_confusion_rate report <= 1)%Q.
Proof.
  unfold compute_metrics.
  destruct (count_predictions (fun _ _ => 0) predictions) as [c|] eqn:Hc; [|discriminate].
  cbn. intros [= <-]. cbn [per_class macro_f1 macro_f1_present_labels
                           ingredient_step_confusion_rate].
  assert (Hall : forall ls : list Label,
             Forall (fun v => (0 <= v <= 1)%Q) (List.map (fun l => f1 (class_metrics c l)) ls)).
  { intros ls. apply Forall_map, Forall_forall. intros l _. apply class_metrics_bounds. }
  assert (Hmacro : (0 <= mean (List.map (fun l => f1 (class_metrics c l)) LABELS) <= 1)%Q).
  { apply mean_bounds; [discriminate|apply Hall]. }
  split; [intros l; apply class_metrics_bounds|].
  split; [exact Hmacro|]. split.
  - match goal with
    | |- context [match ?vals with [] => _ | _ :: _ => _ end] =>
        destruct vals as [|v vs] eqn:E; [exact Hmacro|];
        rewrite <- E; apply mean_bounds; [by rewrite E|apply Hall]
    end.
  - destruct (Nat.eqb_spec (length predictions) 0) as [|Hn]; [split; discriminate|].
    apply count_ratio_bounds; [|lia].
    apply count_predictions_total in Hc.
    assert (c ingredient step + c step ingredient <= confusion_total c)
      by (unfold confusion_total; cbn; lia).
    cbn in Hc. lia.
Qed.

Lemma count_predictions_diagonal (preds : list ClassificationPrediction)
    (c c' : Label -> Label -> nat) :
  Forall (fun pred => label_of_str (gold pred) = Some (predicted pred)) preds ->
  (forall g p, g <> p -> c g p = 0) ->
  count_predictions c preds = Some c' ->
  forall g p, g <> p -> c' g p = 0.
Proof.
  intros Hall. revert c. induction Hall as [|pred rest Hpred _ IH]; intros c Hc; simpl.
  - intros [= <-]. exact Hc.
  - unfold count_prediction. rewrite Hpred. cbn [mbind option_bind]. apply IH.
    intros g p Hgp. unfold fupd.
    destruct (label_eqb g (predicted pred)) eqn:E1; cbn; [|by apply Hc].
    apply label_eqb_eq in E1. subst g.
    destruct (label_eqb p (predicted pred)) eqn:E2; cbn; [|by apply Hc].
    apply label_eqb_eq in E2. congruence.
Qed.

Lemma sum_nat_zero (l : list nat) : Forall (fun n => n = 0) l -> sum_nat l = 0.
Proof. induction 1 as [|n l -> _ IH]; simpl; [done|exact IH]. Qed.

Lemma off_diagonal_sums (c : Label -> Label -> nat) (l : Label) :
  (forall g p, g <> p -> c g p = 0) ->
  sum_nat (List.map (fun other => c other l) (others l)) = 0 /\
  sum_nat (List.map (fun other => c l other) (others l)) = 0 /\
  sum_nat (List.map (c l) LABELS) = c l l.
Proof.
  intros Hd.
  assert (forall o, In o (others l) -> o <> l) as Ho.
  { intros o Hin. apply List.filter_In in Hin as [_ Hne]. intros ->.
    rewrite (proj2 (label_eqb_eq l l) eq_refl) in Hne. discriminate. }
  split; [|split].
  - apply sum_nat_zero, Forall_map, Forall_forall. intros o Hin.
    apply Hd, Ho. by apply list_elem_of_In.
  - apply sum_nat_zero, Forall_map, Forall_forall. intros o Hin.
    apply Hd. intros E. symmetry in E. revert E. apply Ho. by apply list_elem_of_In.
  - destruct l; cbn;
      rewrite ?(Hd title ingredient), ?(Hd title step), ?(Hd title note), ?(Hd title header),
        ?(Hd title junk), ?(Hd ingredient title), ?(Hd ingredient step), ?(Hd ingredient note),
        ?(Hd ingredient header), ?(Hd ingredient junk), ?(Hd step title),
        ?(Hd step ingredient), ?(Hd step note), ?(Hd step header), ?(Hd step junk),
        ?(Hd note title), ?(Hd note ingredient), ?(Hd note step), ?(Hd note header),
        ?(Hd note junk), ?(Hd header title), ?(Hd header ingredient), ?(Hd header step),
        ?(Hd header note), ?(Hd header junk), ?(Hd junk title), ?(Hd junk ingredient),
        ?(Hd junk step), ?(Hd junk note), ?(Hd junk header) by discriminate; lia.
Qed.

Lemma count_ratio_self (n : nat) : 0 < n -> (count_ratio n n == 1)%Q.
Proof.
  intros Hn. unfold count_ratio. apply Qmult_inv_r.
  intros E. apply (Qeq_bool_neq (inject_Z (Z.of_nat n)) 0); [|exact E].
  destruct n; [lia|reflexivity].
Qed.

Lemma perfect_class (c : Label -> Label -> nat) (l : Label) :
  (forall g p, g <> p -> c g p = 0) ->
  0 < support (class_metrics c l) ->
  (precision (class_metrics c l) == 1)%Q /\
  (recall (class_metrics c l) == 1)%Q /\
  (f1 (class_metrics c l) == 1)%Q.
Proof.
  intros Hd. destruct (off_diagonal_sums c l Hd) as (Hfp & Hfn & Hsup).
  unfold class_metrics. cbn [support precision recall f1].
  rewrite Hfp, Hfn, Hsup, Nat.add_0_r. intros Hpos.
  destruct (Nat.eqb_spec (c l l) 0) as [E|_]; [lia|].
  pose proof (count_ratio_self (c l l) Hpos) as H1.
  split; [exact H1|]. split; [exact H1|].
  destruct (Qeq_bool (count_ratio (c l l) (c l l) + count_ratio (c l l) (c l l)) 0) eqn:E.
  - apply Qeq_bool_iff in E. rewrite H1 in E. discriminate.
  - rewrite H1. reflexivity.
Qed.

Lemma mean_of_ones (values : list Q) :
  values <> [] -> Forall (fun v => (v == 1)%Q) values -> (mean values == 1)%Q.
Proof.
  intros Hne Hall. unfold mean.
  assert (sum_Q values == inject_Z (Z.of_nat (length values)))%Q as ->.
  { clear Hne. induction Hall as [|v vs Hv _ IH]; cbn [sum_Q fold_right length]; [reflexivity|].
    fold (sum_Q vs). rewrite Nat2Z.inj_succ, <- Z.add_1_r, inject_Z_plus, IH, Hv.
    change (inject_Z 1) with 1%Q. Lqa.lra. }
  apply Qmult_inv_r. intros E.
  apply (Qeq_bool_neq (inject_Z (Z.of_nat (length values))) 0); [|exact E].
  destruct values; [done|reflexivity].
Qed.

(** When every prediction equals its gold label, and there is at least one
    prediction, the macro F1 over the labels that occur is 1, the
    ingredient/step confusion rate is 0, and every class that occurs has
    precision, recall and F1 equal to 1. *)
Lemma compute_metrics_perfect (predictions : list ClassificationPrediction)
    (report : MetricsReport) :
  compute_metrics predictions = Some report ->
  predictions <> [] ->
  Forall (fun pred => label_of_str (gold pred) = Some (predicted pred)) predictions ->
  (macro_f1_present_labels report == 1)%Q /\
  (ingredient_step_confusion_rate report == 0)%Q /\
  (forall l : Label,
     0 < support (per_class report l) ->
     (precision (per_class report l) == 1)%Q /\
     (recall (per_class report l) == 1)%Q /\
     (f1 (per_class report l) == 1)%Q).
Proof.
  unfold compute_metrics.
  destruct (count_predictions (fun _ _ => 0) predictions) as [c|] eqn:Hc; [|discriminate].
  cbn [mbind option_bind]. intros Heq Hne Hall.
  apply (inj Some) in Heq. subst report.
  cbv beta iota delta [per_class macro_f1_present_labels ingredient_step_confusion_rate].
  pose proof (count_predictions_diagonal predictions _ c Hall (fun _ _ _ => eq_refl) Hc) as Hd.
  split; [|split].
  - remember (List.filter (fun l => Nat.ltb 0 (support (class_metrics c l))) LABELS)
      as present eqn:E.
    assert (Hones : Forall (fun v => (v == 1)%Q)
                      (List.map (fun l => f1 (class_metrics c l)) present)).
    { apply Forall_map, Forall_forall. intros l Hin. subst present.
      apply list_elem_of_In, List.filter_In in Hin as [_ Hpos].
      apply Nat.ltb_lt in Hpos. by apply perfect_class. }
    destruct present as [|l0 ls].
    + exfalso. apply count_predictions_total in Hc.
      change (confusion_total (fun _ _ => 0)) with 0 in Hc.
      assert (length predictions <> 0) by (by destruct predictions).
      assert (Forall (fun l => support (class_metrics c l) = 0) LABELS) as Hz.
      { apply Forall_forall. intros l Hin.
        destruct (Nat.ltb 0 (support (class_metrics c l))) eqn:El;
          [|apply Nat.ltb_ge in El; lia].
        assert (In l []) as [].
        rewrite E. apply List.filter_In. split; [by apply list_elem_of_In|done]. }
      assert (confusion_total c = 0) as Hzero.
      { unfold confusion_total. apply sum_nat_zero, Forall_map. exact Hz. }
      lia.
    + apply (mean_of_ones (List.map (fun l => f1 (class_metrics c l)) (l0 :: ls)));
        [discriminate|exact Hones].
  - destruct (Nat.eqb (length predictions) 0); [reflexivity|].
    rewrite (Hd ingredient step), (Hd step ingredient) by discriminate. reflexivity.
  - intros l. by apply perfect_class.
Qed.

Lemma compute_metrics_bounds_witness :
  exists report : MetricsReport,
    compute_metrics [sample_prediction "step" ingredient; sample_prediction "note" note]
      = Some report /\
    (0 <= macro_f1 report <= 1)%Q.
Proof.
  eexists. split; [reflexivity|].
  apply (compute_metrics_bounds
           [sample_prediction "step" ingredient; sample_prediction "note" note] _ eq_refl).
Defined.


(** ** split_rows_for_holdout and the edge of split_docs_for_holdout *)

Lemma insert_sorted_perm {A : Type} (leb : A -> A -> bool) (x : A) (l : list A) :
  insert_sorted leb x l ≡ₚ x :: l.
Proof.
  induction l as [|y l IH]; simpl; [done|].
  destruct (leb x y); [done|]. rewrite IH. apply Permutation_swap.
Qed.

Lemma sorted_perm {A : Type} (leb : A -> A -> bool) (l : list A) : sorted leb l ≡ₚ l.
Proof.
  induction l as [|x l IH]; [done|].
  change (sorted leb (x :: l)) with (insert_sorted leb x (sorted leb l)).
  by rewrite insert_sorted_perm, IH.
Qed.

Lemma filter_partition_perm {A : Type} (f : A -> bool) (l : list A) :
  List.filter (fun x => negb (f x)) l ++ List.filter f l ≡ₚ l.
Proof.
  induction l as [|x l IH]; simpl; [done|].
  destruct (f x); simpl.
  - rewrite <- Permutation_middle. by constructor.
  - by constructor.
Qed.

Lemma group_append_spec (key : str) (row : LineRow) (groups : list (str * list LineRow)) :
  (forall k g, (k, g) ∈ groups -> exists g', (k, g') ∈ group_append key row groups /\ g ⊆ g') /\
  (forall k g r, (k, g) ∈ group_append key row groups -> r ∈ g ->
     r = row \/ exists g0, (k, g0) ∈ groups /\ r ∈ g0) /\
  (exists k g, (k, g) ∈ group_append key row groups /\ row ∈ g).
Proof.
  induction groups as [|[k0 g0] rest (IH1 & IH2 & IH3)]; simpl.
  - split; [intros k g Hin; inversion Hin|]. split.
    + intros k g r Hin Hr. apply list_elem_of_singleton in Hin as [= -> ->].
      left. by apply list_elem_of_singleton in Hr.
    + exists key, [row]. set_solver.
  - destruct (str_eqb k0 key) eqn:E.
    + split; [|split].
      * intros k g Hin. apply elem_of_cons in Hin as [[= -> ->]|Hin].
        -- exists (g0 ++ [row]). set_solver.
        -- exists g. set_solver.
      * intros k g r Hin Hr. apply elem_of_cons in Hin as [[= -> ->]|Hin].
        -- apply elem_of_app in Hr as [Hr|Hr]; [right; exists g0; set_solver|].
           left. by apply list_elem_of_singleton in Hr.
        -- right. exists g. set_solver.
      * exists k0, (g0 ++ [row]). set_solver.
    + split; [|split].
      * intros k g Hin. apply elem_of_cons in Hin as [[= -> ->]|Hin].
        -- exists g0. set_solver.
        -- destruct (IH1 k g Hin) as (g' & Hg' & Hsub). exists g'. set_solver.
      * intros k g r Hin Hr. apply elem_of_cons in Hin as [[= -> ->]|Hin].
        -- right. exists g0. set_solver.
        -- destruct (IH2 k g r Hin Hr) as [->|(g1 & Hg1 & Hr1)]; [by left|].
           right. exists g1. set_solver.
      * destruct IH3 as (k & g & Hin & Hr). exists k, g. set_solver.
Qed.

(** Every row is filed under some label, and the groups hold rows of the
    input only. *)
Lemma rows_by_label_spec (rows : list LineRow) :
  (forall r, r ∈ rows -> exists k g, (k, g) ∈ rows_by_label rows /\ r ∈ g) /\
  (forall k g r, (k, g) ∈ rows_by_label rows -> r ∈ g -> r ∈ rows).
Proof.
  unfold rows_by_label.
  cut (forall groups : list (str * list LineRow),
         (forall r, r ∈ rows \/ (exists k g, (k, g) ∈ groups /\ r ∈ g) ->
            exists k g, (k, g) ∈ fold_left (fun groups row => group_append (label row) row groups)
                                           rows groups /\ r ∈ g) /\
         (forall k g r,
            (k, g) ∈ fold_left (fun groups row => group_append (label row) row groups) rows groups ->
            r ∈ g -> r ∈ rows \/ exists g0, (k, g0) ∈ groups /\ r ∈ g0)).
  { intros H. destruct (H []) as [H1 H2]. split.
    - intros r Hr. apply H1. by left.
    - intros k g r Hin Hr. destruct (H2 k g r Hin Hr) as [|(g0 & Hg0 & _)]; [done|].
      inversion Hg0. }
  induction rows as [|row rows IH]; intros groups; simpl.
  - split.
    + intros r [Hr|Hr]; [inversion Hr|done].
    + intros k g r Hin Hr. right. by exists g.
  - destruct (IH (group_append (label row) row groups)) as [IH1 IH2].
    destruct (group_append_spec (label row) row groups) as (G1 & G2 & G3).
    split.
    + intros r [Hr|(k & g & Hin & Hr)]; apply IH1.
      * apply elem_of_cons in Hr as [->|Hr]; [right; exact G3|by left].
      * right. destruct (G1 k g Hin) as (g' & Hg' & Hsub). exists k, g'. set_solver.
    + intros k g r Hin Hr. destruct (IH2 k g r Hin Hr) as [Hr'|(g0 & Hg0 & Hr0)].
      * left. set_solver.
      * destruct (G2 k g0 r Hg0 Hr0) as [->|(g1 & Hg1 & Hr1)]; [left; set_solver|].
        right. by exists g1.
Qed.

Section HoldoutRowsFacts.
Context (row_digest : str -> Z -> str) (rounded : nat -> Z).

Lemma label_holdout_spec (label_rows : list LineRow) :
  label_holdout row_digest rounded label_rows ⊆ label_rows /\
  (label_rows <> [] -> label_holdout row_digest rounded label_rows <> []).
Proof.
  unfold label_holdout.
  pose proof (sorted_perm (digest_leb row_digest) label_rows) as Hp.
  split.
  - intros r Hr. rewrite <- Hp. eapply subseteq_take, Hr.
  - intros Hne.
    destruct (sorted (digest_leb row_digest) label_rows) as [|x ordered] eqn:E.
    + apply Permutation_nil_l in Hp. congruence.
    + cbn [length].
      replace (Z.to_nat _) with (S (Z.to_nat (Z.min (Z.max 1 (rounded (S (length ordered))))
                                                  (Z.of_nat (S (length ordered)))) - 1))
        by lia.
      discriminate.
Qed.

Lemma holdout_keys_of_spec (groups : list (str * list LineRow)) (k : str)
    (g : list LineRow) (r : LineRow) :
  (k, g) ∈ groups -> r ∈ label_holdout row_digest rounded g ->
  row_key r ∈ holdout_keys_of row_digest rounded groups.
Proof.
  unfold holdout_keys_of.
  cut (forall keys : gset (str * Z),
         row_key r ∈ keys \/ ((k, g) ∈ groups /\ r ∈ label_holdout row_digest rounded g) ->
         row_key r ∈ fold_left
           (fun keys '(_, label_rows) =>
              keys ∪ list_to_set (List.map row_key (label_holdout row_digest rounded label_rows)))
           groups keys).
  { intros H Hin Hr. apply H. by right. }
  induction groups as [|[k0 g0] rest IH]; intros keys; simpl.
  - intros [H|[H _]]; [done|inversion H].
  - intros [H|[H Hr]]; apply IH.
    + left. set_solver.
    + apply elem_of_cons in H as [[= -> ->]|H]; [|by right].
      left. apply elem_of_union_r, elem_of_list_to_set, list_elem_of_In, in_map,
        list_elem_of_In, Hr.
Qed.

Lemma split_rows_perm (rows : list LineRow) :
  let '(train_rows, holdout_rows) := split_rows_for_holdout row_digest rounded rows in
  train_rows ++ holdout_rows ≡ₚ rows.
Proof.
  unfold split_rows_for_holdout. cbv zeta beta.
  set (keys := holdout_keys_of row_digest rounded (rows_by_label rows)).
  pose proof (filter_partition_perm (fun row => bool_decide (row_key row ∈ keys))
                (sorted row_leb rows)) as Hp.
  cbv beta in Hp. rewrite (sorted_perm row_leb rows) in Hp at 3.
  set (train := List.filter (fun row => negb (bool_decide (row_key row ∈ keys)))
                  (sorted row_leb rows)) in *.
  set (holdout := List.filter (fun row => bool_decide (row_key row ∈ keys))
                    (sorted row_leb rows)) in *.
  clearbody train holdout.
  destruct train as [|t train]; [|exact Hp].
  destruct (rev holdout) as [|popped earlier] eqn:Eh; [exact Hp|].
  rewrite <- Hp. cbn [app].
  rewrite <- (rev_involutive holdout), Eh.
  cbn [rev]. rewrite <- Permutation_cons_append. done.
Qed.

(** [split_rows_for_holdout] loses and invents no row: the training rows
    followed by the hold-out rows are a permutation of the input.  A
    non-empty input gives a non-empty training list, and an input of at
    least two rows also a non-empty hold-out list. *)
Theorem split_rows_for_holdout_partition (rows : list LineRow) :
  let '(train_rows, holdout_rows) := split_rows_for_holdout row_digest rounded rows in
  train_rows ++ holdout_rows ≡ₚ rows /\
  (rows <> [] -> train_rows <> []) /\
  (2 <= length rows -> holdout_rows <> []).
Proof.
  pose proof (split_rows_perm rows) as Hperm.
  unfold split_rows_for_holdout in *. cbv zeta beta in *.
  set (keys := holdout_keys_of row_digest rounded (rows_by_label rows)) in *.
  assert (Hsome : rows <> [] ->
            List.filter (fun row => bool_decide (row_key row ∈ keys)) (sorted row_leb rows)
            <> []).
  { intros Hne.
    assert (exists r0, r0 ∈ rows) as [r0 Hr0in].
    { clear -Hne. destruct rows as [|r0 rows']; [done|]. exists r0. set_solver. }
    destruct (rows_by_label_spec rows) as [R1 R2].
    destruct (R1 r0 Hr0in) as (k & g & Hin & Hr0).
    destruct (label_holdout_spec g) as [Hsub Hne'].
    destruct (label_holdout row_digest rounded g) as [|r held] eqn:Eg;
      [exfalso; apply Hne'; [intros ->; inversion Hr0|done]|].
    assert (r ∈ rows) as Hr by (apply (R2 k g); [done|apply Hsub; set_solver]).
    assert (In r (List.filter (fun row => bool_decide (row_key row ∈ keys))
                    (sorted row_leb rows))) as Hfil.
    { apply List.filter_In. split.
      - apply list_elem_of_In. by rewrite (sorted_perm row_leb rows).
      - apply bool_decide_eq_true. apply (holdout_keys_of_spec _ k g); [done|].
        rewrite Eg. set_solver. }
    intros E. rewrite E in Hfil. destruct Hfil. }
  set (train := List.filter (fun row => negb (bool_decide (row_key row ∈ keys)))
                  (sorted row_leb rows)) in *.
  set (holdout := List.filter (fun row => bool_decide (row_key row ∈ keys))
                    (sorted row_leb rows)) in *.
  clearbody train holdout.
  destruct train as [|t train].
  - destruct (rev holdout) as [|popped earlier] eqn:Eh.
    + split; [exact Hperm|].
      apply (f_equal (@rev _)) in Eh. rewrite rev_involutive in Eh. subst holdout.
      split; intros H; exfalso; [by apply Hsome|].
      apply Hsome; [|done]. destruct rows; [cbn in H; lia|done].
    + split; [exact Hperm|]. split; [done|]. intros Hlen.
      apply Permutation_length in Hperm. cbn in Hperm. rewrite length_rev in Hperm.
      destruct earlier; [cbn in Hperm; lia|]. cbn. intros E.
      apply (f_equal (@length _)) in E. rewrite length_app in E. cbn in E. lia.
  - split; [exact Hperm|]. split; [done|]. intros Hlen. apply Hsome.
    destruct rows; [cbn in Hlen; lia|done].
Qed.
End HoldoutRowsFacts.

Section HoldoutEdge.
Context (bucket : str -> Q) (ratio : Q).

(** The guarantee of [split_docs_for_holdout] needs two documents: with one
    document id the hold-out set is empty and the document is in the training
    set, whatever its bucket; with none both sets are empty. *)
Theorem split_docs_for_holdout_single (doc : str) :
  split_docs_for_holdout bucket [doc] ratio = ({[doc]}, ∅) /\
  split_docs_for_holdout bucket [] ratio = (∅, ∅).
Proof.
  split; [|vm_compute; reflexivity].
  unfold split_docs_for_holdout.
  assert (Hs : forall X : gset str, X = {[doc]} -> sorted_elements X = [doc]).
  { intros X ->. unfold sorted_elements. rewrite elements_singleton. reflexivity. }
  rewrite (Hs (list_to_set [doc])) by set_solver. cbn [fold_left].
  destruct (Qltb (bucket doc) ratio).
  - assert (sorted_elements (∅ : gset str) = []) as -> by reflexivity.
    rewrite (Hs (∅ ∪ {[doc]})) by set_solver.
    destruct (decide ((∅ : gset str) = ∅)) as [_|]; [|done].
    f_equal; set_solver.
  - rewrite (Hs (∅ ∪ {[doc]})) by set_solver.
    destruct (decide ((∅ : gset str) = ∅)) as [_|]; [|done].
    rewrite (Hs (∅ ∪ {[doc]})) by set_solver.
    destruct (decide ((∅ ∪ {[doc]}) ∖ {[doc]} = (∅ : gset str))) as [_|N]; [|set_solver].
    f_equal; set_solver.
Qed.
End HoldoutEdge.

Lemma split_rows_for_holdout_example :
  split_rows_for_holdout sample_digest quarter two_rows
  = ([{| doc_id := py "a"; line_index := 1; text := py "1 cup stock";
         label := py "ingredient" |}],
     [{| doc_id := py "a"; line_index := 0; text := py "Soup"; label := py "title" |}]).
Proof. vm_compute. reflexivity. Qed.


(** ** The classifier: training *)

Lemma label_eqb_sym (a b : Label) : label_eqb a b = label_eqb b a.
Proof. by destruct a, b. Qed.

Section FitFacts.
Context (L : PyLib).

Lemma fit_row_fitted (m : NGramNaiveBayesClassifier) (row : LineRow) (b : bool) :
  fit_row L {| labels := labels m; alpha := alpha m;
               _doc_count_by_label := _doc_count_by_label m;
               _feature_count_by_label := _feature_count_by_label m;
               _total_feature_count_by_label := _total_feature_count_by_label m;
               _vocabulary := _vocabulary m; _is_fit := b |} row
  = {| labels := labels (fit_row L m row); alpha := alpha (fit_row L m row);
       _doc_count_by_label := _doc_count_by_label (fit_row L m row);
       _feature_count_by_label := _feature_count_by_label (fit_row L m row);
       _total_feature_count_by_label := _total_feature_count_by_label (fit_row L m row);
       _vocabulary := _vocabulary (fit_row L m row); _is_fit := b |}.
Proof. unfold fit_row. cbn. repeat case_match; reflexivity. Qed.

Lemma fit_rows_fitted (rows : list LineRow) (m : NGramNaiveBayesClassifier) (b : bool) :
  fold_left (fit_row L) rows
    {| labels := labels m; alpha := alpha m;
       _doc_count_by_label := _doc_count_by_label m;
       _feature_count_by_label := _feature_count_by_label m;
       _total_feature_count_by_label := _total_feature_count_by_label m;
       _vocabulary := _vocabulary m; _is_fit := b |}
  = let m' := fold_left (fit_row L) rows m in
    {| labels := labels m'; alpha := alpha m';
       _doc_count_by_label := _doc_count_by_label m';
       _feature_count_by_label := _feature_count_by_label m';
       _total_feature_count_by_label := _total_feature_count_by_label m';
       _vocabulary := _vocabulary m'; _is_fit := b |}.
Proof.
  revert m. induction rows as [|row rows IH]; intros m; simpl; [done|].
  rewrite fit_row_fitted. apply IH.
Qed.

(** [fit] accumulates: fitting a classifier on some rows and then on more
    rows gives the classifier fitted once on all of them; a second call
    does not reset the counts of the first. *)
Theorem fit_accumulates (m : NGramNaiveBayesClassifier) (rows more : list LineRow) :
  fit L (fit L m rows) more = fit L m (rows ++ more).
Proof.
  unfold fit at 1 3. rewrite fold_left_app.
  unfold fit. rewrite fit_rows_fitted. reflexivity.
Qed.

Lemma fit_row_doc_count (m : NGramNaiveBayesClassifier) (row : LineRow) (l : Label) :
  labels m = LABELS ->
  labels (fit_row L m row) = LABELS /\
  _doc_count_by_label (fit_row L m row) l
  = _doc_count_by_label m l + rows_labelled l [row].
Proof.
  intros Hl. unfold fit_row, rows_labelled. cbn [List.filter].
  destruct (label_of_str (label row)) as [l'|]; [|cbn; split; [done|lia]].
  rewrite Hl.
  replace (existsb (label_eqb l') LABELS) with true by (by destruct l').
  cbn [negb labels _doc_count_by_label]. split; [done|].
  unfold fupd. rewrite (label_eqb_sym l l').
  destruct (label_eqb l' l) eqn:E; cbn; [|lia].
  apply label_eqb_eq in E. subst. lia.
Qed.

(** After training from the default constructor, the document count of each
    label is the number of training rows that carry that label; rows with
    any other label are not counted. *)
Theorem fit_doc_counts (rows : list LineRow) (l : Label) :
  _doc_count_by_label (fit L new_classifier rows) l = rows_labelled l rows.
Proof.
  unfold fit. cbn [_doc_count_by_label].
  cut (forall m, labels m = LABELS ->
         _doc_count_by_label (fold_left (fit_row L) rows m) l
         = _doc_count_by_label m l + rows_labelled l rows).
  { intros H. rewrite (H new_classifier eq_refl). reflexivity. }
  induction rows as [|row rows IH]; intros m Hl; simpl.
  - unfold rows_labelled. cbn. lia.
  - destruct (fit_row_doc_count m row l Hl) as [Hl' Hc].
    rewrite (IH _ Hl'), Hc. unfold rows_labelled. cbn [List.filter].
    destruct (match label_of_str (label row) with Some l' => label_eqb l' l | None => false end);
      cbn [length]; lia.
Qed.
End FitFacts.

(** ** The classifier: prediction *)

Lemma rule_confidence_floor (L : PyLib) (t : str) (l : Label) (q : Q) :
  rule_based_label L t = Some (l, q) -> (0.78 <= Q2R q <= 0.99)%R.
Proof.
  unfold rule_based_label.
  repeat match goal with
         | |- context [if ?b then _ else _] => destruct b
         end;
    intros [= <- <-] || discriminate; unfold Q2R; simpl; lra.
Qed.

Lemma argmax_from_max (best : Label * R) (d : list (Label * R)) :
  In (argmax_from best d) (best :: d) /\
  (snd best <= snd (argmax_from best d))%R /\
  Forall (fun kv => (snd kv <= snd (argmax_from best d))%R) d.
Proof.
  revert best. induction d as [|[k v] d IH]; intros best; simpl.
  - split; [by left|]. split; [lra|constructor].
  - destruct (Rlt_dec (snd best) v) as [Hlt|Hge].
    + destruct (IH (k, v)) as (Hin & Hle & Hall). simpl in *.
      split; [tauto|]. split; [lra|]. constructor; [done|exact Hall].
    + destruct (IH best) as (Hin & Hle & Hall). simpl in *.
      split; [tauto|]. split; [done|]. constructor; [simpl; lra|exact Hall].
Qed.

Section PredictFacts.
Context (L : PyLib).

(** The confidence that [predict_with_confidence] returns for a fitted
    classifier is the largest entry of the table it returns: in the rule
    branch because every rule confidence is at least 0.78, in the Naive
    Bayes branch because the label is the one of greatest log score. *)
Theorem predict_confidence_is_greatest (m : NGramNaiveBayesClassifier) (text : str)
    (l : Label) (c : R) (probs : list (Label * R)) :
  labels m = LABELS -> (0 < alpha m)%R ->
  predict_with_confidence L m text = Some (l, c, probs) ->
  Forall (fun kv => (snd kv <= c)%R) probs.
Proof.
  intros Hlab Ha. unfold predict_with_confidence.
  destruct (_is_fit m); [|discriminate]. rewrite Hlab. cbn [negb].
  destruct (rule_based_label L text) as [[l' q]|] eqn:Hrule.
  - apply rule_confidence_floor in Hrule. intros [= <- <- <-].
    assert (Rmax 0 (1 - Q2R q) = 1 - Q2R q)%R as -> by (apply Rmax_right; lra).
    destruct l'; cbn; replace (1 + 1 + 1 + 1 + 1)%R with 5%R by lra;
      rewrite !Forall_cons, Forall_nil; cbn; repeat split; lra.
  - cbn [fold_left LABELS].
    destruct (log_prior_defined m title Ha) as [p1 ->],
      (log_likelihood_defined m title (extract_features L text) Ha) as [l1 ->].
    destruct (log_prior_defined m ingredient Ha) as [p2 ->],
      (log_likelihood_defined m ingredient (extract_features L text) Ha) as [l2 ->].
    destruct (log_prior_defined m step Ha) as [p3 ->],
      (log_likelihood_defined m step (extract_features L text) Ha) as [l3 ->].
    destruct (log_prior_defined m note Ha) as [p4 ->],
      (log_likelihood_defined m note (extract_features L text) Ha) as [l4 ->].
    destruct (log_prior_defined m header Ha) as [p5 ->],
      (log_likelihood_defined m header (extract_features L text) Ha) as [l5 ->].
    destruct (log_prior_defined m junk Ha) as [p6 ->],
      (log_likelihood_defined m junk (extract_features L text) Ha) as [l6 ->].
    cbn [mbind option_bind dict_set label_eqb].
    unfold argmax. cbn [mbind option_bind].
    match goal with
    | |- context [argmax_from ?kv ?d] =>
        destruct (argmax_from_max kv d) as (Hin & Hfirst & Hrest);
        destruct (argmax_from kv d) as [best max_log]
    end.
    cbn [snd] in Hfirst, Hrest.
    rewrite !Forall_cons, Forall_nil in Hrest. cbn [snd] in Hrest.
    destruct Hrest as (H2 & H3 & H4 & H5 & H6 & _).
    match goal with
    | |- context [Req_dec_T ?t 0] => set (total := t)
    end.
    assert (0 < total)%R as Hpos.
    { subst total. cbn [List.map snd]. rewrite !sum_R_cons. unfold sum_R. cbn [fold_left].
      pose proof (exp_pos (p1 + l1 - max_log)). pose proof (exp_pos (p2 + l2 - max_log)).
      pose proof (exp_pos (p3 + l3 - max_log)). pose proof (exp_pos (p4 + l4 - max_log)).
      pose proof (exp_pos (p5 + l5 - max_log)). pose proof (exp_pos (p6 + l6 - max_log)).
      lra. }
    destruct (Req_dec_T total 0) as [E|_]; [lra|]. clearbody total.
    assert (Hexp : forall s : R, (s <= max_log)%R -> (exp (s - max_log) / total <= 1 / total)%R).
    { intros s Hs. apply Rmult_le_compat_r; [apply Rlt_le, Rinv_0_lt_compat, Hpos|].
      rewrite <- exp_0. destruct (Req_dec_T (s - max_log) 0) as [->|Hne]; [lra|].
      apply Rlt_le, exp_increasing. lra. }
    assert (Hbest : forall s : R, s = max_log -> (exp (s - max_log) / total = 1 / total)%R).
    { intros s ->. by rewrite Rminus_diag, exp_0. }
    cbn [List.map]. cbn [In] in Hin.
    destruct Hin as [Hin|[Hin|[Hin|[Hin|[Hin|[Hin|[]]]]]]];
      injection Hin as <- Hm; cbn [dict_get label_eqb mbind option_bind];
      intros [= <- <- <-]; rewrite (Hbest _ Hm);
      rewrite !Forall_cons, Forall_nil; cbn [snd]; repeat split;
      first [lra | apply Hexp; lra].
Qed.
End PredictFacts.

Lemma predict_confidence_is_greatest_witness :
  exists (l : Label) (c : R) (probs : list (Label * R)),
    predict_with_confidence latin1 untrained (py "Lemon Bars") = Some (l, c, probs) /\
    Forall (fun kv => (snd kv <= c)%R) probs.
Proof.
  destruct (predict_rule latin1 untrained (py "Lemon Bars") title 0.78%Q eq_refl)
    as [probs Hp]; [vm_compute; reflexivity|].
  exists title, (Q2R 0.78), probs. split; [exact Hp|].
  apply (predict_confidence_is_greatest latin1 untrained (py "Lemon Bars") title _ probs).
  - reflexivity.
  - cbn. lra.
  - exact Hp.
Defined.

(** ** The section tracker: what every pass keeps *)

Section TrackerMore.
Context (L : PyLib) (model : str -> option (Label * R * list (Label * R))).

Lemma track_row_identity (st : tracker) (row : LineRow) (st' : tracker)
    (p : ClassificationPrediction) :
  track_row L model st row = Some (st', p) -> prediction_identity p = row_identity row.
Proof.
  unfold track_row. destruct (model (text row)) as [[[lbl c] probs]|]; [|discriminate].
  cbn [mbind option_bind]. repeat case_match; intros [= <- <-]; reflexivity.
Qed.

Lemma track_row_defined (st : tracker) (row : LineRow) :
  is_Some (model (text row)) -> is_Some (track_row L model st row).
Proof.
  intros [[[lbl c] probs] Hm]. unfold track_row. rewrite Hm.
  cbn [mbind option_bind]. repeat case_match; by eexists.
Qed.

Lemma run_loop_identity (rows : list LineRow) (st : tracker) :
  Forall (fun row => is_Some (model (text row))) rows ->
  exists st' ps, run_loop L model st rows = Some (st', ps) /\
                 List.map prediction_identity ps = List.map row_identity rows.
Proof.
  intros Hall. revert st. induction Hall as [|row rows Hrow _ IH]; intros st; simpl.
  - by exists st, [].
  - destruct (track_row_defined st row Hrow) as [[st1 p] Ht]. rewrite Ht.
    cbn [mbind option_bind].
    destruct (IH st1) as (st2 & ps & -> & Hps). cbn [mbind option_bind].
    exists st2, (p :: ps). split; [done|]. cbn [List.map].
    by rewrite Hps, (track_row_identity st row st1 p Ht).
Qed.

(** When the classifier answers on every row, [run_predictions] returns
    exactly one prediction per row, in the order of (document, line index),
    each carrying the document id, the line index and the gold label of its
    row. *)
Theorem run_predictions_one_per_row (rows : list LineRow) :
  Forall (fun row => is_Some (model (text row))) rows ->
  exists ps : list ClassificationPrediction,
    run_predictions L model rows = Some ps /\
    List.map prediction_identity ps = List.map row_identity (sorted row_leb rows).
Proof.
  intros Hall. unfold run_predictions.
  destruct (run_loop_identity (sorted row_leb rows) tracker_start) as (st & ps & -> & Hps).
  - apply Forall_forall. intros row Hin. rewrite (sorted_perm row_leb rows) in Hin.
    by apply (proj1 (Forall_forall _ _) Hall).
  - by exists ps.
Qed.

(** The first line of a document, when it comes first in its document and
    is not a section header, is emitted as the title whatever the classifier
    predicted. *)
Theorem first_line_is_title (st : tracker) (row : LineRow)
    (lbl : Label) (c : R) (probs : list (Label * R)) :
  looks_like_note_header L [] = false ->
  same_doc (doc_id row) (previous_doc_id st) = false ->
  line_index row = 0%Z ->
  _header_section_from_text L (text row) = None ->
  model (text row) = Some (lbl, c, probs) ->
  exists (st' : tracker) (p : ClassificationPrediction),
    track_row L model st row = Some (st', p) /\
    predicted p = title /\
    (lbl <> title -> (0.88 <= confidence p)%R) /\
    previous_doc_id st' = Some (doc_id row) /\ current_section st' = None.
Proof.
  intros Hempty Hdoc Hidx Hsec Hmodel. unfold track_row.
  rewrite Hdoc, Hmodel, Hidx, Hsec.
  cbn [mbind option_bind previous_line_text current_section previous_doc_id].
  rewrite Hempty. cbn [Z.eqb Z.ltb Z.compare matched negb andb section_is].
  destruct lbl; cbn; (do 2 eexists; split; [reflexivity|]; cbn;
    repeat split; try done; intros _; apply Rmax_r).
Qed.
End TrackerMore.

Lemma run_predictions_one_per_row_witness :
  exists ps : list ClassificationPrediction,
    run_predictions latin1 always_ingredient notes_then_header = Some ps /\
    List.map prediction_identity ps
    = List.map row_identity (sorted row_leb notes_then_header).
Proof.
  apply (run_predictions_one_per_row latin1 always_ingredient notes_then_header).
  repeat (apply List.Forall_cons; [by eexists|]). apply List.Forall_nil.
Defined.

Lemma first_line_is_title_witness :
  exists (st' : tracker) (p : ClassificationPrediction),
    track_row latin1 always_ingredient tracker_start (sample_row 0 "Lemon Bars")
      = Some (st', p) /\
    predicted p = title.
Proof.
  destruct (first_line_is_title latin1 always_ingredient tracker_start
              (sample_row 0 "Lemon Bars") ingredient 1%R [])
    as (st' & p & Ht & Hp & _).
  - vm_compute. reflexivity.
  - reflexivity.
  - reflexivity.
  - vm_compute. reflexivity.
  - reflexivity.
  - exists st', p. split; [exact Ht|exact Hp].
Defined.


(** ** regression_metrics.py: the report *)

Lemma ratio_Q_bounds (n d : nat) : n <= d -> 0 < d -> (0 <= ratio_Q n d <= 1)%Q.
Proof.
  intros Hn Hd. unfold ratio_Q. rewrite Qred_correct.
  exact (count_ratio_bounds n d Hn Hd).
Qed.

Lemma filter_length_le {A : Type} (f : A -> bool) (l : list A) :
  length (List.filter f l) <= length l.
Proof. induction l as [|x l IH]; simpl; [lia|]. destruct (f x); simpl; lia. Qed.

Lemma fold_left_Qplus_bounds (l : list Q) (a : Q) :
  Forall (fun v => (0 <= v <= 1)%Q) l ->
  (a <= fold_left Qplus l a <= a + inject_Z (Z.of_nat (length l)))%Q.
Proof.
  intros Hall. revert a.
  induction Hall as [|v vs [Hv0 Hv1] _ IH]; intros a; cbn [fold_left length].
  - change (inject_Z (Z.of_nat 0)) with 0%Q. split; Lqa.lra.
  - destruct (IH (a + v)%Q) as [IH0 IH1].
    rewrite Nat2Z.inj_succ, <- Z.add_1_r, inject_Z_plus.
    change (inject_Z 1) with 1%Q. split; Lqa.lra.
Qed.

Lemma mean_Q_bounds (l : list Q) :
  l <> [] -> Forall (fun v => (0 <= v <= 1)%Q) l -> (0 <= mean_Q l <= 1)%Q.
Proof.
  intros Hne Hall. unfold mean_Q. rewrite Qred_correct.
  destruct (fold_left_Qplus_bounds l 0 Hall) as [H0 H1]. rewrite Qplus_0_l in H1.
  assert (0 < inject_Z (Z.of_nat (length l)))%Q as Hpos.
  { replace 0%Q with (inject_Z 0) by reflexivity. rewrite <- Zlt_Qlt.
    destruct l; [done|]. cbn [length]. lia. }
  split.
  - apply Qle_shift_div_l; [done|]. by rewrite Qmult_0_l.
  - apply Qle_shift_div_r; [done|]. by rewrite Qmult_1_l.
Qed.

Section RegressionReportFacts.
Context (L : PyLib) (model : str -> option (Label * R * list (Label * R))).

Lemma _score_case_bounds (fixture : RegressionFixture) (exact : bool) (leak swap score : Q) :
  _score_case L model fixture = Some (exact, leak, swap, score) ->
  (0 <= leak <= 1)%Q /\ (0 <= swap <= 1)%Q /\ (0 <= score <= 1)%Q.
Proof.
  unfold _score_case.
  destruct (score_lines L model _ false ([], [], [])) as [[[ings stps] nts]|]; [|discriminate].
  cbn [mbind option_bind]. intros [= <- <- <- <-].
  split; [|split].
  - destruct (List.map (_normalize L) (expected_notes_contains fixture)) as [|n ns] eqn:E;
      [split; discriminate|].
    rewrite <- E. apply ratio_Q_bounds; [|lia].
    etransitivity; [apply filter_length_le|lia].
  - apply ratio_Q_bounds; [|lia].
    match goal with
    | |- length (List.filter ?f ?a) + length (List.filter ?g ?b) <= _ =>
        pose proof (filter_length_le f a); pose proof (filter_length_le g b)
    end.
    lia.
  - match goal with |- context [if ?b then _ else _] => destruct b end; split; discriminate.
Qed.

Lemma score_fixtures_bounds (fixtures : list RegressionFixture) (scores : list (Q * Q * Q)) :
  score_fixtures L model fixtures = Some scores ->
  length scores = length fixtures /\
  Forall (fun s => (0 <= fst (fst s) <= 1)%Q /\ (0 <= snd (fst s) <= 1)%Q
                   /\ (0 <= snd s <= 1)%Q) scores.
Proof.
  revert scores. induction fixtures as [|fixture rest IH]; intros scores; simpl.
  - intros [= <-]. split; [done|constructor].
  - destruct (_score_case L model fixture) as [[[[exact leak] swap] score]|] eqn:Hs;
      [|discriminate].
    cbn [mbind option_bind].
    destruct (score_fixtures L model rest) as [rest_scores|]; [|discriminate].
    cbn [mbind option_bind]. intros [= <-].
    destruct (IH rest_scores eq_refl) as [Hlen Hall].
    apply _score_case_bounds in Hs as (Hl & Hw & Hx).
    split; [cbn; lia|]. constructor; [cbn; tauto|exact Hall].
Qed.

(** Whenever the harness prints a report, the report counts every fixture
    and its three rates (exact match, note leakage, ingredient/step swap)
    lie between 0 and 1; it prints none for an empty fixture set, which ends
    the script with [SystemExit]. *)
Theorem regression_report_bounds (fixtures : list RegressionFixture) (o : outcome)
    (report : RegressionReport) :
  main L model fixtures = (o, Some report) ->
  fixtures <> [] /\
  fixture_count report = length fixtures /\
  (0 <= exact_match_rate report <= 1)%Q /\
  (0 <= note_leakage_rate report <= 1)%Q /\
  (0 <= ingredient_step_swap_rate report <= 1)%Q.
Proof.
  unfold main. destruct fixtures as [|f fs]; [discriminate|].
  destruct (score_fixtures L model (f :: fs)) as [scores|] eqn:Hs; [|discriminate].
  intros [= _ <-]. cbn [fixture_count exact_match_rate note_leakage_rate
                           ingredient_step_swap_rate].
  apply score_fixtures_bounds in Hs as [Hlen Hall].
  assert (scores <> []) as Hne by (destruct scores; [cbn in Hlen; lia|done]).
  split; [done|]. split; [done|].
  repeat split; apply mean_Q_bounds;
    try (by destruct scores);
    apply Forall_map; (eapply Forall_impl; [exact Hall|]); cbn; tauto.
Qed.
End RegressionReportFacts.

Lemma regression_report_bounds_witness :
  exists report : RegressionReport,
    main latin1 always_ingredient [swapped_fixture] = (Exit 1, Some report) /\
    (0 <= ingredient_step_swap_rate report <= 1)%Q.
Proof.
  eexists. split; [exact swapped_fixture_main|].
  exact (proj2 (proj2 (proj2 (proj2
           (regression_report_bounds latin1 always_ingredient [swapped_fixture] (Exit 1) _
              swapped_fixture_main))))).
Defined.


(** ** evaluate_line_classifier.py and the thresholds of the gate *)

Section EvaluateFacts.
Context (L : PyLib) (model : str -> option (Label * R * list (Label * R))).

Lemma run_loop_length (rows : list LineRow) (st st' : tracker)
    (ps : list ClassificationPrediction) :
  run_loop L model st rows = Some (st', ps) -> length ps = length rows.
Proof.
  revert st st' ps. induction rows as [|row rows IH]; intros st st' ps; simpl.
  - by intros [= <- <-].
  - destruct (track_row L model st row) as [[st1 p]|]; [|discriminate].
    cbn [mbind option_bind].
    destruct (run_loop L model st1 rows) as [[st2 ps']|] eqn:E; [|discriminate].
    cbn [mbind option_bind]. intros [= <- <-]. cbn. f_equal. by apply (IH st1 st2).
Qed.




(** A classifier whose every emitted label is the gold label of its row
    passes the thresholds of the evaluation, on any non-empty set of rows:
    the script exits with 0 and reports a macro F1 over the present labels
    of 1 and an ingredient/step confusion rate of 0. *)
Theorem perfect_classifier_passes (rows : list LineRow)
    (ps : list ClassificationPrediction) :
  rows <> [] ->
  run_predictions L model rows = Some ps ->
  Forall (fun p => label_of_str (gold p) = Some (predicted p)) ps ->
  exists metrics : MetricsReport,
    evaluate_main L model rows None false = (Exit 0, Some metrics) /\
    (macro_f1_present_labels metrics == 1)%Q /\
    (ingredient_step_confusion_rate metrics == 0)%Q.
Proof.
  intros Hne Hrun Hall. unfold evaluate_main.
  destruct rows as [|r rs] eqn:Erows; [done|]. rewrite <- Erows in *. rewrite Hrun.
  assert (ps <> []) as Hps.
  { unfold run_predictions in Hrun.
    destruct (run_loop L model tracker_start (sorted row_leb rows)) as [[st qs]|] eqn:E;
      [|discriminate].
    cbn in Hrun. injection Hrun as <-. apply run_loop_length in E.
    pose proof (Permutation_length (sorted_perm row_leb rows)) as Hl.
    subst rows. cbn [length] in Hl. rewrite Hl in E. destruct qs; [discriminate|done]. }
  assert (is_Some (compute_metrics ps)) as [m Hm].
  { apply compute_metrics_defined. eapply Forall_impl; [exact Hall|].
    intros p Hp. rewrite Hp. by eexists. }
  rewrite Hm.
  destruct (compute_metrics_perfect ps m Hm Hps Hall) as (Hmacro & Hrate & Hclass).
  exists m. split; [|by split]. f_equal. f_equal.
  unfold macro_ok, note_recall_ok, confusion_ok.
  assert (Qle_bool 0.88 (macro_f1_present_labels m) = true) as ->
    by (apply Qle_bool_iff; rewrite Hmacro; discriminate).
  assert (Qle_bool (ingredient_step_confusion_rate m) 0.08 = true) as ->
    by (apply Qle_bool_iff; rewrite Hrate; discriminate).
  destruct (Nat.ltb_spec 0 (support (per_class m note))) as [Hs|Hs]; [|reflexivity].
  destruct (Hclass note Hs) as (_ & Hr & _).
  assert (Qle_bool 0.85 (recall (per_class m note)) = true) as ->
    by (apply Qle_bool_iff; rewrite Hr; discriminate).
  reflexivity.
Qed.
End EvaluateFacts.


Lemma two_rows_predictions :
  exists c0 c1 : R,
    run_predictions latin1 always_ingredient two_rows
    = Some [ {| cp_doc_id := py "a"; cp_line_index := 0; gold := py "title";
                predicted := title; confidence := c0 |};
             {| cp_doc_id := py "a"; cp_line_index := 1; gold := py "ingredient";
                predicted := ingredient; confidence := c1 |} ].
Proof.
  do 2 eexists.
  unfold run_predictions.
  replace (sorted row_leb two_rows) with two_rows by (vm_compute; reflexivity).
  unfold two_rows. cbn [run_loop]. unfold track_row.
  cbn [doc_id line_index text label previous_doc_id previous_line_text current_section
       tracker_start].
  eval_strings. cbn [previous_doc_id previous_line_text current_section].
  unfold always_ingredient. cbn. eval_strings. cbn. reflexivity.
Qed.

Lemma perfect_classifier_passes_witness :
  exists metrics : MetricsReport,
    evaluate_main latin1 always_ingredient two_rows None false = (Exit 0, Some metrics) /\
    (macro_f1_present_labels metrics == 1)%Q /\
    (ingredient_step_confusion_rate metrics == 0)%Q.
Proof.
  destruct two_rows_predictions as (c0 & c1 & Hrun).
  apply (perfect_classifier_passes latin1 always_ingredient two_rows _ ltac:(discriminate) Hrun).
  repeat (apply List.Forall_cons; [vm_compute; reflexivity|]). apply List.Forall_nil.
Defined.

(** The gate of the metrics pipeline passes exactly when the three scripts
    returned 0, both reports could be read, and the five thresholds hold on
    them: macro F1 over the present labels at least 0.88, note recall at
    least 0.85 when there are notes, ingredient/step confusion at most 0.08,
    regression note leakage at most 0.05 and regression swap rate at most
    0.08.  A missing report fails the gate. *)
Theorem metrics_pipeline_gate (eval_rc fixed_holdout_rc reg_rc : Z)
    (eval_metrics : option MetricsReport) (regression_metrics : option RegressionReport) :
  metrics_pipeline_ok eval_rc fixed_holdout_rc reg_rc eval_metrics regression_metrics = true
  <->
  eval_rc = 0%Z /\ fixed_holdout_rc = 0%Z /\ reg_rc = 0%Z /\
  exists (metrics : MetricsReport) (report : RegressionReport),
    eval_metrics = Some metrics /\ regression_metrics = Some report /\
    (0.88 <= macro_f1_present_labels metrics)%Q /\
    (0 < support (per_class metrics note) -> (0.85 <= recall (per_class metrics note))%Q) /\
    (ingredient_step_confusion_rate metrics <= 0.08)%Q /\
    (note_leakage_rate report <= 0.05)%Q /\
    (ingredient_step_swap_rate report <= 0.08)%Q.
Proof.
  unfold metrics_pipeline_ok, _metrics_thresholds.
  destruct eval_metrics as [m|], regression_metrics as [r|]; cbn [th_overall];
    rewrite ?andb_false_r;
    [|split; [discriminate|intros (_ & _ & _ & m' & r' & H1 & H2 & _); discriminate]..].
  rewrite !andb_true_iff, !Z.eqb_eq, !Qle_bool_iff.
  assert (Hn : (if Nat.ltb 0 (support (per_class m note))
                then Qle_bool 0.85 (recall (per_class m note)) else true) = true <->
               (0 < support (per_class m note) -> (0.85 <= recall (per_class m note))%Q)).
  { destruct (Nat.ltb_spec 0 (support (per_class m note))) as [Hs|Hs].
    - rewrite Qle_bool_iff. tauto.
    - split; [intros _ Hpos; lia|done]. }
  rewrite Hn. split.
  - intros [[[He Hr] Hf] [[[[Hm Hnote] Hc] Hl] Hs]].
    split; [done|]. split; [done|]. split; [done|]. exists m, r. tauto.
  - intros (He & Hf & Hr & m' & r' & H1 & H2 & Hm & Hnote & Hc & Hl & Hs).
    injection H1 as <-. injection H2 as <-. tauto.
Qed.

(** ** Saved cases *)

Lemma startswith_app (p x : str) : startswith (p ++ x) p = true.
Proof.
  induction p as [|c p IH]; [by destruct x|]. simpl.
  unfold char_eqb. by rewrite N.eqb_refl, IH.
Qed.

Lemma mem_str_in (x : str) (xs : list str) : mem_str x xs = true -> In x xs.
Proof.
  unfold mem_str. intros H. apply existsb_exists in H as (y & Hin & Heq).
  apply str_eqb_eq in Heq. by subst.
Qed.

Section SavedCasesFacts.
Context (L : PyLib).

(** The save kind is always one of the four kinds, unknown values becoming
    "train"; and a case whose source type is a failure type, or whose save
    kind is not "train", is stored under an id that starts with "holdout_",
    which is the prefix the training run excludes. *)
Theorem holdout_cases_are_prefixed (case_id source_type save_kind : str) :
  In (_normalized_save_kind L save_kind) SAVE_KINDS /\
  (mem_str (py_lower L (strip L source_type)) FAILURE_SOURCE_TYPES = true \/
   _normalized_save_kind L save_kind <> py "train" ->
   startswith (_effective_case_id L case_id source_type save_kind) HOLDOUT_DOC_PREFIX = true /\
   (strip L HOLDOUT_DOC_PREFIX = HOLDOUT_DOC_PREFIX ->
    _matches_prefix L (_effective_case_id L case_id source_type save_kind)
      [HOLDOUT_DOC_PREFIX] = true)).
Proof.
  assert (Hkind : In (_normalized_save_kind L save_kind) SAVE_KINDS).
  { unfold _normalized_save_kind.
    destruct (mem_str _ SAVE_KINDS) eqn:E; [by apply mem_str_in|]. by left. }
  split; [exact Hkind|]. intros Hreq.
  assert (Hstart : startswith (_effective_case_id L case_id source_type save_kind)
                     HOLDOUT_DOC_PREFIX = true).
  { unfold _effective_case_id.
    assert (mem_str (py_lower L (strip L source_type)) FAILURE_SOURCE_TYPES
            || mem_str (_normalized_save_kind L save_kind) HOLDOUT_SAVE_KINDS = true) as ->.
    { destruct Hreq as [->|Hne]; [done|]. apply orb_true_iff. right.
      cbn in Hkind. destruct Hkind as [E|[E|[E|[E|[]]]]]; rewrite <- E in *; done. }
    cbn [andb].
    destruct (startswith (strip L case_id) HOLDOUT_DOC_PREFIX) eqn:E; cbn [negb];
      [exact E|apply startswith_app]. }
  split; [exact Hstart|]. intros Hstrip.
  unfold _matches_prefix. cbn [existsb]. rewrite Hstrip, Hstart. reflexivity.
Qed.

(** [_normalize_case] returns as many labels as lines, every label being one
    of the six labels: missing labels are filled with "junk", surplus labels
    are cut, unknown labels become "junk"; the lines are returned as given. *)
Theorem normalize_case_aligned (lines labels : option (list str)) :
  let '(normalized_lines, normalized_labels) := _normalize_case L lines labels in
  normalized_lines = match lines with Some items => items | None => [] end /\
  length normalized_labels = length normalized_lines /\
  Forall (fun label_ => is_Some (label_of_str label_)) normalized_labels.
Proof.
  unfold _normalize_case.
  set (ls := match lines with Some items => items | None => [] end).
  set (mapped := match labels with Some items => List.map _ items | None => [] end).
  assert (Hvalid : Forall (fun label_ => is_Some (label_of_str label_)) mapped).
  { subst mapped. destruct labels as [items|]; [|constructor].
    apply Forall_map, Forall_forall. intros label_ _.
    destruct (mem_str _ (List.map label_name LABELS)) eqn:E; [|by eexists].
    apply mem_str_in, in_map_iff in E as (l & <- & _).
    rewrite label_of_str_name. by eexists. }
  clearbody mapped. split; [done|].
  destruct (Nat.ltb_spec (length mapped) (length ls)) as [Hlt|Hge].
  - split; [rewrite length_app, repeat_length; lia|].
    apply Forall_app. split; [done|].
    apply Forall_forall. intros x Hx. apply list_elem_of_In, repeat_spec in Hx. subst.
    by eexists.
  - destruct (Nat.ltb_spec (length ls) (length mapped)) as [Hlt|Hge'].
    + split; [rewrite length_firstn; lia|]. by apply Forall_take.
    + split; [lia|done].
Qed.
End SavedCasesFacts.

Lemma holdout_cases_are_prefixed_witness :
  _effective_case_id latin1 (py "soup") (py "ocr_failure") [] = py "holdout_soup" /\
  _matches_prefix latin1 (_effective_case_id latin1 (py "soup") (py "ocr_failure") [])
    [HOLDOUT_DOC_PREFIX] = true.
Proof.
  split; [vm_compute; reflexivity|].
  apply (holdout_cases_are_prefixed latin1 (py "soup") (py "ocr_failure") []).
  - left. vm_compute. reflexivity.
  - vm_compute. reflexivity.
Defined.


(** ** lab_recipe.py: helpers of the page reader *)

Lemma escape_control_chars_idem (raw : str) (in_string escaped : bool) :
  escape_control_chars (escape_control_chars raw in_string escaped) in_string escaped
  = escape_control_chars raw in_string escaped.
Proof.
  revert in_string escaped. induction raw as [|ch rest IH]; intros in_string escaped; [done|].
  cbn [escape_control_chars].
  destruct in_string.
  - destruct escaped; [cbn [escape_control_chars]; by rewrite IH|].
    destruct (char_eqb ch (chr "\")) eqn:E1.
    { cbn [escape_control_chars]. rewrite E1. by rewrite IH. }
    destruct (char_eqb ch 34%N) eqn:E2.
    { cbn [escape_control_chars]. rewrite E1, E2. by rewrite IH. }
    destruct (char_eqb ch 10%N) eqn:E3.
    { cbn. by rewrite IH. }
    destruct (char_eqb ch 13%N) eqn:E4.
    { cbn. by rewrite IH. }
    destruct (char_eqb ch 9%N) eqn:E5.
    { cbn. by rewrite IH. }
    cbn [escape_control_chars]. rewrite E1, E2, E3, E4, E5. by rewrite IH.
  - cbn [escape_control_chars]. by rewrite IH.
Qed.

Lemma escape_control_chars_length (raw : str) (in_string escaped : bool) :
  length raw <= length (escape_control_chars raw in_string escaped).
Proof.
  revert in_string escaped. induction raw as [|ch rest IH]; intros in_string escaped; [done|].
  cbn [escape_control_chars].
  repeat case_match; cbn [length app py List.map list_ascii_of_string];
    match goal with
    | |- context [escape_control_chars rest ?a ?b] => specialize (IH a b)
    end; cbn; lia.
Qed.

Lemma escape_control_chars_clean (raw : str) (in_string escaped : bool) :
  Forall (fun ch => ch <> 10%N /\ ch <> 13%N /\ ch <> 9%N) raw ->
  escape_control_chars raw in_string escaped = raw.
Proof.
  intros Hall. revert in_string escaped.
  induction Hall as [|ch rest (H1 & H2 & H3) _ IH]; intros in_string escaped; [done|].
  cbn [escape_control_chars]. unfold char_eqb.
  destruct (N.eqb_spec ch 10); [done|]. destruct (N.eqb_spec ch 13); [done|].
  destruct (N.eqb_spec ch 9); [done|].
  repeat case_match; by rewrite IH.
Qed.

(** Escaping the control characters inside JSON strings is idempotent, never
    shortens the text, and leaves a text without line feed, carriage return
    and tab as it is. *)
Theorem escape_control_chars_stable (raw : str) :
  _escape_control_chars_in_json_strings (_escape_control_chars_in_json_strings raw)
    = _escape_control_chars_in_json_strings raw /\
  length raw <= length (_escape_control_chars_in_json_strings raw) /\
  (Forall (fun ch => ch <> 10%N /\ ch <> 13%N /\ ch <> 9%N) raw ->
   _escape_control_chars_in_json_strings raw = raw).
Proof.
  unfold _escape_control_chars_in_json_strings.
  split; [apply escape_control_chars_idem|].
  split; [apply escape_control_chars_length|apply escape_control_chars_clean].
Qed.

Section PageReaderFacts.
Context (L : PyLib).

Lemma unique_preserve_from_spec (items : list str) (seen : gset str) :
  let out := unique_preserve_from L seen items in
  sublist out items /\
  NoDup (List.map (py_casefold L) out) /\
  (forall item, item ∈ out -> py_casefold L item ∉ seen) /\
  (forall item, item ∈ items ->
     py_casefold L item ∈ seen \/ py_casefold L item ∈ List.map (py_casefold L) out).
Proof.
  revert seen. induction items as [|item rest IH]; intros seen; cbn [unique_preserve_from].
  - repeat split; [constructor|constructor|intros ? H; inversion H|intros ? H; inversion H].
  - destruct (decide (py_casefold L item ∈ seen)) as [Hin|Hnot].
    + destruct (IH seen) as (Hsub & Hnd & Hfresh & Hcov).
      split; [by apply sublist_cons|]. split; [done|]. split; [done|].
      intros x Hx. apply elem_of_cons in Hx as [->|Hx]; [by left|by apply Hcov].
    + destruct (IH (seen ∪ {[py_casefold L item]})) as (Hsub & Hnd & Hfresh & Hcov).
      split; [by apply sublist_skip|]. split; [|split].
      * cbn [List.map]. apply NoDup_cons. split; [|done].
        intros Hdup. apply list_elem_of_In, in_map_iff in Hdup as (y & Hy & Hyin).
        apply list_elem_of_In, Hfresh in Hyin. set_solver.
      * intros x Hx. apply elem_of_cons in Hx as [->|Hx]; [done|].
        apply Hfresh in Hx. set_solver.
      * intros x Hx. cbn [List.map].
        apply elem_of_cons in Hx as [->|Hx]; [right; set_solver|].
        destruct (Hcov x Hx) as [Hs|Ho]; [|right; set_solver].
        apply elem_of_union in Hs as [Hs|Hs]; [by left|right; set_solver].
Qed.

(** [_unique_preserve] keeps the first of the items that are equal up to
    case: its result is a sub-list of the input, in the input's order, no two
    of its items are equal up to case, and every item of the input is equal
    up to case to one that is kept. *)
Theorem unique_preserve_spec (items : list str) :
  sublist (_unique_preserve L items) items /\
  NoDup (List.map (py_casefold L) (_unique_preserve L items)) /\
  (forall item, item ∈ items ->
     exists kept, kept ∈ _unique_preserve L items /\ py_casefold L kept = py_casefold L item).
Proof.
  destruct (unique_preserve_from_spec items ∅) as (Hsub & Hnd & _ & Hcov).
  split; [exact Hsub|]. split; [exact Hnd|].
  intros item Hin. destruct (Hcov item Hin) as [Hs|Ho]; [set_solver|].
  apply list_elem_of_In, in_map_iff in Ho as (kept & Hk & Hkin).
  exists kept. split; [by apply list_elem_of_In|done].
Qed.

Lemma filter_nonempty_forall (lines : list str) :
  Forall (fun line => line <> [])
         (List.filter (fun line => negb (str_eqb line [])) lines).
Proof.
  apply Forall_forall. intros line Hin.
  apply list_elem_of_In, List.filter_In in Hin as [_ Hne]. by destruct line.
Qed.

(** [_normalize_lines] returns at most [max_lines] lines, none of them
    empty; it reports a truncation exactly when the text has more non-empty
    lines than that, and then returns exactly [max_lines] lines. *)
Theorem normalize_lines_bounded (text_ : str) (max_lines : nat) :
  let '(lines, truncated) := _normalize_lines L text_ max_lines in
  length lines <= max_lines /\
  Forall (fun line => line <> []) lines /\
  (truncated = true ->
   length lines = max_lines /\
   max_lines < length (List.filter (fun line => negb (str_eqb line []))
                         (List.map (strip L) (splitlines text_)))) /\
  (truncated = false ->
   lines = List.filter (fun line => negb (str_eqb line []))
             (List.map (strip L) (splitlines text_))).
Proof.
  unfold _normalize_lines.
  pose proof (filter_nonempty_forall (List.map (strip L) (splitlines text_))) as Hne.
  set (lines := List.filter _ _) in *. clearbody lines.
  destruct (Nat.ltb_spec max_lines (length lines)) as [Hlt|Hge].
  - split; [rewrite length_firstn; lia|]. split; [by apply Forall_take|].
    split; [intros _; split; [rewrite length_firstn; lia|done]|discriminate].
  - split; [done|]. split; [done|]. split; [discriminate|done].
Qed.
End PageReaderFacts.


(** ** lab_recipe.py: the ingredient parser *)

Lemma Qltb_lt (a b : Q) : Qltb a b = true <-> (a < b)%Q.
Proof.
  unfold Qltb. rewrite negb_true_iff. apply Qle_bool_false.
Qed.

Lemma Qltb_ge (a b : Q) : Qltb a b = false <-> (b <= a)%Q.
Proof. unfold Qltb. rewrite negb_false_iff. apply Qle_bool_iff. Qed.

Lemma round_half_even_mono (x y : Q) :
  (x <= y)%Q -> (round_half_even x <= round_half_even y)%Z.
Proof.
  intros Hxy. pose proof (Qfloor_resp_le x y Hxy) as Hfloor.
  pose proof (Qfloor_le x) as Hx0. pose proof (Qlt_floor x) as Hx1.
  pose proof (Qfloor_le y) as Hy0. pose proof (Qlt_floor y) as Hy1.
  unfold round_half_even.
  destruct (Z.eq_dec (Qfloor x) (Qfloor y)) as [E|N].
  - rewrite E in *.
    set (z := Qfloor y) in *. clearbody z.
    destruct (Qltb (x - inject_Z z) (1 # 2)) eqn:A1;
      destruct (Qltb (1 # 2) (x - inject_Z z)) eqn:A2;
      destruct (Qltb (y - inject_Z z) (1 # 2)) eqn:B1;
      destruct (Qltb (1 # 2) (y - inject_Z z)) eqn:B2;
      destruct (Z.even z);
      try lia;
      rewrite ?Qltb_lt, ?Qltb_ge in *; exfalso; Lqa.lra.
  - repeat match goal with |- context [if ?b then _ else _] => destruct b end; lia.
Qed.

Lemma round4_fin_mono (x y : Q) :
  (x <= y)%Q -> fltb (round4 (Fin y)) (round4 (Fin x)) = false.
Proof.
  intros Hxy. cbn. apply Qltb_ge. unfold fin. rewrite !Qred_correct.
  apply Qmult_le_compat_r; [|discriminate].
  rewrite <- Zle_Qle. apply round_half_even_mono. Lqa.lra.
Qed.

Lemma round4_ordered (a b : pyfloat) :
  fltb (round4 (fmax a b)) (round4 (fmin a b)) = false.
Proof.
  unfold fmin, fmax.
  destruct a as [x| | |], b as [y| | |]; cbn [fltb]; try reflexivity;
    try (apply round4_fin_mono; apply Qle_refl).
  destruct (Qltb y x) eqn:E1; destruct (Qltb x y) eqn:E2; apply round4_fin_mono.
  - apply Qle_refl.
  - apply Qltb_lt in E1. Lqa.lra.
  - apply Qltb_lt in E2. Lqa.lra.
  - apply Qle_refl.
Qed.

Lemma assoc_str_in {V : Type} (k : str) (d : list (str * V)) (v : V) :
  assoc_str k d = Some v -> In v (List.map snd d).
Proof.
  induction d as [|[k' v'] d IH]; simpl; [discriminate|].
  destruct (str_eqb k' k); [intros [= ->]; by left|auto].
Qed.

Section RangeOrder.
Context (L : PyLib).

(** Whenever the range parser answers, it gives one quantity with an upper
    value that is not below its value, no additional quantities and no
    note. *)
Theorem range_quantity_ordered (cleaned : str) (name : str) (quantity : option Quantity)
    (additional : list Quantity) (note_ : option str) :
  _parse_range_ingredient L cleaned = Some (name, quantity, additional, note_) ->
  additional = [] /\ note_ = None /\
  exists (q : Quantity) (upper : pyfloat),
    quantity = Some q /\ q_upperValue q = Some upper /\ fltb upper (q_value q) = false.
Proof.
  unfold _parse_range_ingredient.
  destruct (re_match (range_pattern L) cleaned) as [m|]; [|discriminate].
  destruct (_parse_quantity_value L (strip L (group_or_empty m 1))) as [lo|]; [|discriminate].
  destruct (_parse_quantity_value L (strip L (group_or_empty m 2))) as [hi|]; [|discriminate].
  destruct (str_eqb (_clean_text L (group_or_empty m 4)) []); [discriminate|].
  destruct (match _parse_unit_token L (strip L (group_or_empty m 3)) with
            | Some u => _
            | None => _
            end) as [name' unit'].
  intros [= <- <- <- <-]. split; [done|]. split; [done|].
  do 2 eexists. split; [reflexivity|]. split; [reflexivity|]. apply round4_ordered.
Qed.
End RangeOrder.

Lemma range_quantity_ordered_witness :
  exists (q : Quantity) (upper : pyfloat),
    Some {| q_value := Fin 3; q_upperValue := Some (Fin 4); q_unit := py "clove" |} = Some q /\
    q_upperValue q = Some upper /\ fltb upper (q_value q) = false.
Proof.
  destruct (range_quantity_ordered latin1 garlic (py "garlic, minced")
              (Some {| q_value := Fin 3; q_upperValue := Some (Fin 4); q_unit := py "clove" |})
              [] None) as (_ & _ & H).
  - vm_compute. reflexivity.
  - exact H.
Defined.

(** With the Latin-1 tables, unit normalisation is idempotent: a unit that
    [_parse_unit_token] returns for any token is one it maps to itself. *)
Theorem parse_unit_token_idempotent (token unit : str) :
  _parse_unit_token latin1 token = Some unit ->
  _parse_unit_token latin1 unit = Some unit.
Proof.
  intros H.
  assert (Hin : In unit canonical_units).
  { revert H. unfold _parse_unit_token.
    destruct (str_eqb _ (py "T")); [intros [= <-]; by left|].
    intros H. right. exact (assoc_str_in _ _ _ H). }
  assert (Hall : forallb (fun u => match _parse_unit_token latin1 u with
                                   | Some u' => str_eqb u' u
                                   | None => false
                                   end) canonical_units = true)
    by (vm_compute; reflexivity).
  rewrite forallb_forall in Hall. specialize (Hall unit Hin).
  destruct (_parse_unit_token latin1 unit) as [u'|]; [|discriminate].
  apply str_eqb_eq in Hall. by subst.
Qed.

Lemma parse_unit_token_idempotent_witness :
  _parse_unit_token latin1 (py "clove") = Some (py "clove").
Proof.
  apply (parse_unit_token_idempotent (py "Cloves,") (py "clove")).
  vm_compute. reflexivity.
Defined.

(** ** lab_recipe.py: the shape of the assembled recipe *)

Lemma reindex_spec (items : list StepEntry) (idx : nat) :
  List.map step_index (reindex idx items) = List.seq idx (length items) /\
  length (reindex idx items) = length items /\
  List.map step_text (reindex idx items) = List.map step_text items /\
  List.map step_section (reindex idx items) = List.map step_section items.
Proof.
  revert idx. induction items as [|item rest IH]; intros idx; simpl; [done|].
  destruct (IH (S idx)) as (H1 & H2 & H3 & H4). by rewrite H1, H2, H3, H4.
Qed.

Lemma section_append_spec (key item : str) (sections : list (str * list str)) :
  NoDup (List.map fst sections) ->
  NoDup (List.map fst (section_append key item sections)) /\
  fold_right Nat.add 0 (List.map (fun kv => length (snd kv)) (section_append key item sections))
  = S (fold_right Nat.add 0 (List.map (fun kv => length (snd kv)) sections)) /\
  (forall k, k ∈ List.map fst (section_append key item sections) ->
     k = key \/ k ∈ List.map fst sections).
Proof.
  induction sections as [|[k items] rest IH]; simpl; intros Hnd.
  - split; [apply NoDup_singleton|]. split; [done|]. set_solver.
  - apply NoDup_cons in Hnd as [Hk Hrest].
    destruct (str_eqb k key) eqn:E; simpl.
    + split; [by apply NoDup_cons|]. split; [rewrite length_app; simpl; lia|]. set_solver.
    + destruct (IH Hrest) as (H1 & H2 & H3).
      split; [|split; [lia|set_solver]].
      apply NoDup_cons. split; [|done]. intros Hin. apply H3 in Hin as [->|Hin]; [|done].
      rewrite str_eqb_refl in E. discriminate.
Qed.

Section RecipeShape.
Context (L : PyLib).

Lemma section_index_spec {A : Type} (sec : A -> option str) (item_text : A -> str)
    (items : list A) :
  NoDup (List.map fst (section_index L sec item_text items)) /\
  fold_right Nat.add 0
    (List.map (fun kv => length (snd kv)) (section_index L sec item_text items))
  = length items.
Proof.
  unfold section_index.
  cut (forall acc : list (str * list str),
         NoDup (List.map fst acc) ->
         NoDup (List.map fst (fold_left
                  (fun acc item => section_append (section_key (sec item))
                                     (strip L (item_text item)) acc) items acc)) /\
         fold_right Nat.add 0
           (List.map (fun kv => length (snd kv))
              (fold_left (fun acc item => section_append (section_key (sec item))
                                            (strip L (item_text item)) acc) items acc))
         = fold_right Nat.add 0 (List.map (fun kv => length (snd kv)) acc) + length items).
  { intros H. destruct (H [] (NoDup_nil_2)) as [H1 H2]. by split. }
  induction items as [|item rest IH]; intros acc Hnd; simpl; [split; [done|lia]|].
  destruct (section_append_spec (section_key (sec item)) (strip L (item_text item)) acc Hnd)
    as (H1 & H2 & _).
  destruct (IH _ H1) as [H3 H4]. split; [done|]. rewrite H4, H2. lia.
Qed.

Lemma sections_out_total (sections : list (str * list str)) :
  items_total (sections_out sections)
  = fold_right Nat.add 0 (List.map (fun kv => length (snd kv)) sections).
Proof.
  unfold items_total, sections_out. induction sections as [|[k items] rest IH]; simpl; [done|].
  f_equal. exact IH.
Qed.

Lemma merge_step_length (merged : list StepEntry) (item : StepEntry) :
  length (merge_step L merged item) <= S (length merged).
Proof. unfold merge_step. repeat case_match; simpl; lia. Qed.

Lemma merge_steps_length (steps merged : list StepEntry) :
  length (fold_left (merge_step L) steps merged) <= length merged + length steps.
Proof.
  revert merged. induction steps as [|item rest IH]; intros merged; simpl; [lia|].
  specialize (IH (merge_step L merged item)).
  pose proof (merge_step_length merged item). lia.
Qed.

(** Merging wrapped steps never adds a step, and numbers the steps it
    returns 0, 1, 2, ... in order. *)
Theorem merge_wrapped_steps_numbered (steps : list StepEntry) :
  length (_merge_wrapped_steps L steps) <= length steps /\
  List.map step_index (_merge_wrapped_steps L steps)
  = List.seq 0 (length (_merge_wrapped_steps L steps)).
Proof.
  unfold _merge_wrapped_steps.
  destruct (reindex_spec (rev (fold_left (merge_step L) steps [])) 0) as (H1 & H2 & _).
  rewrite H2, H1, length_rev. split; [|done].
  pose proof (merge_steps_length steps []). simpl in *. lia.
Qed.

(** In every assembled recipe the steps are numbered 0, 1, 2, ... in order,
    the statistics are the lengths of the lists they describe, and the two
    section indexes name each section once and list every ingredient and
    every step exactly once. *)
Theorem assembled_recipe_consistent (rows : list Row) (source_url source_title : str) :
  let r := _assemble_app_recipe L rows source_url source_title in
  List.map step_index (r_steps r) = List.seq 0 (length (r_steps r)) /\
  ingredient_count (r_stats r) = length (r_ingredients r) /\
  step_count (r_stats r) = length (r_steps r) /\
  ingredient_section_count (r_stats r) = length (r_ingredientSections r) /\
  step_section_count (r_stats r) = length (r_stepSections r) /\
  items_total (r_ingredientSections r) = length (r_ingredients r) /\
  items_total (r_stepSections r) = length (r_steps r).
Proof.
  intros r. subst r. unfold _assemble_app_recipe.
  repeat match goal with
         | |- context [let '(_, _) := ?x in _] => destruct x
         end.
  cbn [r_steps r_stats r_ingredients r_ingredientSections r_stepSections
       ingredient_count step_count ingredient_section_count step_section_count].
  split; [|repeat split].
  - unfold _merge_wrapped_steps.
    match goal with
    | |- context [reindex 0 ?items] => destruct (reindex_spec items 0) as (H1 & H2 & _)
    end.
    by rewrite H2, H1.
  - rewrite sections_out_total. apply section_index_spec.
  - rewrite sections_out_total. apply section_index_spec.
Qed.

Lemma assign_sections_spec (items : list IngredientEntry) (idx split_index : nat)
    (split_name : str) :
  List.map (fun item => (ing_name item, ing_quantity item, ing_additionalQuantities item,
                         ing_note item))
           (assign_sections idx split_index split_name items)
  = List.map (fun item => (ing_name item, ing_quantity item, ing_additionalQuantities item,
                           ing_note item)) items /\
  List.map ing_section (assign_sections idx split_index split_name items)
  = List.map (fun i => if Nat.ltb i split_index then None else Some split_name)
             (List.seq idx (length items)).
Proof.
  revert idx. induction items as [|item rest IH]; intros idx; simpl; [done|].
  destruct (IH (S idx)) as [H1 H2]. by rewrite H1, H2.
Qed.

Lemma sauce_marker_name (item : IngredientEntry) (split_name : str) :
  sauce_marker L item = Some split_name ->
  split_name = py "Sauce" \/ split_name = py "For Serving".
Proof.
  unfold sauce_marker. repeat case_match; intros [= <-]; auto.
Qed.

Lemma find_split_name (items : list IngredientEntry) (idx k : nat) (split_name : str) :
  find_split L idx items = Some (k, split_name) ->
  split_name = py "Sauce" \/ split_name = py "For Serving".
Proof.
  revert idx. induction items as [|item rest IH]; intros idx; simpl; [discriminate|].
  destruct (sauce_marker L item) as [name|] eqn:E; [|apply IH].
  intros [= _ <-]. exact (sauce_marker_name item name E).
Qed.

(** The sauce split touches nothing but the sections: names, quantities,
    notes and order of the ingredients stay.  Either the sections stay too,
    or the first [k] ingredients get no section and all later ones get one
    same section, "Sauce" or "For Serving", with at least two ingredients on
    each side. *)
Theorem sauce_split_only_sections (ingredients_ : list IngredientEntry)
    (steps_ : list StepEntry) :
  let out := _infer_sauce_section_split L ingredients_ steps_ in
  List.map (fun item => (ing_name item, ing_quantity item, ing_additionalQuantities item,
                         ing_note item)) out
  = List.map (fun item => (ing_name item, ing_quantity item, ing_additionalQuantities item,
                           ing_note item)) ingredients_ /\
  (out = ingredients_ \/
   exists (k : nat) (split_name : str),
     2 <= k /\ k + 2 <= length ingredients_ /\
     (split_name = py "Sauce" \/ split_name = py "For Serving") /\
     List.map ing_section out
     = repeat None k ++ repeat (Some split_name) (length ingredients_ - k)).
Proof.
  intros out. subst out. unfold _infer_sauce_section_split.
  destruct (Nat.ltb (length ingredients_) 6); [split; [reflexivity|by left]|].
  destruct (existsb _ ingredients_); [split; [reflexivity|by left]|].
  destruct (negb _); [split; [reflexivity|by left]|].
  destruct (find_split L 0 (firstn (length ingredients_ - 2) ingredients_))
    as [[k split_name]|] eqn:Efind; [|split; [reflexivity|by left]].
  destruct (Nat.ltb k 2 || Nat.ltb (length ingredients_ - k) 2) eqn:Ebounds;
    [split; [reflexivity|by left]|].
  destruct (assign_sections_spec ingredients_ 0 k split_name) as [Hkeep Hsections].
  split; [exact Hkeep|]. right. exists k, split_name.
  apply orb_false_iff in Ebounds as [Ha Hb]. apply Nat.ltb_ge in Ha, Hb.
  split; [done|]. split; [lia|]. split.
  - exact (find_split_name _ _ _ _ Efind).
  - rewrite Hsections. clear -Ha Hb.
    replace (length ingredients_) with (k + (length ingredients_ - k)) at 1 by lia.
    rewrite seq_app, map_app. f_equal.
    + assert (forall j len, j + len <= k ->
                List.map (fun i => if Nat.ltb i k then None else Some split_name)
                         (List.seq j len)
                = repeat (@None str) len) as H.
      { intros j len. revert j. induction len as [|len IH]; intros j Hj; simpl; [done|].
        destruct (Nat.ltb_spec j k); [|lia]. f_equal. apply IH. lia. }
      apply H. lia.
    + assert (forall j len, k <= j ->
                List.map (fun i => if Nat.ltb i k then None else Some split_name)
                         (List.seq j len)
                = repeat (Some split_name) len) as H.
      { intros j len. revert j. induction len as [|len IH]; intros j Hj; simpl; [done|].
        destruct (Nat.ltb_spec j k); [lia|]. f_equal. apply IH. lia. }
      apply H. lia.
Qed.

Lemma assemble_rows_usable (rows : list Row) (st : assembly) :
  fold_left (assemble_row L) (List.filter (usable_row L) rows) st
  = fold_left (assemble_row L) rows st.
Proof.
  revert st. induction rows as [|row rows IH]; intros st; simpl; [done|].
  unfold usable_row at 1.
  destruct (row_label_of L row) as [lbl|] eqn:El; cbn [matched andb].
  - destruct (str_eqb (_clean_text L (row_text row)) []) eqn:Et; cbn [negb].
    + rewrite IH. f_equal. unfold assemble_row. by rewrite El, Et.
    + simpl. apply IH.
  - rewrite IH. f_equal. unfold assemble_row. by rewrite El.
Qed.

Lemma title_from_rows_usable (rows : list Row) :
  title_from_rows L (List.filter (usable_row L) rows) = title_from_rows L rows.
Proof.
  induction rows as [|row rows IH]; simpl; [done|].
  unfold usable_row at 1.
  destruct (row_label_of L row) as [lbl|] eqn:El; cbn [matched andb]; [|exact IH].
  destruct (str_eqb (_clean_text L (row_text row)) []) eqn:Et; cbn [negb]; [exact IH|].
  simpl. rewrite El, Et, IH. reflexivity.
Qed.

(** Rows whose label is not one of the six labels, and rows whose text is
    blank, have no influence on the recipe: the assembler gives the same
    recipe with and without them. *)
Theorem unusable_rows_ignored (rows : list Row) (source_url source_title : str) :
  _assemble_app_recipe L (List.filter (usable_row L) rows) source_url source_title
  = _assemble_app_recipe L rows source_url source_title.
Proof.
  unfold _assemble_app_recipe.
  rewrite assemble_rows_usable, title_from_rows_usable. reflexivity.
Qed.
End RecipeShape.


(** ** lab_predictor.py *)

Section PredictorFacts.
Context (L : PyLib).

Lemma predict_from_aligned (m : NGramNaiveBayesClassifier) (lines : list str) (idx : nat)
    (active_section : option Label) (out : list LabeledLine) :
  predict_from L m idx lines active_section = Some out ->
  List.map ll_index out = List.seq idx (length lines) /\ List.map ll_text out = lines.
Proof.
  revert idx active_section out.
  induction lines as [|line rest IH]; intros idx active_section out; simpl.
  - by intros [= <-].
  - destruct (predict_with_confidence L m line) as [[[lbl c] probs]|]; [|discriminate].
    cbn [mbind option_bind].
    repeat match goal with
           | |- context [let '(_, _) := ?x in _] => destruct x
           end.
    destruct (predict_from L m (S idx) rest _) as [rest_out|] eqn:E; [|discriminate].
    cbn [mbind option_bind]. intros [= <-]. cbn [List.map ll_index ll_text].
    destruct (IH _ _ _ E) as [H1 H2]. by rewrite H1, H2.
Qed.

(** [Predictor.predict] answers with one entry per line, in order, each
    with the position and the text of its line; without a loaded model it
    raises. *)
Theorem predict_one_entry_per_line (model : option NGramNaiveBayesClassifier)
    (lines : list str) (out : list LabeledLine) :
  Predictor_predict L model lines = Some out ->
  is_Some model /\
  List.map ll_index out = List.seq 0 (length lines) /\
  List.map ll_text out = lines.
Proof.
  unfold Predictor_predict. destruct model as [m|]; [|discriminate].
  cbn [mbind option_bind]. intros H. split; [by eexists|].
  exact (predict_from_aligned m lines 0 None out H).
Qed.

(** Inside a section the predictor only emits the label of the section or
    header: from a point where the active section is the note or the step
    section, and as long as no line is a section header, every line is
    labelled with that section or as a header; in the ingredient section a
    line the classifier calls a title may keep that label. *)
Theorem active_section_sticks (m : NGramNaiveBayesClassifier) (lines : list str) (idx : nat)
    (section_ : Label) (out : list LabeledLine) :
  predict_from L m idx lines (Some section_) = Some out ->
  0 < idx ->
  In section_ [note; step; ingredient] ->
  Forall (fun line => predictor_header_section L line = None) lines ->
  Forall (fun entry => ll_label entry = section_ \/ ll_label entry = header \/
                       (section_ = ingredient /\ ll_label entry = title)) out.
Proof.
  intros Hrun Hidx Hsec Hall. revert idx out Hidx Hrun.
  induction Hall as [|line rest Hline _ IH]; intros idx out Hidx; simpl.
  - intros [= <-]. constructor.
  - destruct (predict_with_confidence L m line) as [[[lbl c] probs]|]; [|discriminate].
    cbn [mbind option_bind]. rewrite Hline.
    assert (_looks_like_title_line L line idx = false) as ->.
    { unfold _looks_like_title_line. destruct (Nat.eqb_spec idx 0); [lia|done]. }
    destruct (_looks_like_header L line).
    + destruct (predict_from L m (S idx) rest (Some section_)) as [rest_out|] eqn:E;
        [|discriminate].
      cbn [mbind option_bind]. intros [= <-]. constructor; [cbn; auto|].
      apply (IH (S idx)); [lia|done].
    + destruct Hsec as [<-|[<-|[<-|[]]]]; destruct lbl; cbn [label_eqb negb andb];
        (destruct (predict_from L m (S idx) rest _) as [rest_out|] eqn:E; [|discriminate]);
        cbn [mbind option_bind]; intros [= <-];
        (constructor; [cbn; auto|apply (IH (S idx)); [lia|done]]).
Qed.
End PredictorFacts.

Lemma predict_one_entry_per_line_witness :
  exists out : list LabeledLine,
    Predictor_predict latin1 (Some untrained) [py "Lemon Bars"] = Some out /\
    List.map ll_text out = [py "Lemon Bars"].
Proof.
  destruct (predict_rule latin1 untrained (py "Lemon Bars") title 0.78%Q eq_refl)
    as [probs Hp]; [vm_compute; reflexivity|].
  assert (exists out, Predictor_predict latin1 (Some untrained) [py "Lemon Bars"] = Some out)
    as [out Hout].
  { unfold Predictor_predict. cbn [mbind option_bind predict_from]. rewrite Hp.
    cbn [mbind option_bind].
    repeat match goal with
           | |- context [let '(_, _) := ?x in _] => destruct x
           end.
    by eexists. }
  exists out. split; [exact Hout|].
  exact (proj2 (proj2 (predict_one_entry_per_line latin1 (Some untrained) [py "Lemon Bars"]
                         out Hout))).
Defined.

Lemma active_section_sticks_witness :
  exists out : list LabeledLine,
    predict_from latin1 untrained 1 [py "Lemon Bars"] (Some note) = Some out /\
    Forall (fun entry => ll_label entry = note \/ ll_label entry = header \/
                         (note = ingredient /\ ll_label entry = title)) out.
Proof.
  destruct (predict_rule latin1 untrained (py "Lemon Bars") title 0.78%Q eq_refl)
    as [probs Hp]; [vm_compute; reflexivity|].
  assert (exists out, predict_from latin1 untrained 1 [py "Lemon Bars"] (Some note) = Some out)
    as [out Hout].
  { cbn [predict_from]. rewrite Hp. cbn [mbind option_bind].
    repeat match goal with
           | |- context [let '(_, _) := ?x in _] => destruct x
           end.
    by eexists. }
  exists out. split; [exact Hout|].
  apply (active_section_sticks latin1 untrained [py "Lemon Bars"] 1 note out Hout).
  - lia.
  - simpl. tauto.
  - apply List.Forall_cons; [vm_compute; reflexivity|apply List.Forall_nil].
Defined.


(** ** validate_dataset *)

Lemma flat_map_nil {A B : Type} (f : A -> list B) (l : list A) :
  flat_map f l = [] <-> Forall (fun x => f x = []) l.
Proof.
  induction l as [|x l IH]; simpl; [split; [constructor|done]|].
  rewrite Forall_cons, <- IH. split.
  - intros H. by apply app_eq_nil in H.
  - intros [-> ->]. done.
Qed.

Lemma documents_errors_nil (documents : list (str * DatasetDocument)) (rows : list LineRow) :
  documents_errors documents rows = Some [] <->
  Forall (fun kv => document_errors (fst kv) (snd kv) rows = Some []) documents.
Proof.
  induction documents as [|[doc document] rest IH]; simpl; [split; [constructor|done]|].
  rewrite Forall_cons, <- IH. cbn [fst snd].
  destruct (document_errors doc document rows) as [here|]; cbn [mbind option_bind];
    [|split; [discriminate|intros [[=] _]]].
  destruct (documents_errors rest rows) as [later|]; cbn [mbind option_bind];
    [|split; [discriminate|intros [_ [=]]]].
  split.
  - intros [= H]. apply app_eq_nil in H as [-> ->]. done.
  - intros [[= ->] [= ->]]. done.
Qed.

Lemma text_errors_nil (doc : str) (lines : list str) (doc_rows : list LineRow) :
  Forall (fun row => (0 <= line_index row < Z.of_nat (length lines))%Z) doc_rows ->
  (text_errors doc lines doc_rows = Some [] <->
   Forall (fun row => nth_error lines (Z.to_nat (line_index row)) = Some (text row)) doc_rows).
Proof.
  induction 1 as [|row rest [H0 H1] _ IH]; simpl; [split; [constructor|done]|].
  rewrite Forall_cons, <- IH.
  destruct (Z.ltb_spec (line_index row) (Z.of_nat (length lines))) as [_|]; [|lia].
  unfold py_index. destruct (Z.leb_spec 0 (line_index row)) as [_|]; [|lia].
  destruct (nth_error lines (Z.to_nat (line_index row))) as [expected_text|] eqn:E;
    cbn [mbind option_bind]; [|split; [discriminate|intros [[=] _]]].
  destruct (text_errors doc lines rest) as [later|]; cbn [mbind option_bind];
    [|split; [destruct (str_eqb expected_text (text row)); discriminate|intros [_ [=]]]].
  destruct (str_eqb expected_text (text row)) eqn:Eq.
  - apply str_eqb_eq in Eq. subst. cbn [app]. split.
    + intros [= ->]. done.
    + intros [_ [= ->]]. done.
  - split; [discriminate|]. intros [[= ->] _]. rewrite str_eqb_refl in Eq. discriminate.
Qed.

Lemma index_range_spec (n : nat) (i : Z) :
  i ∈ index_range n <-> (0 <= i < Z.of_nat n)%Z.
Proof.
  unfold index_range. rewrite list_elem_of_In, in_map_iff. split.
  - intros (k & <- & Hk). apply in_seq in Hk. lia.
  - intros Hi. exists (Z.to_nat i). split; [lia|]. apply in_seq. lia.
Qed.

Lemma index_range_NoDup (n : nat) : NoDup (index_range n).
Proof.
  unfold index_range. apply NoDup_ListNoDup, Finite.Injective_map_NoDup; [|apply seq_NoDup].
  intros a b. apply Nat2Z.inj.
Qed.

Lemma index_range_length (n : nat) : length (index_range n) = n.
Proof. unfold index_range. by rewrite length_map, length_seq. Qed.

(** A list of [n] indices whose set is that of the range 0 .. n-1 is a
    rearrangement of that range. *)
Lemma indices_permutation (indices : list Z) (n : nat) :
  length indices = n ->
  (list_to_set indices : gset Z) = list_to_set (index_range n) ->
  indices ≡ₚ index_range n.
Proof.
  intros Hlen Hset. symmetry. apply submseteq_length_Permutation.
  - apply NoDup_submseteq; [apply index_range_NoDup|].
    intros i Hi. apply (elem_of_list_to_set (C := gset Z)). rewrite Hset.
    by apply elem_of_list_to_set.
  - rewrite index_range_length. lia.
Qed.

Lemma sorted_documents_lookup (documents : gmap str DatasetDocument) (doc : str)
    (document : DatasetDocument) :
  (doc, document) ∈ sorted key_leb (map_to_list documents) <-> documents !! doc = Some document.
Proof. rewrite sorted_elem. apply elem_of_map_to_list. Qed.

Lemma document_errors_nil (doc : str) (document : DatasetDocument) (rows : list LineRow) :
  document_errors doc document rows = Some [] <-> document_well_formed doc document rows.
Proof.
  unfold document_errors, document_well_formed.
  set (doc_rows := rows_of_doc doc rows). clearbody doc_rows.
  set (field_errors := flat_map _ REQUIRED_RECIPE_FIELDS).
  assert (Hfields : field_errors = [] <->
                    Forall (fun field => In field (target_recipe document))
                           REQUIRED_RECIPE_FIELDS).
  { subst field_errors. rewrite flat_map_nil. apply Forall_iff. intros field.
    destruct (mem_str field (target_recipe document)) eqn:E.
    - split; [intros _; by apply mem_str_in|done].
    - split; [discriminate|]. intros Hin. exfalso.
      assert (mem_str field (target_recipe document) = true); [|congruence].
      apply existsb_exists. exists field. split; [done|apply str_eqb_refl]. }
  clearbody field_errors.
  destruct doc_rows as [|r rs] eqn:Erows.
  - split.
    + intros [= H]. apply app_eq_nil in H as [_ [=]].
    + intros (_ & Hlen & _). cbn in Hlen. lia.
  - rewrite <- Erows. assert (0 < length doc_rows) as Hpos by (subst; cbn; lia).
    clear Erows r rs.
    destruct (Nat.eqb_spec (length (normalized_lines document)) (length doc_rows)) as [Hlen|Hlen].
    2:{ split.
        - destruct (text_errors _ _ _); cbn [mbind option_bind]; [|discriminate].
          intros [= H]. apply app_eq_nil in H as [_ H]. discriminate.
        - intros (_ & _ & Hl & _). lia. }
    destruct (decide ((list_to_set (List.map line_index doc_rows) : gset Z)
                      = list_to_set (index_range (length doc_rows)))) as [Hset|Hset].
    2:{ split.
        - destruct (text_errors _ _ _); cbn [mbind option_bind]; [|discriminate].
          intros [= H]. apply app_eq_nil in H as [_ H]. discriminate.
        - intros (_ & _ & _ & Hperm & _). exfalso. apply Hset.
          rewrite Hlen in Hperm. apply set_eq. intros i.
          rewrite !elem_of_list_to_set. by rewrite Hperm. }
    assert (Hperm : List.map line_index doc_rows ≡ₚ index_range (length doc_rows))
      by (apply indices_permutation; [apply length_map|exact Hset]).
    assert (Hbounds : Forall (fun row => (0 <= line_index row
                                          < Z.of_nat (length (normalized_lines document)))%Z)
                             doc_rows).
    { apply Forall_forall. intros row Hrow. rewrite Hlen. apply index_range_spec.
      rewrite <- Hperm. apply list_elem_of_In, in_map, list_elem_of_In, Hrow. }
    pose proof (text_errors_nil doc (normalized_lines document) doc_rows Hbounds) as Htext.
    cbn [app]. split.
    + destruct (text_errors _ _ _) as [mismatches|]; cbn [mbind option_bind]; [|discriminate].
      intros [= H]. apply app_eq_nil in H as [Hf ->].
      split; [by apply Hfields|]. split; [done|]. split; [done|].
      split; [by rewrite Hlen|]. by apply Htext.
    + intros (Hf & _ & _ & _ & Ht). apply Htext in Ht. rewrite Ht. cbn [mbind option_bind].
      apply Hfields in Hf. by rewrite Hf.
Qed.

(** [validate_dataset] accepts a dataset exactly when it is well formed:
    every row has one of the six labels and belongs to a document, there is
    at least one document, and every document has the required recipe fields
    and one labelled row per line, indexed from 0 without gap and carrying
    the text of its line. *)
Theorem validate_dataset_sound_and_complete (documents : gmap str DatasetDocument)
    (rows : list LineRow) :
  (exists result, validate_dataset documents rows = Some result /\ is_valid result = true)
  <->
  documents <> ∅ /\
  Forall (fun row => is_Some (label_of_str (label row)) /\ is_Some (documents !! doc_id row))
         rows /\
  (forall doc document, documents !! doc = Some document ->
     document_well_formed doc document rows).
Proof.
  unfold validate_dataset.
  set (label_errors := flat_map _ rows).
  assert (Hlabels : label_errors = [] <->
                    Forall (fun row => is_Some (label_of_str (label row))) rows).
  { subst label_errors. rewrite flat_map_nil. apply Forall_iff. intros row.
    destruct (label_of_str (label row)) as [l|].
    - split; [by eexists|done].
    - split; [discriminate|intros [? [=]]]. }
  clearbody label_errors.
  set (unknown := flat_map _ (sorted_elements (list_to_set (List.map doc_id rows)))).
  assert (Hunknown : unknown = [] <-> Forall (fun row => is_Some (documents !! doc_id row)) rows).
  { subst unknown. rewrite flat_map_nil, !Forall_forall. split.
    - intros H row Hrow.
      assert (doc_id row ∈ sorted_elements (list_to_set (List.map doc_id rows))) as Hin.
      { apply sorted_elements_elem, elem_of_list_to_set, list_elem_of_In, in_map,
          list_elem_of_In, Hrow. }
      specialize (H _ Hin). destruct (documents !! doc_id row); [by eexists|discriminate].
    - intros H doc Hdoc.
      apply sorted_elements_elem, elem_of_list_to_set, list_elem_of_In, in_map_iff in Hdoc
        as (row & <- & Hrow).
      apply list_elem_of_In, H in Hrow as [document ->]. done. }
  clearbody unknown.
  assert (Hdocs : documents_errors (sorted key_leb (map_to_list documents)) rows = Some [] <->
                  forall doc document, documents !! doc = Some document ->
                    document_well_formed doc document rows).
  { rewrite documents_errors_nil, Forall_forall. split.
    - intros H doc document Hlook. apply document_errors_nil.
      apply (H (doc, document)). by apply sorted_documents_lookup.
    - intros H [doc document] Hin. apply document_errors_nil, H.
      by apply sorted_documents_lookup. }
  destruct (documents_errors (sorted key_leb (map_to_list documents)) rows)
    as [per_document|]; cbn [mbind option_bind].
  2:{ split; [intros (? & [=] & _)|].
      intros (_ & _ & H). apply Hdocs in H. discriminate. }
  split.
  - intros (result & [= <-] & Hvalid). cbn [is_valid] in Hvalid.
    destruct (label_errors ++ _) eqn:E; [|discriminate].
    apply app_eq_nil in E as [El E]. apply app_eq_nil in E as [Ed E].
    apply app_eq_nil in E as [Ep Eu]. subst per_document.
    split; [by destruct (decide (documents = ∅))|].
    split; [|by apply Hdocs].
    apply Hlabels in El. apply Hunknown in Eu.
    apply Forall_forall. intros row Hrow.
    split; [exact (proj1 (Forall_forall _ _) El row Hrow)
           |exact (proj1 (Forall_forall _ _) Eu row Hrow)].
  - intros (Hne & Hrows & Hwf). eexists. split; [reflexivity|]. cbn [is_valid].
    apply Hdocs in Hwf. injection Hwf as ->.
    destruct (decide (documents = ∅)) as [|_]; [done|].
    assert (label_errors = []) as ->.
    { apply Hlabels. eapply Forall_impl; [exact Hrows|]. by intros row [? _]. }
    assert (unknown = []) as ->.
    { apply Hunknown. eapply Forall_impl; [exact Hrows|]. by intros row [_ ?]. }
    reflexivity.
Qed.

Lemma validate_dataset_sound_and_complete_witness :
  document_well_formed (py "a") soup_document two_rows.
Proof.
  apply (proj1 (validate_dataset_sound_and_complete {[py "a" := soup_document]} two_rows)).
  - eexists. split; [vm_compute; reflexivity|reflexivity].
  - apply lookup_singleton_eq.
Defined.
